(** * dwar2pd: DataWarrior documents to tables

    A shallow embedding of [dwar2pd/decode.py] and [dwar2pd/parser.py].

    Conventions of the embedding:
    - a Python [str] is a [string]; a character is the code point of the
      same number, so the model covers the code points 0..255, and the
      character classes of [strip], [splitlines], [lower] and [int] are
      those of Python on that range;
    - a table cell is an [option string]: [None] is the missing value that
      pandas (with object columns) puts in the cells of a short row;
    - a table is its list of column names and its list of rows; the pandas
      operations that [parser.py] uses are modelled on it, repeated column
      labels included;
    - Python exceptions are values of [exn], a computation that may raise
      returns a [result];
    - the decoder process is an oracle [node]; the batches handed to it are
      logged in the [World], so that "the decoder was not called" is a
      statement about the log;
    - [main] starts from the parsed command line; the file system is a
      set of oracles, and what [main] prints and writes is a list of
      events;
    - [LoadDwar] starts from the text of the file; its parameter
      [smiles_column] is not used by the code and is left out. *)

From Stdlib Require Import String Ascii List ZArith NArith Lia Bool Arith.
From Stdlib Require Import DecimalString Decimal.
Import ListNotations.

Open Scope string_scope.
Open Scope list_scope.

(* ================================================================== *)
(** ** Python's built-in string operations *)
(* ================================================================== *)

Module PyStr.

Definition TAB : ascii := "009"%char.
Definition LF : ascii := "010"%char.
Definition CR : ascii := "013"%char.
Definition DQUOTE : ascii := "034"%char.

Definition tab : string := String TAB "".
Definition nl : string := String LF "".
Definition dq : string := String DQUOTE "".

(** [bool(s)] of a string. *)
Definition nonempty (s : string) : bool :=
  match s with "" => false | String _ _ => true end.

Definition in_range (lo hi n : N) : bool := ((lo <=? n) && (n <=? hi))%N.

(** [str.isspace] on one character, for the code points below 256. *)
Definition isspace (c : ascii) : bool :=
  let n := N_of_ascii c in
  in_range 9 13 n || in_range 28 32 n || (n =? 133)%N || (n =? 160)%N.

(** The line boundaries of [str.splitlines], for the code points below 256. *)
Definition is_linebreak (c : ascii) : bool :=
  let n := N_of_ascii c in
  in_range 10 13 n || in_range 28 30 n || (n =? 133)%N.

Definition is_digit (c : ascii) : bool := in_range 48 57 (N_of_ascii c).

Definition digit_value (c : ascii) : Z := Z.of_N (N_of_ascii c) - 48.

(** [str.lower] on one character: A-Z and the upper-case letters of
    Latin-1 (all of 192..222 but the multiplication sign 215). *)
Definition lower_char (c : ascii) : ascii :=
  let n := N_of_ascii c in
  if in_range 65 90 n || in_range 192 214 n || in_range 216 222 n
  then ascii_of_N (n + 32) else c.

Fixpoint lower (s : string) : string :=
  match s with
  | "" => ""
  | String c r => String (lower_char c) (lower r)
  end.

(** [s.startswith(p)] *)
Definition startswith (p s : string) : bool := String.prefix p s.

(** What follows the prefix [p] in [s], when [s] starts with [p]. *)
Fixpoint strip_prefix (p s : string) : option string :=
  match p, s with
  | "", _ => Some s
  | String a p', String b s' =>
      if (a =? b)%char then strip_prefix p' s' else None
  | String _ _, "" => None
  end.

(** [sub in s] *)
Fixpoint contains (sub s : string) : bool :=
  String.prefix sub s ||
  match s with
  | "" => false
  | String _ r => contains sub r
  end.

(** [s.endswith(suf)]: some suffix of [s] is [suf]. *)
Fixpoint endswith (suf s : string) : bool :=
  (s =? suf) ||
  match s with
  | "" => false
  | String _ r => endswith suf r
  end.

Fixpoint lstrip (s : string) : string :=
  match s with
  | "" => ""
  | String c r => if isspace c then lstrip r else s
  end.

Fixpoint rstrip (s : string) : string :=
  match s with
  | "" => ""
  | String c r =>
      let r' := rstrip r in
      if isspace c && negb (nonempty r') then "" else String c r'
  end.

(** [s.strip()] *)
Definition strip (s : string) : string := rstrip (lstrip s).

(** [s.split(sep)] for a separator of one character. *)
Fixpoint split (sep : ascii) (s : string) : list string :=
  match s with
  | "" => [""]
  | String c r =>
      if (c =? sep)%char then "" :: split sep r
      else match split sep r with
           | f :: fs => String c f :: fs
           | [] => [String c ""]
           end
  end.

(** [s.split(sep, 1)] for a separator of one character: the text before
    the first separator and, when there is one, the text after it. *)
Fixpoint split_once (sep : ascii) (s : string) : string * option string :=
  match s with
  | "" => ("", None)
  | String c r =>
      if (c =? sep)%char then ("", Some r)
      else let (a, b) := split_once sep r in (String c a, b)
  end.

(** The text after the first occurrence of [sep] in [s]. *)
Fixpoint str_after (sep s : string) : option string :=
  match strip_prefix sep s with
  | Some r => Some r
  | None => match s with
            | "" => None
            | String _ r => str_after sep r
            end
  end.

(** The text before the first occurrence of [sep] in [s] (all of [s]
    when there is none). *)
Fixpoint str_before (sep s : string) : string :=
  if String.prefix sep s then ""
  else match s with
       | "" => ""
       | String c r => String c (str_before sep r)
       end.

(** [s.split(sep)[1]] for a non-empty [sep]: the piece between the first
    occurrence of [sep] and the next one; [None] is Python's IndexError. *)
Definition split_piece1 (sep s : string) : option string :=
  match str_after sep s with
  | Some r => Some (str_before sep r)
  | None => None
  end.

(** [s.splitlines()] *)
Fixpoint splitlines (s : string) : list string :=
  match s with
  | "" => []
  | String c r =>
      if is_linebreak c then
        match r with
        | String c' r' =>
            if (c =? CR)%char && (c' =? LF)%char
            then "" :: splitlines r'
            else "" :: splitlines r
        | "" => [""]
        end
      else match splitlines r with
           | l :: ls => String c l :: ls
           | [] => [String c ""]
           end
  end.

(** The digits of a decimal literal, single underscores allowed between
    digits. [prev] says that the previous character was a digit. *)
Fixpoint int_digits (prev : bool) (acc : Z) (s : string) : option Z :=
  match s with
  | "" => if prev then Some acc else None
  | String c r =>
      if is_digit c then int_digits true (10 * acc + digit_value c) r
      else if (c =? "_")%char && prev then int_digits false acc r
      else None
  end.

(** The white space that [int] skips around a literal, for the code
    points below 256: the C white space 9..13 and 32, and the two code
    points above 126 that [str.isspace] accepts. The separators 28..31
    are white space for [strip] but not for [int]. *)
Definition int_space (c : ascii) : bool :=
  let n := N_of_ascii c in
  in_range 9 13 n || (n =? 32)%N || (n =? 133)%N || (n =? 160)%N.

Fixpoint lstrip_by (p : ascii -> bool) (s : string) : string :=
  match s with
  | "" => ""
  | String c r => if p c then lstrip_by p r else s
  end.

Fixpoint rstrip_by (p : ascii -> bool) (s : string) : string :=
  match s with
  | "" => ""
  | String c r =>
      let r' := rstrip_by p r in
      if p c && negb (nonempty r') then "" else String c r'
  end.

(** The number of digits of a literal. *)
Fixpoint count_digits (s : string) : nat :=
  match s with
  | "" => 0
  | String c r => (if is_digit c then 1 else 0) + count_digits r
  end.

(** [sys.get_int_max_str_digits()], at its default (CPython 3.11 and
    later). *)
Definition int_max_str_digits : nat := 4300.

(** The unsigned part of a literal: its value, unless it is malformed
    or has more digits than the interpreter converts. *)
Definition int_literal (s : string) : option Z :=
  if (int_max_str_digits <? count_digits s)%nat then None
  else int_digits false 0 s.

(** [int(s)]: surrounding white space, an optional sign, decimal digits;
    [None] is Python's ValueError. *)
Definition py_int (s : string) : option Z :=
  let t := rstrip_by int_space (lstrip_by int_space s) in
  match t with
  | String "-" r => option_map Z.opp (int_literal r)
  | String "+" r => int_literal r
  | _ => int_literal t
  end.

(** [l[z]] with Python's negative indices; [None] is IndexError. *)
Definition py_index {A} (l : list A) (z : Z) : option A :=
  let n := Z.of_nat (length l) in
  if (0 <=? z)%Z then nth_error l (Z.to_nat z)
  else if (- n <=? z)%Z then nth_error l (Z.to_nat (n + z))
  else None.

(** [sep.join(l)] *)
Fixpoint join (sep : string) (l : list string) : string :=
  match l with
  | [] => ""
  | [x] => x
  | x :: r => x ++ sep ++ join sep r
  end.

(** [str(n)] of a natural number. *)
Definition str_of_nat (n : nat) : string :=
  NilEmpty.string_of_uint (Nat.to_uint n).

End PyStr.

Import PyStr.

(* ================================================================== *)
(** ** Exceptions, results and the world *)
(* ================================================================== *)

Inductive exn : Type :=
| ValueError
| IndexError
| KeyError
| AttributeError
| TimeoutExpired
| CalledProcessError
| OtherError.

Inductive result (A : Type) : Type :=
| Ok (a : A)
| Raise (e : exn).
Arguments Ok {A} a.
Arguments Raise {A} e.

(** How one run of the decoder process ends. *)
Inductive run_outcome : Type :=
| Completed (stdout : string)   (* exit status 0 *)
| TimedOut                      (* no answer within the timeout *)
| ExitedNonZero                 (* check=True turns it into an exception *)
| Failed.                       (* any other exception of subprocess.run *)

(** The batches handed to the decoder process so far, oldest first. *)
Definition World : Type := list (list string).

(** Computations that may call the decoder and may raise. *)
Definition M (A : Type) : Type := World -> result A * World.

Definition ret {A} (a : A) : M A := fun w => (Ok a, w).

Definition raise {A} (e : exn) : M A := fun w => (Raise e, w).

Definition bind {A B} (m : M A) (k : A -> M B) : M B :=
  fun w => match m w with
           | (Ok a, w') => k a w'
           | (Raise e, w') => (Raise e, w')
           end.

Definition lift {A} (r : result A) : M A := fun w => (r, w).

(** [try: body / except ...: handler] *)
Definition try_except {A} (body : M A) (handler : exn -> M A) : M A :=
  fun w => match body w with
           | (Ok a, w') => (Ok a, w')
           | (Raise e, w') => handler e w'
           end.

Notation "x <- m ;; k" := (bind m (fun x => k))
  (at level 61, m at next level, right associativity).

(** A table cell. *)
Definition cell : Type := option string.

Definition cell_eqb (a b : cell) : bool :=
  match a, b with
  | Some x, Some y => (x =? y)%string
  | None, None => true
  | _, _ => false
  end.

(* ================================================================== *)
(** ** decode.py *)
(* ================================================================== *)

Section Decode.

(** The decoder process: what it answers to a batch, given the batches
    it has been handed before. *)
Variable node : World -> list string -> run_outcome.

(** [subprocess.run(["node", script] + valid_idcodes, check=True,
    timeout=30).stdout] *)
Definition subprocess_run (batch : list string) : M string :=
  fun w =>
    (match node w batch with
     | Completed out => Ok out
     | TimedOut => Raise TimeoutExpired
     | ExitedNonZero => Raise CalledProcessError
     | Failed => Raise OtherError
     end, w ++ [batch]).

(** [ic and ic.strip()] *)
Definition is_valid (ic : cell) : bool :=
  match ic with
  | Some s => nonempty s && nonempty (strip s)
  | None => false
  end.

(** [[ic for ic in idcodes if ic and ic.strip()]] *)
Fixpoint valid_idcodes (idcodes : list cell) : list string :=
  match idcodes with
  | [] => []
  | ic :: r =>
      match ic with
      | Some s => if is_valid ic then s :: valid_idcodes r else valid_idcodes r
      | None => valid_idcodes r
      end
  end.

Definition all_absent (idcodes : list cell) : list cell :=
  repeat None (length idcodes).

(** The inner loop: [results[i] = smiles] at every [i] whose identifier
    is the decoded one. *)
Fixpoint assign_matching (idcodes results : list cell)
    (decoded smiles : string) : list cell :=
  match idcodes, results with
  | orig :: ids, r :: rs =>
      (if cell_eqb orig (Some decoded) then Some smiles else r)
      :: assign_matching ids rs decoded smiles
  | _, _ => results
  end.

(** What one line of the decoder's answer says: nothing (no colon, or
    an ERROR: value), or a decoded identifier and its value. *)
Definition read_line (valid : list string) (line : string)
    : result (option (string * string)) :=
  if contains ":" line then
    match split_once ":" line with
    | (index_str, Some smiles) =>
        if negb (startswith "ERROR:" smiles) then
          match py_int index_str with
          | None => Raise ValueError
          | Some batch_index =>
              match py_index valid batch_index with
              | None => Raise IndexError
              | Some decoded_idcode => Ok (Some (decoded_idcode, smiles))
              end
          end
        else Ok None
    | (_, None) => Raise ValueError (* not reached: the line has a colon *)
    end
  else Ok None.

(** The body of the loop over the lines of the answer. *)
Definition parse_line (idcodes : list cell) (valid : list string)
    (results : list cell) (line : string) : result (list cell) :=
  match read_line valid line with
  | Ok None => Ok results
  | Ok (Some (decoded_idcode, smiles)) =>
      Ok (assign_matching idcodes results decoded_idcode smiles)
  | Raise e => Raise e
  end.

Fixpoint parse_lines (idcodes : list cell) (valid : list string)
    (results : list cell) (lines : list string) : result (list cell) :=
  match lines with
  | [] => Ok results
  | line :: rest =>
      match parse_line idcodes valid results line with
      | Ok results' => parse_lines idcodes valid results' rest
      | Raise e => Raise e
      end
  end.

Definition decode_idcodes (idcodes : list cell) : M (list cell) :=
  match idcodes with
  | [] => ret []
  | _ :: _ =>
      match valid_idcodes idcodes with
      | [] => ret (all_absent idcodes)
      | _ :: _ =>
          try_except
            (stdout <- subprocess_run (valid_idcodes idcodes) ;;
             lift (parse_lines idcodes (valid_idcodes idcodes)
                     (all_absent idcodes) (splitlines stdout)))
            (fun e =>
               match e with
               | TimeoutExpired | CalledProcessError =>
                   ret (all_absent idcodes)
               | _ => ret (all_absent idcodes)
               end)
      end
  end.

End Decode.

(* ================================================================== *)
(** ** parser.py: the document scanners *)
(* ================================================================== *)

Definition OPEN_TAG : string := "<column properties>".
Definition CLOSE_TAG : string := "</column properties>".

Definition is_dwar_file (content : string) : bool :=
  contains "<datawarrior-fileinfo>" content || contains OPEN_TAG content.

(** *** The column metadata *)

(** The attributes of one column: [{"type": ..., "specialType": ...,
    "parent": ...}], the last two optional. *)
Record col_props : Type := mk_props {
  ctype : string;
  specialType : option string;
  parent : option string
}.

Definition default_props : col_props := mk_props "string" None None.

(** A Python dict with string keys, in insertion order. *)
Definition dict (V : Type) : Type := list (string * V).

Fixpoint dict_get {V} (k : string) (d : dict V) : option V :=
  match d with
  | [] => None
  | (k', v) :: r => if (k' =? k)%string then Some v else dict_get k r
  end.

(** [d[k] = v]: a present key keeps its place. *)
Fixpoint dict_set {V} (k : string) (v : V) (d : dict V) : dict V :=
  match d with
  | [] => [(k, v)]
  | (k', v') :: r =>
      if (k' =? k)%string then (k, v) :: r else (k', v') :: dict_set k v r
  end.

(** [d[k][field] = ...] on a present key. *)
Fixpoint dict_update {V} (k : string) (f : V -> V) (d : dict V) : dict V :=
  match d with
  | [] => []
  | (k', v') :: r =>
      if (k' =? k)%string then (k', f v') :: r
      else (k', v') :: dict_update k f r
  end.

(** The longest prefix without a double quote, and the rest. *)
Fixpoint span_nonquote (s : string) : string * string :=
  match s with
  | "" => ("", "")
  | String c r =>
      if (c =? DQUOTE)%char then ("", s)
      else let (a, b) := span_nonquote r in (String c a, b)
  end.

(** A match of the pattern [pre([^"]+)">] at the start of [s]: the group.
    [pre] is the literal text up to and with the opening quote. *)
Definition re_match_at (pre s : string) : option string :=
  match strip_prefix pre s with
  | Some r =>
      let (g, r') := span_nonquote r in
      if nonempty g && startswith (dq ++ ">") r' then Some g else None
  | None => None
  end.

(** [re.search(pattern, s)]: the group of the leftmost match. *)
Fixpoint re_search (pre s : string) : option string :=
  match re_match_at pre s with
  | Some g => Some g
  | None => match s with
            | "" => None
            | String _ r => re_search pre r
            end
  end.

Record ecp_state : Type := mk_ecp {
  in_column_properties : bool;
  current_column : option string;
  column_info : dict col_props
}.

Definition set_specialType (v : string) (p : col_props) : col_props :=
  mk_props (ctype p) (Some v) (parent p).

Definition set_parent (v : string) (p : col_props) : col_props :=
  mk_props (ctype p) (specialType p) (Some v).

(** The body of the loop of [extract_column_properties] on one line. *)
Definition ecp_step (st : ecp_state) (raw : string) : ecp_state :=
  let line := strip raw in
  if (line =? OPEN_TAG)%string then
    mk_ecp true (current_column st) (column_info st)
  else if (line =? CLOSE_TAG)%string then
    mk_ecp false (current_column st) (column_info st)
  else if negb (in_column_properties st) then st
  else if startswith "<columnName=" line then
    match re_search ("<columnName=" ++ dq) line with
    | Some name =>
        mk_ecp (in_column_properties st) (Some name)
               (dict_set name default_props (column_info st))
    | None => st
    end
  else
    match current_column st with
    | Some cur =>
        if startswith "<columnProperty=" line && nonempty cur then
          match re_search ("<columnProperty=" ++ dq) line with
          | Some prop =>
              if contains "specialType" prop then
                match split_piece1 "specialType" prop with
                | Some piece =>
                    mk_ecp (in_column_properties st) (current_column st)
                      (dict_update cur (set_specialType (strip piece))
                         (column_info st))
                | None => st (* not reached: the text is in [prop] *)
                end
              else if contains "parent" prop then
                match split_piece1 "parent" prop with
                | Some piece =>
                    mk_ecp (in_column_properties st) (current_column st)
                      (dict_update cur (set_parent (strip piece))
                         (column_info st))
                | None => st (* not reached *)
                end
              else st
          | None => st
          end
        else st
    | None => st
    end.

Definition extract_column_properties (content : string) : dict col_props :=
  column_info (fold_left ecp_step (split LF content) (mk_ecp false None [])).

(** *** The header and the data lines *)

Record scan_state : Type := mk_scan {
  found_column_properties_end : bool;
  header_found : bool;
  header_line : option (list string);
  data_lines : list (list string)
}.

(** [line and '\t' in line and not line.startswith('<') and
    not line.startswith('>')] *)
Definition tabbed_text (line : string) : bool :=
  nonempty line && contains tab line &&
  negb (startswith "<" line) && negb (startswith ">" line).

(** The body of the loop of [find_header_and_data_lines], on a line that
    has been stripped. *)
Definition scan_line (st : scan_state) (line : string) : scan_state :=
  if contains OPEN_TAG line then st
  else if contains CLOSE_TAG line then
    mk_scan true (header_found st) (header_line st) (data_lines st)
  else
    let look_for_data :=
      if tabbed_text line && negb (startswith "settings=" line) then
        if header_found st then
          mk_scan (found_column_properties_end st) (header_found st)
                  (header_line st) (data_lines st ++ [split TAB line])
        else st
      else st in
    if found_column_properties_end st && tabbed_text line
       && negb (header_found st) then
      let parts := split TAB line in
      if (3 <=? length parts)%nat then
        mk_scan (found_column_properties_end st) true (Some parts)
                (data_lines st)
      else look_for_data
    else look_for_data.

Definition scan_step (st : scan_state) (raw : string) : scan_state :=
  let line := strip raw in scan_line st line.

Definition scan_init : scan_state := mk_scan false false None [].

Definition find_header_and_data_lines (content : string)
    : option (list string) * list (list string) :=
  let st := fold_left scan_step (split LF content) scan_init in
  (header_line st, data_lines st).

(* ================================================================== *)
(** ** The table: a pandas DataFrame of strings and missing values *)
(* ================================================================== *)

Record DataFrame : Type := mk_frame {
  columns : list string;
  rows : list (list cell)
}.

(** [pd.DataFrame()] *)
Definition empty_frame : DataFrame := mk_frame [] [].

(** The number of columns of [pd.DataFrame(data)]: the longest row. *)
Definition width (data : list (list string)) : nat :=
  fold_right Nat.max 0 (map (@length string) data).

(** A row of [pd.DataFrame(data)]: short rows are filled with [None],
    as pandas does for columns of Python objects. *)
Definition pad (n : nat) (row : list string) : list cell :=
  map Some row ++ repeat None (n - length row).

(** [[f"Column_{i}" for i in range(n)]] *)
Definition generic_names (n : nat) : list string :=
  map (fun i => "Column_" ++ str_of_nat i)%string (seq 0 n).

Definition is_na (c : cell) : bool :=
  match c with
  | None => true
  | Some _ => false
  end.

Definition all_na (row : list cell) : bool := forallb is_na row.

(** [df.dropna(how='all')] *)
Definition dropna_all (df : DataFrame) : DataFrame :=
  mk_frame (columns df) (filter (fun r => negb (all_na r)) (rows df)).

(** [name in df.columns] *)
Definition has_column (name : string) (df : DataFrame) : bool :=
  existsb (String.eqb name) (columns df).

Fixpoint index_of (name : string) (cols : list string) : option nat :=
  match cols with
  | [] => None
  | c :: r =>
      if (c =? name)%string then Some 0
      else option_map S (index_of name r)
  end.

(** [df[col].tolist()]: with a repeated label [df[col]] is a DataFrame,
    which has no [tolist]. *)
Definition column_tolist (df : DataFrame) (col : string)
    : result (list cell) :=
  match filter (String.eqb col) (columns df) with
  | [] => Raise KeyError
  | [_] =>
      match index_of col (columns df) with
      | Some i => Ok (map (fun r => nth i r None) (rows df))
      | None => Raise KeyError
      end
  | _ :: _ :: _ => Raise AttributeError
  end.

(** One row of [df[label] = values]: every column of that label gets the
    value. *)
Fixpoint overwrite (cols : list string) (label : string) (v : cell)
    (row : list cell) : list cell :=
  match cols, row with
  | c :: cs, x :: xs =>
      (if (c =? label)%string then v else x) :: overwrite cs label v xs
  | _, _ => row
  end.

(** [df[label] = values]: a new label is a new last column. *)
Definition set_column (df : DataFrame) (label : string)
    (values : list cell) : result DataFrame :=
  if negb (length values =? length (rows df))%nat then Raise ValueError
  else if has_column label df then
    Ok (mk_frame (columns df)
          (map (fun rv => overwrite (columns df) label (snd rv) (fst rv))
               (combine (rows df) values)))
  else
    Ok (mk_frame (columns df ++ [label])
          (map (fun rv => fst rv ++ [snd rv]) (combine (rows df) values))).

(** The elements of [l] at the positions where [mask] is true. *)
Fixpoint select {A} (mask : list bool) (l : list A) : list A :=
  match mask, l with
  | b :: m, x :: r => if b then x :: select m r else select m r
  | _, _ => []
  end.

Definition mem (s : string) (l : list string) : bool :=
  existsb (String.eqb s) l.

(** [df.drop(columns=labels)]: every column of one of the labels goes. *)
Definition drop_columns (df : DataFrame) (labels : list string)
    : DataFrame :=
  let mask := map (fun c => negb (mem c labels)) (columns df) in
  mk_frame (select mask (columns df)) (map (select mask) (rows df)).

(* ================================================================== *)
(** ** parser.py: planning, decoding, loading *)
(* ================================================================== *)

(** [str(col_props.get('specialType', '')).lower() == 'idcode'] *)
Definition is_idcode (props : col_props) : bool :=
  let special_type :=
    match specialType props with
    | Some s => s
    | None => ""
    end in
  (lower special_type =? "idcode")%string.

Fixpoint idcode_items (df : DataFrame) (items : dict col_props)
    : list string :=
  match items with
  | [] => []
  | (col_name, props) :: r =>
      if has_column col_name df && is_idcode props
      then col_name :: idcode_items df r
      else idcode_items df r
  end.

Definition find_idcode_columns_for_decoding (df : DataFrame)
    (info : dict col_props) : list string * list string :=
  match info with
  | [] => ([], [])
  | _ :: _ => let hits := idcode_items df info in (hits, hits)
  end.

Definition coordinate_patterns : list string :=
  ["coordinate"; "coord"; "atomcoord"; "scaffoldatom"].

(** [any(pat in str(col).lower() for pat in coordinate_patterns)] *)
Definition is_coordinate (col : string) : bool :=
  existsb (fun pat => contains pat (lower col)) coordinate_patterns.

Definition is_smiles (col : string) : bool :=
  (lower col =? "smiles")%string.

Definition is_fingerprint (col : string) : bool := endswith "Fp" col.

(** [list(set(l))]; the order is of no consequence for [drop]. *)
Definition list_set (l : list string) : list string :=
  nodup string_dec l.

Section Parser.

Variable node : World -> list string -> run_outcome.

(** The loop of [decode_structures_in_dataframe]. *)
Fixpoint decode_columns (cols : list string) (df : DataFrame)
    : M DataFrame :=
  match cols with
  | [] => ret df
  | col :: rest =>
      let smiles_col := (col ++ "_SMILES")%string in
      idcodes <- lift (column_tolist df col) ;;
      smiles_list <- decode_idcodes node idcodes ;;
      df' <- lift (set_column df smiles_col smiles_list) ;;
      decode_columns rest df'
  end.

Definition decode_structures_in_dataframe (df : DataFrame)
    (info : dict col_props) : M DataFrame :=
  let (columns_to_decode, _) := find_idcode_columns_for_decoding df info in
  match columns_to_decode with
  | [] => ret df
  | _ :: _ => decode_columns columns_to_decode df
  end.

(** The table of the data lines, with its column names. *)
Definition assemble (header : option (list string))
    (data : list (list string)) : DataFrame :=
  let n := width data in
  let names :=
    match header with
    | Some (h :: hs) =>
        if (length (h :: hs) =? n)%nat then h :: hs else generic_names n
    | _ => generic_names n
    end in
  dropna_all (mk_frame names (map (pad n) data)).

(** The removal of the identifier, coordinate and Smiles columns. *)
Definition remove_structure_columns (df : DataFrame)
    (info : dict col_props) : DataFrame :=
  let (_, original_idcode_columns) :=
    find_idcode_columns_for_decoding df info in
  let coordinate_columns := filter is_coordinate (columns df) in
  let smiles_columns := filter is_smiles (columns df) in
  let columns_to_remove :=
    list_set (original_idcode_columns ++ coordinate_columns
              ++ smiles_columns) in
  match columns_to_remove with
  | [] => df
  | _ :: _ => drop_columns df columns_to_remove
  end.

Definition remove_fingerprint_columns (df : DataFrame) : DataFrame :=
  let fp_columns := filter is_fingerprint (columns df) in
  match fp_columns with
  | [] => df
  | _ :: _ => drop_columns df fp_columns
  end.

(** [LoadDwar], from the text of the file on. *)
Definition LoadDwar (content : string) (exclude_structure_columns : bool)
    : M DataFrame :=
  if negb (is_dwar_file content) then raise ValueError
  else
    let (header, data) := find_header_and_data_lines content in
    match data with
    | [] => ret empty_frame
    | _ :: _ =>
        let info := extract_column_properties content in
        let df := assemble header data in
        df <- decode_structures_in_dataframe df info ;;
        let df :=
          if exclude_structure_columns
          then remove_structure_columns df info else df in
        ret (remove_fingerprint_columns df)
    end.

End Parser.

(* ================================================================== *)
(** ** parser.py: the file information *)
(* ================================================================== *)

(** The values of the dict that [get_dwar_info] returns. *)
Inductive info_value : Type :=
| IStr (s : string)
| IInt (n : nat)
| IColumns (d : dict col_props).

(** The longest prefix of characters that satisfy [p], and the rest. *)
Fixpoint span (p : ascii -> bool) (s : string) : string * string :=
  match s with
  | "" => ("", "")
  | String c r =>
      if p c then let (a, b) := span p r in (String c a, b)
      else ("", s)
  end.

(** [re.search] with a pattern given by its match at the start of a
    text: the group of the leftmost match. *)
Fixpoint re_search_by (match_at : string -> option string) (s : string)
    : option string :=
  match match_at s with
  | Some g => Some g
  | None => match s with
            | "" => None
            | String _ r => re_search_by match_at r
            end
  end.

(** A match of [version\s+(\S+)] at the start of [s]: the group. The
    white space is taken whole, for a shorter run leaves a white space
    character where the group has to start. *)
Definition version_at (s : string) : option string :=
  match strip_prefix "version" s with
  | Some r =>
      let (ws, r1) := span isspace r in
      let (g, _) := span (fun c => negb (isspace c)) r1 in
      if nonempty ws && nonempty g then Some g else None
  | None => None
  end.

(** The last character of [s] that is not a line feed. *)
Fixpoint last_not_lf (s : string) : option ascii :=
  match s with
  | "" => None
  | String c r =>
      match last_not_lf r with
      | Some d => Some d
      | None => if (c =? LF)%char then None else Some c
      end
  end.

(** A match of [created\s+(.+)] at the start of [s]: the group. When the
    white space runs to the end of the text, [\s+] gives characters back
    until [.+] can start: at the last white space character, the first
    apart, that is not a line feed. *)
Definition created_at (s : string) : option string :=
  match strip_prefix "created" s with
  | Some r =>
      match span isspace r with
      | ("", _) => None
      | (String _ ws, "") =>
          option_map (fun c => String c "") (last_not_lf ws)
      | (String _ _, String c rest) =>
          Some (fst (span (fun x => negb (x =? LF)%char) (String c rest)))
      end
  | None => None
  end.

(** [get_dwar_info], from the text of the file on. *)
Definition get_dwar_info (content : string) : dict info_value :=
  let info := [] in
  let info :=
    match re_search_by version_at content with
    | Some v => dict_set "version" (IStr v) info
    | None => info
    end in
  let info :=
    match re_search_by created_at content with
    | Some g => dict_set "created" (IStr (strip g)) info
    | None => info
    end in
  let (_, data_lines) := find_header_and_data_lines content in
  let info := dict_set "rowcount" (IInt (length data_lines)) info in
  let column_info := extract_column_properties content in
  dict_set "columns" (IColumns column_info) info.

(* ================================================================== *)
(** ** cli.py *)
(* ================================================================== *)

(** The parsed command line. *)
Record Args : Type := mk_args {
  input_file : string;
  output : option string;
  keep_structures : bool;
  info : bool
}.

(** What [print] is given: a text, a label followed by the text of a
    value of the file information, or the text of an exception. *)
Inductive message : Type :=
| Text (s : string)
| Field (label : string) (v : info_value)
| ErrorOf (e : exn).

(** What a run of [main] does to the outside. *)
Inductive event : Type :=
| Printed (m : message)
| Wrote (path : string) (df : DataFrame).

(** How [main] ends: it returns, or [sys.exit] ends it. *)
Inductive ending : Type :=
| Returned
| Exited (code : nat).

(** [df.empty]: one of the two axes has no element. *)
Definition frame_empty (df : DataFrame) : bool :=
  match rows df, columns df with
  | _ :: _, _ :: _ => false
  | _, _ => true
  end.

Section Cli.

Variable node : World -> list string -> run_outcome.

(** [os.path.exists] *)
Variable path_exists : string -> bool.

(** [open(path, encoding='utf-8').read()] *)
Variable read_text : string -> result string.

(** [os.path.splitext(path)[0]] *)
Variable splitext_root : string -> string.

(** [df.to_csv(path, index=False)]: whether the writing raises. *)
Variable to_csv : string -> DataFrame -> result unit.

(** [LoadDwar(file_path, exclude_structure_columns=...)] *)
Definition LoadDwar_path (file_path : string)
    (exclude_structure_columns : bool) : M DataFrame :=
  content <- lift (read_text file_path) ;;
  LoadDwar node content exclude_structure_columns.

(** [get_dwar_info(file_path)] *)
Definition get_dwar_info_path (file_path : string)
    : result (dict info_value) :=
  match read_text file_path with
  | Ok content => Ok (get_dwar_info content)
  | Raise e => Raise e
  end.

(** [info[key]] *)
Definition dict_item {V} (key : string) (d : dict V) : result V :=
  match dict_get key d with
  | Some v => Ok v
  | None => Raise KeyError
  end.

(** The branch of [--info]: the prints, up to the first that raises. *)
Definition show_info (args : Args) : list event * option exn :=
  match get_dwar_info_path (input_file args) with
  | Raise e => ([], Some e)
  | Ok d =>
      let p0 := [Printed (Text ("File: " ++ input_file args))] in
      match dict_item "rows" d with
      | Raise e => (p0, Some e)
      | Ok rows_value =>
          let p1 := p0 ++ [Printed (Field "Rows: " rows_value)] in
          match dict_item "columns" d with
          | Raise e => (p1, Some e)
          | Ok columns_value =>
              let p2 := p1 ++ [Printed (Field "Columns: " columns_value)] in
              match dict_item "structure_columns" d with
              | Raise e => (p2, Some e)
              | Ok structure_value =>
                  (p2 ++ [Printed (Field "Structure columns: "
                                     structure_value)], None)
              end
          end
      end
  end.

(** [main], from the parsed command line on. *)
Definition main (args : Args) (w : World) : list event * ending * World :=
  if negb (path_exists (input_file args)) then
    ([Printed (Text ("Error: File '" ++ input_file args ++ "' not found"))],
     Exited 1, w)
  else if info args then
    match show_info args with
    | (evs, None) => (evs, Returned, w)
    | (evs, Some e) => (evs ++ [Printed (ErrorOf e)], Exited 1, w)
    end
  else
    match LoadDwar_path (input_file args) (negb (keep_structures args)) w with
    | (Raise e, w') => ([Printed (ErrorOf e)], Exited 1, w')
    | (Ok df, w') =>
        if frame_empty df then
          ([Printed (Text "Error: No data found in DWAR file")],
           Exited 1, w')
        else
          let output_file :=
            match output args with
            | Some o =>
                if nonempty o then o
                else (splitext_root (input_file args) ++ ".csv")%string
            | None => (splitext_root (input_file args) ++ ".csv")%string
            end in
          match to_csv output_file df with
          | Raise e => ([Printed (ErrorOf e)], Exited 1, w')
          | Ok _ =>
              ([Wrote output_file df;
                Printed (Text ("Successfully converted "
                               ++ str_of_nat (length (rows df))
                               ++ " rows to " ++ output_file))],
               Returned, w')
          end
    end.

End Cli.

(* ================================================================== *)
(** ** Sample documents *)
(* ================================================================== *)

Definition answer (out : string) : World -> list string -> run_outcome :=
  fun _ _ => Completed out.

Definition tsv (fields : list string) : string := join tab fields.

Definition document (lines : list string) : string := join nl lines.

Definition column_name_line (name : string) : string :=
  "<columnName=" ++ dq ++ name ++ dq ++ ">".

Definition column_property_line (key value : string) : string :=
  "<columnProperty=" ++ dq ++ key ++ tab ++ value ++ dq ++ ">".

(** The document of the example of the specification. *)
Definition sample_doc : string :=
  document
    [ "<datawarrior-fileinfo>";
      ("<version=" ++ dq ++ "3.3" ++ dq ++ ">")%string;
      "</datawarrior-fileinfo>";
      "<column properties>";
      column_name_line "Structure";
      column_property_line "specialType" "idcode";
      "</column properties>";
      tsv ["ID"; "Structure"; "Name"];
      tsv ["1"; "ABC"; "first"];
      tsv ["2"; "ABC"; "second"] ].


(** A document whose lines after the metadata block have two fields. *)
Definition two_field_doc : string :=
  document
    [ "<column properties>";
      column_name_line "Structure";
      column_property_line "specialType" "idcode";
      CLOSE_TAG;
      tsv ["ID"; "Structure"];
      tsv ["1"; "ABC"];
      tsv ["2"; "ABC"] ].

(** A document with a column named Smiles. *)
Definition smiles_doc : string :=
  document
    [ "<datawarrior-fileinfo>";
      "</datawarrior-fileinfo>";
      "<column properties>";
      CLOSE_TAG;
      tsv ["ID"; "Smiles"; "Name"];
      tsv ["1"; "CCO"; "ethanol"] ].

(** A document whose identifier column has a name with "coord" in it. *)
Definition core_doc : string :=
  document
    [ "<column properties>";
      column_name_line "Coordination Core";
      column_property_line "specialType" "idcode";
      CLOSE_TAG;
      tsv ["ID"; "Coordination Core"; "Name"];
      tsv ["1"; "ABC"; "first"] ].

(** Tab-separated lines and nothing else. *)
Definition bare_doc : string :=
  document [ tsv ["a"; "b"; "c"]; tsv ["1"; "2"; "3"] ].

(** A line that starts with a tab after the metadata block. *)
Definition indented_line_doc : string :=
  document
    [ CLOSE_TAG;
      (tab ++ "a" ++ tab ++ "b")%string;
      tsv ["1"; "2"; "3"] ].

(** A line with the opening tag after the metadata block. *)
Definition tagged_line_doc : string :=
  document
    [ CLOSE_TAG;
      tsv ["x"; "y"; "z<column properties>"];
      tsv ["a"; "b"; "c"];
      tsv ["1"; "2"; "3"] ].

(* ================================================================== *)
(** ** What the specification says, for comparison *)
(* ================================================================== *)

(** A line that holds one of the two tags of the metadata block. *)
Definition has_tag (line : string) : bool :=
  contains OPEN_TAG line || contains CLOSE_TAG line.

(** A line that marks the end of the metadata block for the scan. *)
Definition closes_block (line : string) : bool :=
  negb (contains OPEN_TAG line) && contains CLOSE_TAG line.

(** The shape of a header: no markup, a tab, three fields or more. *)
Definition header_shaped (line : string) : bool :=
  negb (startswith "<" line) && negb (startswith ">" line) &&
  contains tab line && (3 <=? length (split TAB line))%nat.

(** A line that is collected as a data row once the header is found. *)
Definition is_data_line (line : string) : bool :=
  negb (has_tag line) && tabbed_text line &&
  negb (startswith "settings=" line).

(** The header as C9 words it: the first header-shaped line after the
    first line with the closing tag. *)
Fixpoint first_header_shaped (lines : list string) : option (list string) :=
  match lines with
  | [] => None
  | l :: r =>
      if header_shaped l then Some (split TAB l) else first_header_shaped r
  end.

Fixpoint claimed_header (lines : list string) : option (list string) :=
  match lines with
  | [] => None
  | l :: r =>
      if contains CLOSE_TAG l then first_header_shaped r
      else claimed_header r
  end.

(** Every row has one cell per column name. *)
Definition well_formed (df : DataFrame) : Prop :=
  Forall (fun r => length r = length (columns df)) (rows df).

(** The metadata declares [name] with a special type that is "idcode"
    up to case. *)
Definition declares_idcode (info : dict col_props) (name : string) : bool :=
  existsb (fun kv => (fst kv =? name)%string && is_idcode (snd kv)) info.

(** Before a header is found the scan collects nothing. *)
Definition nothing_found (st : scan_state) : Prop :=
  header_found st = false /\ header_line st = None /\ data_lines st = [].

(** What stays after the removal of the structure columns. *)
Definition kept_structure (df : DataFrame) (info : dict col_props)
    (c : string) : bool :=
  negb (mem c (idcode_items df info) || is_coordinate c || is_smiles c).

(** At the end of the text, the scan of [extract_column_properties] is
    inside the metadata block. *)
Definition inside_block (content : string) : bool :=
  in_column_properties
    (fold_left ecp_step (split LF content) (mk_ecp false None [])).

(** The table of a document before the decoding, and the columns of it
    that the metadata declares as identifier columns. *)
Definition assembled (content : string) : DataFrame :=
  assemble (fst (find_header_and_data_lines content))
           (snd (find_header_and_data_lines content)).

Definition planned (content : string) : list string :=
  idcode_items (assembled content) (extract_column_properties content).

(** The number of columns of the label [c]. *)
Definition occurrences (c : string) (df : DataFrame) : nat :=
  length (filter (String.eqb c) (columns df)).

(** Every character of [s] satisfies [p]. *)
Fixpoint string_forall (p : ascii -> bool) (s : string) : bool :=
  match s with
  | "" => true
  | String c r => p c && string_forall p r
  end.

(** A document whose identifier column has a label that is repeated. *)
Definition repeated_label_doc : string :=
  document
    [ "<column properties>";
      column_name_line "Structure";
      column_property_line "specialType" "idcode";
      CLOSE_TAG;
      tsv ["Structure"; "Structure"; "Name"];
      tsv ["ABC"; "DEF"; "first"] ].

(** Every character of [s] is white space (so also: [s] is empty). *)
Fixpoint whitespace_only (s : string) : bool :=
  match s with
  | "" => true
  | String c r => isspace c && whitespace_only r
  end.

(** A cell that holds an empty or white-space-only string. *)
Definition blank_string (c : cell) : Prop :=
  exists s, c = Some s /\ whitespace_only s = true.

(** The batch "deduplicated by identity": every distinct non-blank
    identifier once. *)
Definition deduplicated_batch (idcodes : list cell) : list string :=
  nodup string_dec (valid_idcodes idcodes).

(** The value of the last line of the answer that decodes [s]. *)
Fixpoint last_value (valid : list string) (lines : list string)
    (s : string) (acc : option string) : option string :=
  match lines with
  | [] => acc
  | line :: rest =>
      last_value valid rest s
        (match read_line valid line with
         | Ok (Some (decoded, smiles)) =>
             if (s =? decoded)%string then Some smiles else acc
         | _ => acc
         end)
  end.

(** The decoded value of a cell by value-based remapping. *)
Definition remap (valid : list string) (lines : list string) (c : cell)
    : cell :=
  match c with
  | Some s => last_value valid lines s None
  | None => None
  end.

(** No line of the answer makes the parsing raise. *)
Definition readable (valid : list string) (lines : list string) : Prop :=
  Forall (fun line => exists r, read_line valid line = Ok r) lines.

(* ================================================================== *)
(** ** Facts about the string operations *)
(* ================================================================== *)

Lemma string_app_assoc (a b c : string) :
  ((a ++ b) ++ c = a ++ (b ++ c))%string.
Proof. induction a as [|x a IH]; simpl; [reflexivity | now rewrite IH]. Qed.

Lemma string_app_empty_r (a : string) : (a ++ "" = a)%string.
Proof. induction a as [|x a IH]; simpl; [reflexivity | now rewrite IH]. Qed.

Lemma prefix_app (p s : string) :
  String.prefix p s = true <-> exists r, (s = p ++ r)%string.
Proof.
  revert s; induction p as [|a p IH]; intros s.
  - split; [intros _; now exists s | intros _; now destruct s].
  - destruct s as [|b s]; simpl.
    + split; [discriminate | intros [r Hr]; discriminate].
    + destruct (ascii_dec a b) as [->|Hab].
      * rewrite IH. split; intros [r Hr]; exists r.
        -- now rewrite Hr.
        -- now inversion Hr.
      * split; [discriminate | intros [r Hr]; inversion Hr; congruence].
Qed.

Lemma contains_app (sub s : string) :
  contains sub s = true <-> exists a b, (s = a ++ sub ++ b)%string.
Proof.
  induction s as [|c s IH]; cbn [contains].
  - rewrite orb_false_r, prefix_app. split.
    + intros [r Hr]. now exists "", r.
    + intros [[|x a] [b Hb]]; [now exists b | discriminate].
  - rewrite orb_true_iff, IH, prefix_app. split.
    + intros [[r Hr] | [a [b Hab]]].
      * now exists "", r.
      * exists (String c a), b. simpl. now rewrite Hab.
    + intros [[|x a] [b Hb]].
      * left. now exists b.
      * right. simpl in Hb. inversion Hb. now exists a, b.
Qed.

Lemma lstrip_suffix (s : string) : exists a, (s = a ++ lstrip s)%string.
Proof.
  induction s as [|c s [a Ha]]; simpl.
  - now exists "".
  - destruct (isspace c).
    + exists (String c a). simpl. now rewrite <- Ha.
    + now exists "".
Qed.

Lemma rstrip_prefix (s : string) : exists b, (s = rstrip s ++ b)%string.
Proof.
  induction s as [|c s [b Hb]]; simpl.
  - now exists "".
  - destruct (isspace c && negb (nonempty (rstrip s))).
    + now exists (String c s).
    + exists b. simpl. now rewrite <- Hb.
Qed.

(** [s.strip()] is a piece of [s]. *)
Lemma strip_piece (s : string) :
  exists a b, (s = a ++ strip s ++ b)%string.
Proof.
  unfold strip. destruct (lstrip_suffix s) as [a Ha].
  destruct (rstrip_prefix (lstrip s)) as [b Hb].
  exists a, b. now rewrite <- Hb.
Qed.

Lemma contains_strip (sub s : string) :
  contains sub (strip s) = true -> contains sub s = true.
Proof.
  rewrite !contains_app. intros [x [y Hxy]].
  destruct (strip_piece s) as [a [b Hab]].
  exists (a ++ x)%string, (y ++ b)%string.
  rewrite Hab, Hxy. now rewrite !string_app_assoc.
Qed.

Lemma lstrip_whitespace_only (s : string) :
  whitespace_only s = true -> lstrip s = "".
Proof.
  induction s as [|c s IH]; simpl; [reflexivity|].
  intros H. apply andb_true_iff in H as [Hc Hs]. now rewrite Hc, IH.
Qed.

Lemma strip_whitespace_only (s : string) :
  whitespace_only s = true -> strip s = "".
Proof. intros H. unfold strip. now rewrite lstrip_whitespace_only. Qed.

Lemma split_not_nil (sep : ascii) (s : string) : split sep s <> [].
Proof.
  destruct s as [|c s]; simpl; [discriminate|].
  destruct (c =? sep)%char; [discriminate|].
  destruct (split sep s); discriminate.
Qed.

Lemma lower_length (s : string) : String.length (lower s) = String.length s.
Proof. induction s as [|c s IH]; simpl; [reflexivity | now rewrite IH]. Qed.

Lemma string_length_app (a b : string) :
  String.length (a ++ b) = String.length a + String.length b.
Proof. induction a as [|x a IH]; simpl; [reflexivity | now rewrite IH]. Qed.

(** A decoded column is never a column named Smiles... *)
Lemma smiles_column_not_smiles (name : string) :
  is_smiles (name ++ "_SMILES") = false.
Proof.
  unfold is_smiles. apply String.eqb_neq. intros H.
  apply (f_equal String.length) in H.
  rewrite lower_length, string_length_app in H. simpl in H. lia.
Qed.

(** ... nor a fingerprint column. *)
Lemma smiles_column_not_fingerprint (name : string) :
  is_fingerprint (name ++ "_SMILES") = false.
Proof.
  unfold is_fingerprint. induction name as [|c n IH]; [reflexivity|].
  cbn [String.append endswith]. rewrite IH, orb_false_r.
  apply String.eqb_neq. intros H. apply (f_equal String.length) in H.
  cbn [String.length] in H. rewrite string_length_app in H. simpl in H. lia.
Qed.

(* ================================================================== *)
(** ** The batch decoder *)
(* ================================================================== *)

Section DecodeFacts.

Variable node : World -> list string -> run_outcome.

Lemma all_absent_length (idcodes : list cell) :
  length (all_absent idcodes) = length idcodes.
Proof. apply repeat_length. Qed.

Lemma all_absent_map (idcodes : list cell) :
  all_absent idcodes = map (fun _ => None) idcodes.
Proof.
  unfold all_absent. induction idcodes as [|c l IH]; simpl;
    [reflexivity | now rewrite IH].
Qed.

Lemma assign_matching_length (idcodes results : list cell) d v :
  length (assign_matching idcodes results d v) = length results.
Proof.
  revert results; induction idcodes as [|c l IH]; intros [|r rs]; simpl;
    try reflexivity.
  now rewrite IH.
Qed.

Lemma assign_matching_map (idcodes : list cell) (F : cell -> cell) d v :
  assign_matching idcodes (map F idcodes) d v =
  map (fun c => if cell_eqb c (Some d) then Some v else F c) idcodes.
Proof.
  induction idcodes as [|c l IH]; simpl; [reflexivity | now rewrite IH].
Qed.

Lemma parse_lines_length idcodes valid lines : forall results out,
  parse_lines idcodes valid results lines = Ok out ->
  length out = length results.
Proof.
  induction lines as [|line rest IH]; simpl; intros results out H.
  - now inversion H.
  - unfold parse_line in H.
    destruct (read_line valid line) as [[[d v]|]|e]; try discriminate.
    + apply IH in H. now rewrite assign_matching_length in H.
    + now apply IH in H.
Qed.

(** The loop over the answer remaps by value: what a row gets depends
    on the identifier it holds only. *)
Lemma parse_lines_map idcodes valid lines : forall (F : cell -> cell) out,
  parse_lines idcodes valid (map F idcodes) lines = Ok out ->
  out = map (fun c => match c with
                      | Some s => last_value valid lines s (F c)
                      | None => F c
                      end) idcodes.
Proof.
  induction lines as [|line rest IH]; simpl; intros F out H.
  - inversion H. apply map_ext. now intros [s|].
  - unfold parse_line in H.
    destruct (read_line valid line) as [[[d v]|]|e]; try discriminate.
    + rewrite assign_matching_map in H. apply IH in H. subst out.
      apply map_ext. intros [s|]; reflexivity.
    + now apply IH in H.
Qed.

Lemma parse_lines_readable idcodes valid lines : forall results,
  readable valid lines ->
  exists out, parse_lines idcodes valid results lines = Ok out.
Proof.
  induction lines as [|line rest IH]; simpl; intros results H.
  - now exists results.
  - inversion H as [|? ? [r Hr] Hrest]; subst. unfold parse_line.
    rewrite Hr. destruct r as [[d v]|]; now apply IH.
Qed.

Lemma last_value_present valid lines s : forall x,
  exists v, last_value valid lines s (Some x) = Some v.
Proof.
  induction lines as [|line rest IH]; simpl; intros x.
  - now exists x.
  - destruct (read_line valid line) as [[[d v]|]|e]; try apply IH.
    destruct (s =? d)%string; apply IH.
Qed.

Lemma last_value_decoded valid lines s line v : forall acc,
  In line lines ->
  read_line valid line = Ok (Some (s, v)) ->
  exists v', last_value valid lines s acc = Some v'.
Proof.
  induction lines as [|l rest IH]; simpl; intros acc Hin Hread.
  - contradiction.
  - destruct Hin as [->|Hin].
    + rewrite Hread, String.eqb_refl. apply last_value_present.
    + now apply IH.
Qed.

Lemma valid_of_filter (idcodes : list cell) :
  map Some (valid_idcodes idcodes) = filter is_valid idcodes.
Proof.
  induction idcodes as [|[s|] l IH]; simpl; try assumption.
  - reflexivity.
  - destruct (nonempty s && nonempty (strip s)); simpl; now rewrite ?IH.
Qed.

Lemma valid_of_blank (idcodes : list cell) :
  Forall (fun c => is_valid c = false) idcodes -> valid_idcodes idcodes = [].
Proof.
  induction 1 as [|[s|] l Hc _ IH]; simpl; try assumption.
  - reflexivity.
  - simpl in Hc. now rewrite Hc.
Qed.

Lemma blank_string_invalid (c : cell) : blank_string c -> is_valid c = false.
Proof.
  intros [s [-> Hs]]. simpl. rewrite (strip_whitespace_only s Hs).
  apply andb_false_r.
Qed.

(** The shapes of a run of [decode_idcodes]. *)
Lemma decode_idcodes_cases (idcodes : list cell) (w : World) :
  (valid_idcodes idcodes = [] /\
   decode_idcodes node idcodes w = (Ok (all_absent idcodes), w)) \/
  (valid_idcodes idcodes <> [] /\
   exists out,
     decode_idcodes node idcodes w = (Ok out, w ++ [valid_idcodes idcodes]) /\
     match node w (valid_idcodes idcodes) with
     | Completed stdout =>
         match parse_lines idcodes (valid_idcodes idcodes) (all_absent idcodes)
                 (splitlines stdout) with
         | Ok r => out = r
         | Raise _ => out = all_absent idcodes
         end
     | _ => out = all_absent idcodes
     end).
Proof.
  destruct idcodes as [|c l]; [now left|].
  destruct (valid_idcodes (c :: l)) as [|v vs] eqn:Hv.
  - left. split; [reflexivity|]. unfold decode_idcodes. now rewrite Hv.
  - right. split; [discriminate|].
    unfold decode_idcodes. rewrite Hv.
    unfold try_except, bind, subprocess_run, lift, ret.
    destruct (node w (v :: vs)) as [stdout| | |]; eauto.
    destruct (parse_lines _ _ _ _) as [r|e]; [eauto|].
    destruct e; eauto.
Qed.

End DecodeFacts.

(** The branches marked "not reached" in the embedding are not reached. *)
Lemma split_piece1_present (sep s : string) :
  contains sep s = true -> exists piece, split_piece1 sep s = Some piece.
Proof.
  unfold split_piece1. intros H.
  enough (exists r, str_after sep s = Some r) as [r ->] by eauto.
  induction s as [|c s IH]; cbn [str_after contains] in *.
  - rewrite orb_false_r in H. apply prefix_app in H as [r Hr].
    destruct sep; [now exists "" | discriminate].
  - destruct (strip_prefix sep (String c s)) as [r|] eqn:E; [eauto|].
    apply orb_true_iff in H as [H|H]; [|now apply IH].
    exfalso. apply prefix_app in H as [r Hr]. rewrite Hr in E. clear -E.
    induction sep as [|a sep IHs]; simpl in E; [discriminate|].
    rewrite Ascii.eqb_refl in E. now apply IHs.
Qed.

Lemma split_once_present (sep : ascii) (s : string) :
  contains (String sep "") s = true ->
  exists a b, split_once sep s = (a, Some b).
Proof.
  induction s as [|c s IH]; cbn [contains split_once]; [discriminate|].
  intros H. destruct (Ascii.eqb_spec c sep) as [->|Hne]; [eauto|].
  apply orb_true_iff in H as [H|H].
  - simpl in H. destruct (ascii_dec sep c); [congruence | discriminate].
  - destruct (IH H) as [a [b ->]]. eauto.
Qed.

Example strip_example : strip (" a b " ++ tab) = "a b".
Proof. reflexivity. Qed.

Example split_example :
  split TAB ("a" ++ tab ++ tab ++ "b") = ["a"; ""; "b"].
Proof. reflexivity. Qed.

Example splitlines_example :
  splitlines ("a" ++ nl ++ nl ++ "b" ++ String CR nl) = ["a"; ""; "b"].
Proof. reflexivity. Qed.

Example py_int_example :
  map py_int [" 12 "; "-1"; "1_0"; "1__0"; ""; "+"; "007"; "_1"; "1_"; "x"]
  = [Some 12%Z; Some (-1)%Z; Some 10%Z; None; None; None; Some 7%Z; None;
     None; None].
Proof. reflexivity. Qed.

(** The unit separator is stripped by [strip] and not skipped by [int]:
    a position that starts with it voids the column. *)
Example py_int_separator_example :
  strip (String "031" "0") = "0" /\
  py_int (String "031" "0") = None /\
  py_int (String "160" "0") = Some 0%Z /\
  decode_idcodes (fun _ _ => Completed (String "031" "0:CCO"))
    [Some "ABC"] []
  = (Ok [None], [["ABC"]]).
Proof. repeat split. Qed.

Example extract_example :
  extract_column_properties sample_doc
  = [("Structure", mk_props "string" (Some "idcode") None)].
Proof. reflexivity. Qed.

Example load_example :
  LoadDwar (answer "0:C1=CC=CC=C1") sample_doc true []
  = (Ok (mk_frame ["ID"; "Name"; "Structure_SMILES"]
           [[Some "1"; Some "first"; Some "C1=CC=CC=C1"];
            [Some "2"; Some "second"; Some "C1=CC=CC=C1"]]),
     [["ABC"; "ABC"]]).
Proof. reflexivity. Qed.

Example load_two_field_example :
  LoadDwar (answer "0:C1=CC=CC=C1") two_field_doc true []
  = (Ok empty_frame, []).
Proof. reflexivity. Qed.

(** C5. [decode_idcodes] always returns, with one result per input
    cell; when the decoder process times out, exits with a non-zero
    status or fails otherwise, or when reading its answer raises, every
    result is absent. No exception reaches the caller. *)
Theorem decode_idcodes_never_raises
    (node : World -> list string -> run_outcome)
    (idcodes : list cell) (w : World) :
  exists out w',
    decode_idcodes node idcodes w = (Ok out, w') /\
    length out = length idcodes /\
    (node w (valid_idcodes idcodes) = TimedOut \/
     node w (valid_idcodes idcodes) = ExitedNonZero \/
     node w (valid_idcodes idcodes) = Failed \/
     (exists stdout e,
        node w (valid_idcodes idcodes) = Completed stdout /\
        parse_lines idcodes (valid_idcodes idcodes) (all_absent idcodes)
          (splitlines stdout) = Raise e) ->
     out = all_absent idcodes).
Proof.
  destruct (decode_idcodes_cases node idcodes w)
    as [[Hv Heq] | [Hv [out [Heq Hout]]]].
  - exists (all_absent idcodes), w.
    split; [exact Heq|]. split; [apply all_absent_length | reflexivity].
  - exists out, (w ++ [valid_idcodes idcodes]). split; [exact Heq|].
    destruct (node w (valid_idcodes idcodes)) as [stdout| | |] eqn:Hn.
    + destruct (parse_lines idcodes (valid_idcodes idcodes) (all_absent idcodes)
                  (splitlines stdout)) as [r|e] eqn:Hp; subst out.
      * split.
        -- rewrite (parse_lines_length _ _ _ _ _ Hp). apply all_absent_length.
        -- intros [H | [H | [H | [so [e [Hc He]]]]]]; try discriminate.
           inversion Hc; subst so. congruence.
      * split; [apply all_absent_length | reflexivity].
    + subst out. split; [apply all_absent_length | reflexivity].
    + subst out. split; [apply all_absent_length | reflexivity].
    + subst out. split; [apply all_absent_length | reflexivity].
Qed.

Lemma decode_idcodes_never_raises_witness :
  exists out w',
    decode_idcodes (fun _ _ => TimedOut) [Some "ABC"; Some ""] []
      = (Ok out, w') /\ out = [None; None].
Proof.
  destruct (decode_idcodes_never_raises
              (fun _ _ => TimedOut) [Some "ABC"; Some ""] [])
    as [out [w' [Heq [_ Hfail]]]].
  exists out, w'. split; [exact Heq|].
  apply Hfail. left. reflexivity.
Defined.

(** C7. On a column of empty or white-space-only strings
    [decode_idcodes] hands nothing to the decoder process (the log of
    batches is unchanged) and returns one absent result per cell. *)
Theorem decode_idcodes_blank_column
    (node : World -> list string -> run_outcome)
    (idcodes : list cell) (w : World) :
  Forall blank_string idcodes ->
  decode_idcodes node idcodes w = (Ok (repeat None (length idcodes)), w).
Proof.
  intros H.
  destruct (decode_idcodes_cases node idcodes w)
    as [[_ Heq] | [Hv _]]; [exact Heq|].
  exfalso. apply Hv, valid_of_blank.
  eapply Forall_impl; [|exact H]. apply blank_string_invalid.
Qed.

Lemma decode_idcodes_blank_column_witness :
  decode_idcodes (answer "0:CCO") [Some ""; Some (" " ++ tab)%string] [["X"]]
  = (Ok [None; None], [["X"]]).
Proof.
  apply (decode_idcodes_blank_column (answer "0:CCO")
           [Some ""; Some (" " ++ tab)%string] [["X"]]).
  repeat constructor; eexists; (split; [reflexivity | reflexivity]).
Defined.

Lemma last_value_origin valid lines s v : forall acc,
  last_value valid lines s acc = Some v ->
  acc = Some v \/
  exists line, In line lines /\ read_line valid line = Ok (Some (s, v)).
Proof.
  induction lines as [|l rest IH]; simpl; intros acc H; [now left|].
  apply IH in H as [H | [line [Hin Hread]]].
  - destruct (read_line valid l) as [[[d x]|]|e] eqn:E; try (now left).
    destruct (String.eqb_spec s d) as [->|_]; [|now left].
    right. exists l. inversion H. subst x. split; [now left | exact E].
  - right. exists line. split; [now right | exact Hread].
Qed.

Lemma parse_lines_ok_readable idcodes valid lines : forall results out,
  parse_lines idcodes valid results lines = Ok out ->
  readable valid lines.
Proof.
  induction lines as [|line rest IH]; simpl; intros results out H;
    [constructor|].
  unfold parse_line in H.
  destruct (read_line valid line) as [r|e] eqn:E; [|discriminate].
  constructor; [eauto|].
  destruct r as [[d v]|]; eapply IH; exact H.
Qed.

Lemma py_index_In {A} (l : list A) (z : Z) (x : A) :
  py_index l z = Some x -> In x l.
Proof.
  unfold py_index. destruct (0 <=? z)%Z; [apply nth_error_In|].
  destruct (- Z.of_nat (length l) <=? z)%Z; [apply nth_error_In|].
  discriminate.
Qed.

Lemma read_line_decoded valid line d v :
  read_line valid line = Ok (Some (d, v)) -> In d valid.
Proof.
  unfold read_line. destruct (contains ":" line); [|discriminate].
  destruct (split_once ":" line) as [ix [sm|]]; [|discriminate].
  destruct (negb (startswith "ERROR:" sm)); [|discriminate].
  destruct (py_int ix) as [k|]; [|discriminate].
  destruct (py_index valid k) as [x|] eqn:E; [|discriminate].
  intros H. inversion H. subst x. now apply py_index_In in E.
Qed.

(** C6. Rows that hold the same identifier get the same result: if the
    cells at [i] and [j] hold the identifier [s] and a line of the answer
    that is not an error line resolves to [s], the results at [i] and [j]
    are equal. When no line of the answer makes the reading raise, both
    are the decoded value of [s]: the value of the last line of the
    answer that resolves to [s]. When a line makes the reading raise,
    both are absent. *)
Theorem decode_idcodes_duplicates_agree
    (node : World -> list string -> run_outcome)
    (idcodes : list cell) (w w' : World) (out : list cell)
    (i j : nat) (s stdout line v : string) :
  decode_idcodes node idcodes w = (Ok out, w') ->
  nth_error idcodes i = Some (Some s) ->
  nth_error idcodes j = Some (Some s) ->
  node w (valid_idcodes idcodes) = Completed stdout ->
  In line (splitlines stdout) ->
  read_line (valid_idcodes idcodes) line = Ok (Some (s, v)) ->
  nth_error out i = nth_error out j /\
  (readable (valid_idcodes idcodes) (splitlines stdout) ->
   exists v' line',
     In line' (splitlines stdout) /\
     read_line (valid_idcodes idcodes) line' = Ok (Some (s, v')) /\
     last_value (valid_idcodes idcodes) (splitlines stdout) s None
     = Some v' /\
     nth_error out i = Some (Some v') /\
     nth_error out j = Some (Some v')) /\
  (~ readable (valid_idcodes idcodes) (splitlines stdout) ->
   nth_error out i = Some None /\ nth_error out j = Some None).
Proof.
  intros Hdec Hi Hj Hnode Hin Hread.
  destruct (decode_idcodes_cases node idcodes w)
    as [[Hv Heq] | [Hv [out' [Heq Hout]]]].
  - apply read_line_decoded in Hread. rewrite Hv in Hread. contradiction.
  - rewrite Heq in Hdec. inversion Hdec; subst out' w'. clear Hdec.
    rewrite Hnode in Hout.
    destruct (parse_lines idcodes (valid_idcodes idcodes) (all_absent idcodes)
                (splitlines stdout)) as [r|e] eqn:Hp; subst out.
    + pose proof (parse_lines_ok_readable _ _ _ _ _ Hp) as Hok.
      rewrite all_absent_map in Hp. apply parse_lines_map in Hp. subst r.
      unfold cell in *. rewrite !nth_error_map, Hi, Hj.
      split; [reflexivity|]. split; [|intros Hno; contradiction].
      intros _. simpl.
      destruct (last_value_decoded (valid_idcodes idcodes) (splitlines stdout)
                  s line v None Hin Hread) as [v' Hv'].
      destruct (last_value_origin _ _ _ _ _ Hv')
        as [Hnone | [line' [Hin' Hread']]]; [discriminate|].
      exists v', line'. rewrite Hv'. now repeat split.
    + rewrite all_absent_map. unfold cell in *.
      rewrite !nth_error_map, Hi, Hj.
      split; [reflexivity|]. split; [|now intros _].
      intros Hok.
      destruct (parse_lines_readable idcodes (valid_idcodes idcodes)
                  (splitlines stdout) (all_absent idcodes) Hok) as [r Hr].
      congruence.
Qed.

Lemma decode_idcodes_duplicates_agree_witness :
  nth_error [Some "CCC"; None; Some "CCC"] 0
  = nth_error [Some "CCC"; None; Some "CCC"] 2 /\
  (readable ["ABC"; "XYZ"; "ABC"] ["0:CCO"; "1:ERROR:bad"; "2:CCC"] ->
   exists v' line',
     In line' ["0:CCO"; "1:ERROR:bad"; "2:CCC"] /\
     read_line ["ABC"; "XYZ"; "ABC"] line' = Ok (Some ("ABC", v')) /\
     last_value ["ABC"; "XYZ"; "ABC"] ["0:CCO"; "1:ERROR:bad"; "2:CCC"]
       "ABC" None = Some v' /\
     nth_error [Some "CCC"; None; Some "CCC"] 0 = Some (Some v') /\
     nth_error [Some "CCC"; None; Some "CCC"] 2 = Some (Some v')) /\
  (~ readable ["ABC"; "XYZ"; "ABC"] ["0:CCO"; "1:ERROR:bad"; "2:CCC"] ->
   nth_error [Some "CCC"; None; Some "CCC"] 0 = Some None /\
   nth_error [Some "CCC"; None; Some "CCC"] 2 = Some None).
Proof.
  apply (decode_idcodes_duplicates_agree
           (answer ("0:CCO" ++ nl ++ "1:ERROR:bad" ++ nl ++ "2:CCC"))
           [Some "ABC"; Some "XYZ"; Some "ABC"] []
           [["ABC"; "XYZ"; "ABC"]]
           [Some "CCC"; None; Some "CCC"]
           0 2 "ABC" ("0:CCO" ++ nl ++ "1:ERROR:bad" ++ nl ++ "2:CCC")
           "0:CCO" "CCO").
  - reflexivity.
  - reflexivity.
  - reflexivity.
  - reflexivity.
  - left. reflexivity.
  - reflexivity.
Defined.

(** C1, as stated, fails: on the column ["ABC"; "ABC"] the decoder
    process is handed ["ABC"; "ABC"], not the deduplicated batch
    ["ABC"]. *)
Lemma decode_batch_not_deduplicated :
  snd (decode_idcodes (answer "0:C1=CC=CC=C1") [Some "ABC"; Some "ABC"] [])
  = [["ABC"; "ABC"]] /\
  deduplicated_batch [Some "ABC"; Some "ABC"] = ["ABC"] /\
  snd (decode_idcodes (answer "0:C1=CC=CC=C1") [Some "ABC"; Some "ABC"] [])
  <> [deduplicated_batch [Some "ABC"; Some "ABC"]].
Proof.
  split; [reflexivity|]. split; [reflexivity|]. discriminate.
Qed.

(** C1, amended. For a column with at least one non-blank identifier,
    the one batch handed to the decoder process holds the non-blank
    identifiers of the column in row order, one entry per row, repeated
    values included; and the position-addressed answer is mapped back by
    value: when the process completes and no line of its answer makes the
    reading raise, every row gets the value of the last line that
    resolves to the identifier the row holds (nothing when there is no
    such line), so every row of a repeated identifier gets the value. *)
Theorem decode_batch_and_remap
    (node : World -> list string -> run_outcome)
    (idcodes : list cell) (w : World) :
  valid_idcodes idcodes <> [] ->
  exists batch,
    snd (decode_idcodes node idcodes w) = w ++ [batch] /\
    map Some batch = filter is_valid idcodes /\
    (forall stdout,
       node w batch = Completed stdout ->
       readable batch (splitlines stdout) ->
       fst (decode_idcodes node idcodes w)
       = Ok (map (remap batch (splitlines stdout)) idcodes)).
Proof.
  intros Hne. exists (valid_idcodes idcodes).
  destruct (decode_idcodes_cases node idcodes w)
    as [[Hv _] | [_ [out [Heq Hout]]]]; [contradiction|].
  rewrite Heq. split; [reflexivity|]. split; [apply valid_of_filter|].
  intros stdout Hnode Hok. simpl. rewrite Hnode in Hout.
  destruct (parse_lines_readable idcodes (valid_idcodes idcodes)
              (splitlines stdout) (all_absent idcodes) Hok) as [r Hr].
  rewrite Hr in Hout. subst out.
  rewrite all_absent_map in Hr. apply parse_lines_map in Hr. now subst r.
Qed.

Lemma decode_batch_and_remap_witness :
  exists batch,
    snd (decode_idcodes (answer "0:C1=CC=CC=C1")
           [Some "ABC"; Some "ABC"] []) = [] ++ [batch] /\
    map Some batch = filter is_valid [Some "ABC"; Some "ABC"] /\
    (forall stdout,
       answer "0:C1=CC=CC=C1" [] batch = Completed stdout ->
       readable batch (splitlines stdout) ->
       fst (decode_idcodes (answer "0:C1=CC=CC=C1")
              [Some "ABC"; Some "ABC"] [])
       = Ok (map (remap batch (splitlines stdout))
               [Some "ABC"; Some "ABC"])).
Proof.
  apply (decode_batch_and_remap (answer "0:C1=CC=CC=C1")
           [Some "ABC"; Some "ABC"] []).
  simpl. discriminate.
Defined.

(* ================================================================== *)
(** ** The body locator *)
(* ================================================================== *)

Lemma fold_left_map_arg {A B C} (f : A -> B -> A) (g : C -> B) l : forall a,
  fold_left (fun a c => f a (g c)) l a = fold_left f (map g l) a.
Proof. induction l as [|x l IH]; simpl; intros a; [reflexivity | apply IH]. Qed.

Lemma scan_stripped (raws : list string) (st : scan_state) :
  fold_left scan_step raws st = fold_left scan_line (map strip raws) st.
Proof. unfold scan_step. apply fold_left_map_arg. Qed.

Lemma contains_tab_nonempty (line : string) :
  contains tab line = true -> nonempty line = true.
Proof. destruct line; [discriminate | reflexivity]. Qed.

Lemma header_shaped_tabbed (line : string) :
  header_shaped line = true ->
  tabbed_text line = true /\ (3 <=? length (split TAB line))%nat = true.
Proof.
  unfold header_shaped, tabbed_text. intros H.
  apply andb_true_iff in H as [H H4]. apply andb_true_iff in H as [H H3].
  apply andb_true_iff in H as [H1 H2].
  now rewrite (contains_tab_nonempty _ H3), H1, H2, H3, H4.
Qed.

Lemma tabbed_header_shaped (line : string) :
  tabbed_text line = true ->
  (3 <=? length (split TAB line))%nat = true ->
  header_shaped line = true.
Proof.
  unfold header_shaped, tabbed_text. intros H H4.
  apply andb_true_iff in H as [H H3]. apply andb_true_iff in H as [H H2].
  apply andb_true_iff in H as [H0 H1].
  now rewrite H1, H2, H3, H4.
Qed.

Lemma scan_line_unshaped (st : scan_state) (line : string) :
  nothing_found st ->
  has_tag line = true \/ header_shaped line = false ->
  nothing_found (scan_line st line) /\
  (found_column_properties_end st = true ->
   found_column_properties_end (scan_line st line) = true).
Proof.
  intros (Hf & Hh & Hd) Hline. unfold scan_line, nothing_found.
  destruct (contains OPEN_TAG line) eqn:Ho; [now auto|].
  destruct (contains CLOSE_TAG line) eqn:Hc; [now auto|].
  destruct Hline as [Ht | Hs];
    [unfold has_tag in Ht; rewrite Ho, Hc in Ht; discriminate|].
  rewrite Hf. cbn [negb]. rewrite andb_true_r.
  assert (Hdata : (if tabbed_text line && negb (startswith "settings=" line)
                   then st else st) = st) by now destruct (_ && _).
  destruct (found_column_properties_end st && tabbed_text line) eqn:Hcond.
  - apply andb_true_iff in Hcond as [_ Htab].
    destruct (3 <=? length (split TAB line))%nat eqn:Hlen.
    + rewrite (tabbed_header_shaped _ Htab Hlen) in Hs. discriminate.
    + rewrite Hdata. auto.
  - rewrite Hdata. auto.
Qed.

Lemma scan_unshaped (lines : list string) : forall st,
  nothing_found st ->
  Forall (fun l => has_tag l = true \/ header_shaped l = false) lines ->
  nothing_found (fold_left scan_line lines st) /\
  (found_column_properties_end st = true ->
   found_column_properties_end (fold_left scan_line lines st) = true).
Proof.
  induction lines as [|l r IH]; simpl; intros st Hst Hall; [now auto|].
  inversion Hall as [|? ? Hl Hr]; subst.
  destruct (scan_line_unshaped st l Hst Hl) as [Hst' Hend].
  destruct (IH _ Hst' Hr) as [Hfin Hend']. auto.
Qed.

(** Before the block is closed nothing changes. *)
Lemma scan_before_close (lines : list string) :
  Forall (fun l => closes_block l = false) lines ->
  fold_left scan_line lines scan_init = scan_init.
Proof.
  induction 1 as [|l r Hl _ IH]; simpl; [reflexivity|].
  replace (scan_line scan_init l) with scan_init; [exact IH|].
  unfold scan_line, closes_block in *.
  destruct (contains OPEN_TAG l); [reflexivity|].
  simpl in Hl. rewrite Hl. simpl.
  now destruct (tabbed_text l && negb (startswith "settings=" l)).
Qed.

(** After the header every data line is collected, in order. *)
Lemma scan_after_header (lines : list string) : forall e h data,
  fold_left scan_line lines (mk_scan e true h data)
  = mk_scan (e || existsb closes_block lines) true h
            (data ++ map (split TAB) (filter is_data_line lines)).
Proof.
  induction lines as [|l r IH]; intros e h data; simpl.
  - now rewrite orb_false_r, app_nil_r.
  - unfold scan_line at 2, is_data_line, has_tag, closes_block. simpl.
    destruct (contains OPEN_TAG l); simpl; [apply IH|].
    destruct (contains CLOSE_TAG l); simpl.
    + rewrite IH. now rewrite !orb_true_r.
    + rewrite andb_false_r.
      destruct (tabbed_text l && negb (startswith "settings=" l)) eqn:Hd;
        simpl; rewrite IH; [|reflexivity].
      now rewrite <- app_assoc.
Qed.

(** C9, as stated, fails. With the lines read after stripping: a
    header-shaped line that follows the closing tag but holds one of the
    tags is passed over, and a later line is the header. With the lines
    read as they are: a line that starts with a tab has the shape, but
    its stripped text has two fields, and a later line is the header. *)
Lemma header_skips_tagged_line :
  (claimed_header (map strip (split LF tagged_line_doc))
   = Some ["x"; "y"; "z<column properties>"] /\
   find_header_and_data_lines tagged_line_doc
   = (Some ["a"; "b"; "c"], [["1"; "2"; "3"]]) /\
   fst (find_header_and_data_lines tagged_line_doc)
   <> claimed_header (map strip (split LF tagged_line_doc))) /\
  (claimed_header (split LF indented_line_doc) = Some [""; "a"; "b"] /\
   find_header_and_data_lines indented_line_doc
   = (Some ["1"; "2"; "3"], []) /\
   fst (find_header_and_data_lines indented_line_doc)
   <> claimed_header (split LF indented_line_doc)).
Proof. repeat split; discriminate. Qed.

(** C9, amended. Lines are stripped of surrounding white space. The
    header is the first line after the first closing line of the metadata
    block that holds neither tag of the block, does not start with '<' or
    '>', contains a tab and splits into three fields or more; the data
    rows are taken from the lines after it only, so the header line is not
    a data row; and when no line without a tag has the header shape, the
    header is absent and there is no data row. *)
Theorem body_locator_header (content : string) :
  (forall before closing between h after,
      map strip (split LF content)
      = before ++ closing :: between ++ h :: after ->
      Forall (fun l => closes_block l = false) before ->
      closes_block closing = true ->
      Forall (fun l => has_tag l = true \/ header_shaped l = false) between ->
      has_tag h = false ->
      header_shaped h = true ->
      find_header_and_data_lines content
      = (Some (split TAB h), map (split TAB) (filter is_data_line after))) /\
  (Forall (fun l => has_tag l = true \/ header_shaped l = false)
     (map strip (split LF content)) ->
   find_header_and_data_lines content = (None, [])).
Proof.
  unfold find_header_and_data_lines. rewrite scan_stripped. split.
  - intros before closing between h after Hsplit Hbefore Hclose Hbetween
      Htag Hshape.
    rewrite Hsplit, fold_left_app. cbn [fold_left].
    rewrite (scan_before_close before Hbefore).
    assert (Hc : scan_line scan_init closing = mk_scan true false None []).
    { unfold scan_line, closes_block in *.
      destruct (contains OPEN_TAG closing); [discriminate|].
      simpl in Hclose. now rewrite Hclose. }
    rewrite Hc, fold_left_app. cbn [fold_left].
    destruct (scan_unshaped between (mk_scan true false None [])
                (conj eq_refl (conj eq_refl eq_refl)) Hbetween)
      as [(Hf & Hh & Hd) Hend].
    specialize (Hend eq_refl).
    destruct (fold_left scan_line between (mk_scan true false None []))
      as [e f hl d]. simpl in Hf, Hh, Hd, Hend. subst e f hl d.
    assert (Hhead : scan_line (mk_scan true false None []) h
                    = mk_scan true true (Some (split TAB h)) []).
    { unfold scan_line, has_tag in *.
      apply orb_false_iff in Htag as [Ho Hc']. rewrite Ho, Hc'.
      destruct (header_shaped_tabbed h Hshape) as [Htab Hlen].
      cbn [found_column_properties_end header_found negb andb].
      now rewrite Htab, Hlen. }
    rewrite Hhead, scan_after_header. reflexivity.
  - intros Hnone.
    destruct (scan_unshaped (map strip (split LF content)) scan_init
                (conj eq_refl (conj eq_refl eq_refl)) Hnone)
      as [(_ & Hh & Hd) _].
    now rewrite Hh, Hd.
Qed.

Lemma body_locator_header_witness :
  find_header_and_data_lines tagged_line_doc
  = (Some (split TAB (tsv ["a"; "b"; "c"])),
     map (split TAB) (filter is_data_line [tsv ["1"; "2"; "3"]])) /\
  find_header_and_data_lines two_field_doc = (None, []).
Proof.
  split.
  - apply (proj1 (body_locator_header tagged_line_doc)
             [] CLOSE_TAG [tsv ["x"; "y"; "z<column properties>"]]
             (tsv ["a"; "b"; "c"]) [tsv ["1"; "2"; "3"]]).
    + reflexivity.
    + constructor.
    + reflexivity.
    + constructor; [left; reflexivity | constructor].
    + reflexivity.
    + reflexivity.
  - apply (proj2 (body_locator_header two_field_doc)).
    repeat (constructor; [right; reflexivity|]). constructor.
Defined.

(* ================================================================== *)
(** ** The table operations *)
(* ================================================================== *)

Lemma mem_In (s : string) (l : list string) : mem s l = true <-> In s l.
Proof.
  unfold mem. rewrite existsb_exists. split.
  - intros [x [Hx Heq]]. apply String.eqb_eq in Heq. now subst.
  - intros H. exists s. split; [exact H | apply String.eqb_refl].
Qed.

Lemma mem_false (s : string) (l : list string) :
  mem s l = false <-> ~ In s l.
Proof. rewrite <- mem_In. now destruct (mem s l). Qed.

Lemma has_column_In (name : string) (df : DataFrame) :
  has_column name df = true <-> In name (columns df).
Proof. apply mem_In. Qed.

Lemma select_filter {A} (p : A -> bool) (l : list A) :
  select (map p l) l = filter p l.
Proof.
  induction l as [|x l IH]; simpl; [reflexivity|].
  destruct (p x); now rewrite IH.
Qed.

Lemma select_length {A B} (mask : list bool) : forall (a : list A) (b : list B),
  length a = length b -> length (select mask a) = length (select mask b).
Proof.
  induction mask as [|m mask IH]; intros [|x a] [|y b] H; simpl in *;
    try reflexivity; try discriminate.
  injection H as H. destruct m; simpl; now rewrite (IH a b H).
Qed.

Lemma filter_all {A} (p : A -> bool) (l : list A) :
  (forall x, In x l -> p x = true) -> filter p l = l.
Proof.
  induction l as [|x l IH]; simpl; intros H; [reflexivity|].
  rewrite (H x (or_introl eq_refl)), IH; [reflexivity|].
  intros y Hy. apply H. now right.
Qed.

Lemma drop_columns_columns (df : DataFrame) (labels : list string) :
  columns (drop_columns df labels)
  = filter (fun c => negb (mem c labels)) (columns df).
Proof. unfold drop_columns. simpl. apply select_filter. Qed.

Lemma drop_columns_rows (df : DataFrame) (labels : list string) :
  length (rows (drop_columns df labels)) = length (rows df).
Proof. unfold drop_columns. simpl. apply length_map. Qed.

Lemma drop_columns_well_formed (df : DataFrame) (labels : list string) :
  well_formed df -> well_formed (drop_columns df labels).
Proof.
  unfold well_formed, drop_columns. simpl. intros H.
  apply Forall_map. eapply Forall_impl; [|exact H].
  intros r Hr. now apply select_length.
Qed.

Lemma overwrite_length cols label v : forall row,
  length (overwrite cols label v row) = length row.
Proof.
  induction cols as [|c cs IH]; intros [|x xs]; simpl; try reflexivity.
  now rewrite IH.
Qed.

(** What [df[label] = values] does to a well-formed table. *)
Lemma set_column_ok (df : DataFrame) (label : string) (values : list cell) :
  length values = length (rows df) ->
  exists df',
    set_column df label values = Ok df' /\
    length (rows df') = length (rows df) /\
    (well_formed df -> well_formed df') /\
    columns df' = (if has_column label df then columns df
                   else columns df ++ [label]).
Proof.
  intros Hlen. unfold set_column. rewrite Hlen, Nat.eqb_refl. simpl.
  destruct (has_column label df); eexists; (split; [reflexivity|]); simpl.
  - rewrite length_map, length_combine. split; [lia|]. split; [|reflexivity].
    unfold well_formed. simpl. intros H. apply Forall_map, Forall_forall.
    intros [r v] Hin. simpl. rewrite overwrite_length.
    apply in_combine_l in Hin. revert r Hin. now apply Forall_forall.
  - rewrite length_map, length_combine. split; [lia|]. split; [|reflexivity].
    unfold well_formed. simpl. intros H. apply Forall_map, Forall_forall.
    intros [r v] Hin. simpl. rewrite !length_app. simpl.
    apply in_combine_l in Hin. f_equal. revert r Hin. now apply Forall_forall.
Qed.

Lemma column_tolist_length (df : DataFrame) (col : string) l :
  column_tolist df col = Ok l -> length l = length (rows df).
Proof.
  unfold column_tolist.
  destruct (filter (String.eqb col) (columns df)) as [|? [|? ?]];
    try discriminate.
  destruct (index_of col (columns df)); [|discriminate].
  intros H. inversion H. apply length_map.
Qed.

Lemma column_tolist_raises (df : DataFrame) (col : string) e :
  column_tolist df col = Raise e -> e = KeyError \/ e = AttributeError.
Proof.
  unfold column_tolist.
  destruct (filter (String.eqb col) (columns df)) as [|? [|? ?]].
  - intros H. inversion H. now left.
  - destruct (index_of col (columns df)); [discriminate|].
    intros H. inversion H. now left.
  - intros H. inversion H. now right.
Qed.

Lemma width_bound (data : list (list string)) (row : list string) :
  In row data -> length row <= width data.
Proof.
  unfold width. induction data as [|r data IH]; simpl; [contradiction|].
  intros [->|Hin]; [lia|]. specialize (IH Hin). lia.
Qed.

Lemma pad_length (n : nat) (row : list string) :
  length row <= n -> length (pad n row) = n.
Proof.
  intros H. unfold pad. rewrite length_app, length_map, repeat_length. lia.
Qed.

Lemma generic_names_length (n : nat) : length (generic_names n) = n.
Proof. unfold generic_names. now rewrite length_map, length_seq. Qed.

Lemma assemble_columns_length header data :
  length (columns (assemble header data)) = width data.
Proof.
  unfold assemble, dropna_all. cbn [columns].
  destruct header as [[|h hs]|]; try apply generic_names_length.
  destruct (length (h :: hs) =? width data)%nat eqn:E.
  - now apply Nat.eqb_eq in E.
  - apply generic_names_length.
Qed.

Lemma assemble_well_formed header data : well_formed (assemble header data).
Proof.
  unfold well_formed. rewrite assemble_columns_length.
  unfold assemble, dropna_all. cbn [rows]. apply Forall_forall. intros r Hr.
  apply filter_In in Hr as [Hr _]. apply in_map_iff in Hr as [row [<- Hrow]].
  apply pad_length. now apply width_bound.
Qed.

Lemma filter_map_swap {A B} (f : A -> B) (p : B -> bool) (l : list A) :
  filter p (map f l) = map f (filter (fun x => p (f x)) l).
Proof.
  induction l as [|x l IH]; simpl; [reflexivity|].
  destruct (p (f x)); simpl; now rewrite IH.
Qed.

Lemma assemble_rows header data :
  length (rows (assemble header data))
  = length (filter (fun line => negb (all_na (pad (width data) line))) data).
Proof.
  unfold assemble, dropna_all. cbn [rows].
  now rewrite filter_map_swap, length_map.
Qed.

(** A row of at least one field is not dropped as empty. *)
Lemma pad_not_all_na (n : nat) (row : list string) :
  row <> [] -> all_na (pad n row) = false.
Proof. destruct row as [|x r]; [contradiction | reflexivity]. Qed.

Lemma scan_line_rows_nonempty (st : scan_state) (line : string) :
  Forall (fun r => r <> []) (data_lines st) ->
  Forall (fun r => r <> []) (data_lines (scan_line st line)).
Proof.
  intros H. unfold scan_line.
  destruct (contains OPEN_TAG line); [exact H|].
  destruct (contains CLOSE_TAG line); [exact H|].
  assert (Hd : Forall (fun r : list string => r <> [])
                 (data_lines
                    (if tabbed_text line && negb (startswith "settings=" line)
                     then
                       if header_found st
                       then mk_scan (found_column_properties_end st)
                              (header_found st) (header_line st)
                              (data_lines st ++ [split TAB line])
                       else st
                     else st))).
  { destruct (_ && _); [|exact H]. destruct (header_found st); [|exact H].
    simpl. apply Forall_app. split; [exact H|].
    constructor; [apply split_not_nil | constructor]. }
  destruct (_ && _ && _); [|exact Hd].
  destruct (3 <=? _)%nat; [exact H | exact Hd].
Qed.

Lemma data_lines_nonempty (content : string) :
  Forall (fun r => r <> []) (snd (find_header_and_data_lines content)).
Proof.
  unfold find_header_and_data_lines. simpl. rewrite scan_stripped.
  assert (H : Forall (fun r : list string => r <> []) (data_lines scan_init))
    by constructor.
  revert H. generalize scan_init.
  induction (map strip (split LF content)) as [|l r IH]; simpl; intros st H;
    [exact H|].
  apply IH. now apply scan_line_rows_nonempty.
Qed.

(* ================================================================== *)
(** ** Decoding and projecting the table *)
(* ================================================================== *)

Lemma In_idcode_items (df : DataFrame) (info : dict col_props) (c : string) :
  In c (idcode_items df info) <->
  has_column c df = true /\ declares_idcode info c = true.
Proof.
  unfold declares_idcode.
  induction info as [|[k p] info IH]; simpl.
  - split; [contradiction | intros [_ H]; discriminate].
  - destruct (has_column k df && is_idcode p) eqn:E; simpl; rewrite IH.
    + apply andb_true_iff in E as [Ek Ep]. rewrite Ep, andb_true_r. split.
      * intros [<-|[Hc Hd]].
        -- now rewrite String.eqb_refl.
        -- split; [exact Hc|]. rewrite Hd. apply orb_true_r.
      * intros [Hc Hd]. destruct (k =? c)%string eqn:Ekc.
        -- left. now apply String.eqb_eq.
        -- right. now split.
    + split.
      * intros [Hc Hd]. split; [exact Hc|]. rewrite Hd. apply orb_true_r.
      * intros [Hc Hd]. split; [exact Hc|].
        apply orb_true_iff in Hd as [Hd|Hd]; [|exact Hd].
        apply andb_true_iff in Hd as [Ekc Ep].
        apply String.eqb_eq in Ekc. subst k. now rewrite Hc, Ep in E.
Qed.

Lemma find_idcode_columns_items (df : DataFrame) (info : dict col_props) :
  find_idcode_columns_for_decoding df info
  = (idcode_items df info, idcode_items df info).
Proof. now destruct info. Qed.

Lemma mem_list_set (c : string) (l : list string) :
  mem c (list_set l) = mem c l.
Proof.
  unfold list_set. apply eq_true_iff_eq. rewrite !mem_In. apply nodup_In.
Qed.

Lemma mem_app (c : string) (a b : list string) :
  mem c (a ++ b) = mem c a || mem c b.
Proof. apply existsb_app. Qed.

Lemma mem_filter (p : string -> bool) (c : string) (l : list string) :
  In c l -> mem c (filter p l) = p c.
Proof.
  intros H. apply eq_true_iff_eq. rewrite mem_In, filter_In. tauto.
Qed.

Lemma filter_ext_in_bool {A} (p q : A -> bool) (l : list A) :
  (forall x, In x l -> p x = q x) -> filter p l = filter q l.
Proof.
  induction l as [|x l IH]; simpl; intros H; [reflexivity|].
  rewrite (H x (or_introl eq_refl)), IH; [reflexivity|].
  intros y Hy. apply H. now right.
Qed.

Lemma remove_structure_columns_columns (df : DataFrame) info :
  columns (remove_structure_columns df info)
  = filter (kept_structure df info) (columns df).
Proof.
  unfold remove_structure_columns. rewrite find_idcode_columns_items.
  set (L := list_set (idcode_items df info
                      ++ filter is_coordinate (columns df)
                      ++ filter is_smiles (columns df))).
  assert (HL : forall c, In c (columns df) ->
                 negb (mem c L) = kept_structure df info c).
  { intros c Hc. unfold L, kept_structure.
    rewrite mem_list_set, !mem_app, !mem_filter by exact Hc.
    now rewrite orb_assoc. }
  transitivity (filter (fun c => negb (mem c L)) (columns df));
    [|now apply filter_ext_in_bool].
  destruct L as [|x L'] eqn:EL.
  - symmetry. now apply filter_all.
  - apply drop_columns_columns.
Qed.

Lemma remove_structure_columns_shape (df : DataFrame) info :
  length (rows (remove_structure_columns df info)) = length (rows df) /\
  (well_formed df -> well_formed (remove_structure_columns df info)).
Proof.
  unfold remove_structure_columns. rewrite find_idcode_columns_items.
  destruct (list_set _) as [|x L]; [now split|].
  split; [apply drop_columns_rows | apply drop_columns_well_formed].
Qed.

Lemma remove_fingerprint_columns_columns (df : DataFrame) :
  columns (remove_fingerprint_columns df)
  = filter (fun c => negb (is_fingerprint c)) (columns df).
Proof.
  unfold remove_fingerprint_columns.
  destruct (filter is_fingerprint (columns df)) as [|x L] eqn:E.
  - symmetry. apply filter_all. intros c Hc.
    destruct (is_fingerprint c) eqn:Ec; [|reflexivity].
    assert (Hin : In c (filter is_fingerprint (columns df)))
      by now apply filter_In.
    rewrite E in Hin. contradiction.
  - rewrite drop_columns_columns, <- E. apply filter_ext_in_bool.
    intros c Hc. now rewrite mem_filter.
Qed.

Lemma remove_fingerprint_columns_shape (df : DataFrame) :
  length (rows (remove_fingerprint_columns df)) = length (rows df) /\
  (well_formed df -> well_formed (remove_fingerprint_columns df)).
Proof.
  unfold remove_fingerprint_columns.
  destruct (filter is_fingerprint (columns df)) as [|x L]; [now split|].
  split; [apply drop_columns_rows | apply drop_columns_well_formed].
Qed.

Section LoadFacts.

Variable node : World -> list string -> run_outcome.

Lemma decode_idcodes_returns (idcodes : list cell) (w : World) :
  exists out w',
    decode_idcodes node idcodes w = (Ok out, w') /\
    length out = length idcodes.
Proof.
  destruct (decode_idcodes_cases node idcodes w)
    as [[_ Heq] | [_ [out [Heq Hout]]]].
  - exists (all_absent idcodes), w. split; [exact Heq|].
    apply all_absent_length.
  - exists out, (w ++ [valid_idcodes idcodes]). split; [exact Heq|].
    destruct (node w (valid_idcodes idcodes)) as [stdout| | |];
      try (subst out; apply all_absent_length).
    destruct (parse_lines _ _ _ _) as [r|e] eqn:Hp; subst out.
    + rewrite (parse_lines_length _ _ _ _ _ Hp). apply all_absent_length.
    + apply all_absent_length.
Qed.

(** The loop over the columns to decode: it adds (or overwrites) the
    decoded columns and keeps all else; it can only stop on a column
    label that is repeated in the table. *)
Lemma decode_columns_spec (cols : list string) : forall df w,
  match decode_columns node cols df w with
  | (Ok df', _) =>
      length (rows df') = length (rows df) /\
      (well_formed df -> well_formed df') /\
      (forall c, In c (columns df) -> In c (columns df')) /\
      (forall c, In c cols -> In (c ++ "_SMILES")%string (columns df'))
  | (Raise e, _) => e = KeyError \/ e = AttributeError
  end.
Proof.
  induction cols as [|col rest IH]; intros df w.
  - simpl. repeat split; auto. intros c [].
  - cbn [decode_columns]. unfold bind at 1. unfold lift at 1.
    destruct (column_tolist df col) as [idcodes|e] eqn:Hcol;
      [|now apply column_tolist_raises in Hcol].
    unfold bind at 1.
    destruct (decode_idcodes_returns idcodes w) as [out [w1 [Hdec Hlen]]].
    rewrite Hdec.
    destruct (set_column_ok df (col ++ "_SMILES") out)
      as [df1 [Hset [Hrows [Hwf Hcols]]]].
    { rewrite Hlen. now apply column_tolist_length in Hcol. }
    unfold bind at 1. unfold lift at 1. rewrite Hset.
    specialize (IH df1 w1).
    destruct (decode_columns node rest df1 w1) as [[df'|e] w']; [|exact IH].
    destruct IH as [IHrows [IHwf [IHkeep IHnew]]].
    assert (Hsub : forall c, In c (columns df) -> In c (columns df1)).
    { intros c Hc. rewrite Hcols.
      destruct (has_column _ df); [exact Hc | apply in_or_app; now left]. }
    assert (Hnew : In (col ++ "_SMILES")%string (columns df1)).
    { rewrite Hcols. destruct (has_column _ df) eqn:Hh.
      - now apply has_column_In.
      - apply in_or_app. right. now left. }
    split; [congruence|]. split; [auto|]. split; [auto|].
    intros c [<-|Hc]; auto.
Qed.

Lemma decode_structures_columns (df : DataFrame) (info : dict col_props) :
  decode_structures_in_dataframe node df info
  = decode_columns node (idcode_items df info) df.
Proof.
  unfold decode_structures_in_dataframe.
  rewrite find_idcode_columns_items. now destruct (idcode_items df info).
Qed.

Lemma filter_none {A} (p : A -> bool) (l : list A) :
  (forall x, In x l -> p x = false) -> filter p l = [].
Proof.
  induction l as [|x l IH]; simpl; intros H; [reflexivity|].
  rewrite (H x (or_introl eq_refl)). apply IH. intros y Hy. apply H. now right.
Qed.

Lemma filter_eqb_NoDup (x : string) (l : list string) :
  NoDup l -> In x l -> filter (String.eqb x) l = [x].
Proof.
  induction 1 as [|y l Hy Hnd IH]; simpl; [contradiction|].
  intros [->|Hin].
  - rewrite String.eqb_refl. f_equal.
    apply filter_none. intros z Hz.
    apply String.eqb_neq. intros ->. contradiction.
  - destruct (String.eqb_spec x y) as [->|Hxy]; [contradiction | now apply IH].
Qed.

Lemma index_of_In (x : string) (l : list string) :
  In x l -> exists i, index_of x l = Some i.
Proof.
  induction l as [|y l IH]; simpl; [contradiction|].
  intros Hin. destruct (y =? x)%string eqn:E; [now exists 0|].
  destruct Hin as [->|Hin]; [now rewrite String.eqb_refl in E|].
  destruct (IH Hin) as [i Hi]. exists (S i). now rewrite Hi.
Qed.

(** On a table with distinct column names the loop does not stop. *)
Lemma decode_columns_returns (cols : list string) : forall df w,
  NoDup (columns df) ->
  (forall c, In c cols -> In c (columns df)) ->
  exists df' w', decode_columns node cols df w = (Ok df', w').
Proof.
  induction cols as [|col rest IH]; intros df w Hnd Hsub.
  - now exists df, w.
  - cbn [decode_columns]. unfold bind at 1. unfold lift at 1.
    assert (Hcol : In col (columns df)) by (apply Hsub; now left).
    destruct (index_of_In col (columns df) Hcol) as [i Hi].
    unfold column_tolist at 1.
    rewrite (filter_eqb_NoDup col (columns df) Hnd Hcol), Hi.
    unfold bind at 1.
    destruct (decode_idcodes_returns
                (map (fun r => nth i r None) (rows df)) w)
      as [out [w1 [Hdec Hlen]]].
    rewrite Hdec.
    destruct (set_column_ok df (col ++ "_SMILES") out)
      as [df1 [Hset [_ [_ Hcols]]]].
    { now rewrite Hlen, length_map. }
    unfold bind at 1. unfold lift at 1. rewrite Hset.
    apply IH.
    + rewrite Hcols. destruct (has_column _ df) eqn:Hh; [exact Hnd|].
      apply NoDup_app; [exact Hnd | repeat constructor; intros [] |].
      intros c Hc [<-|[]]. apply has_column_In in Hc. congruence.
    + intros c Hc. rewrite Hcols.
      destruct (has_column _ df);
        [|apply in_or_app; left]; apply Hsub; now right.
Qed.

(** The shapes of a run of [LoadDwar]. *)
Lemma LoadDwar_cases (content : string) (flag : bool) (w : World) :
  let header := fst (find_header_and_data_lines content) in
  let data := snd (find_header_and_data_lines content) in
  let info := extract_column_properties content in
  let df0 := assemble header data in
  (is_dwar_file content = false /\
   LoadDwar node content flag w = (Raise ValueError, w)) \/
  (is_dwar_file content = true /\ data = [] /\
   LoadDwar node content flag w = (Ok empty_frame, w)) \/
  (is_dwar_file content = true /\ data <> [] /\
   LoadDwar node content flag w
   = match decode_columns node (idcode_items df0 info) df0 w with
     | (Ok df1, w') =>
         (Ok (remove_fingerprint_columns
                (if flag then remove_structure_columns df1 info else df1)),
          w')
     | (Raise e, w') => (Raise e, w')
     end).
Proof.
  intros header data info df0. unfold LoadDwar.
  destruct (is_dwar_file content); [right | now left].
  subst header data df0 info.
  destruct (find_header_and_data_lines content) as [header data]. simpl.
  destruct data as [|row data]; [now left|].
  right. split; [reflexivity|]. split; [discriminate|].
  rewrite decode_structures_columns. unfold bind at 1.
  now destruct (decode_columns node _ _ w) as [[df1|e] w'].
Qed.

(** A document with a marker and distinct column names is loaded. *)
Lemma LoadDwar_returns (content : string) (flag : bool) (w : World) :
  is_dwar_file content = true ->
  NoDup (columns (assemble (fst (find_header_and_data_lines content))
                           (snd (find_header_and_data_lines content)))) ->
  exists df w', LoadDwar node content flag w = (Ok df, w').
Proof.
  intros Hd Hnd.
  destruct (LoadDwar_cases content flag w)
    as [[Hn _] | [[_ [_ H]] | [_ [_ H]]]]; [congruence | eauto |].
  rewrite H.
  destruct (decode_columns_returns
              (idcode_items
                 (assemble (fst (find_header_and_data_lines content))
                           (snd (find_header_and_data_lines content)))
                 (extract_column_properties content))
              (assemble (fst (find_header_and_data_lines content))
                        (snd (find_header_and_data_lines content))) w Hnd)
    as [df1 [w1 Hdec]].
  { intros c Hc. apply In_idcode_items in Hc as [Hc _].
    now apply has_column_In. }
  rewrite Hdec. eauto.
Qed.

End LoadFacts.

(* ================================================================== *)
(** ** The load operation *)
(* ================================================================== *)

(** C4. A document with neither the file-info marker nor the opening tag
    of the metadata block makes [LoadDwar] raise ValueError, the format
    error; a document with one of them never makes it raise ValueError. *)
Theorem load_format_error
    (node : World -> list string -> run_outcome)
    (content : string) (flag : bool) (w : World) :
  (contains "<datawarrior-fileinfo>" content = false /\
   contains "<column properties>" content = false ->
   LoadDwar node content flag w = (Raise ValueError, w)) /\
  (contains "<datawarrior-fileinfo>" content = true \/
   contains "<column properties>" content = true ->
   fst (LoadDwar node content flag w) <> Raise ValueError).
Proof.
  split.
  - intros [H1 H2].
    destruct (LoadDwar_cases node content flag w)
      as [[_ H] | [[Hd _] | [Hd _]]]; [exact H | |];
      unfold is_dwar_file, OPEN_TAG in Hd; rewrite H1, H2 in Hd;
      discriminate.
  - intros Hmark.
    assert (Hd : is_dwar_file content = true).
    { unfold is_dwar_file, OPEN_TAG. destruct Hmark as [-> | ->];
        [reflexivity | apply orb_true_r]. }
    destruct (LoadDwar_cases node content flag w)
      as [[Hn _] | [[_ [_ H]] | [_ [_ H]]]]; [congruence | |];
      rewrite H; [discriminate|].
    pose proof (decode_columns_spec node
      (idcode_items
         (assemble (fst (find_header_and_data_lines content))
                   (snd (find_header_and_data_lines content)))
         (extract_column_properties content))
      (assemble (fst (find_header_and_data_lines content))
                (snd (find_header_and_data_lines content))) w) as Hspec.
    destruct (decode_columns node _ _ w) as [[df1|e] w']; [discriminate|].
    simpl. destruct Hspec as [-> | ->]; discriminate.
Qed.

Lemma load_format_error_witness :
  LoadDwar (answer "0:CCO") bare_doc true [] = (Raise ValueError, []) /\
  fst (LoadDwar (answer "0:CCO") sample_doc true []) <> Raise ValueError.
Proof.
  split.
  - apply (proj1 (load_format_error (answer "0:CCO") bare_doc true [])).
    split; reflexivity.
  - apply (proj2 (load_format_error (answer "0:CCO") sample_doc true [])).
    left. reflexivity.
Defined.

(** C2, as stated, fails: loaded with [exclude_structure_columns] false,
    a document with a column named Smiles gives a table with that
    column. *)
Lemma load_keeps_smiles_column :
  fst (LoadDwar (answer "0:CCO") smiles_doc false [])
  = Ok (mk_frame ["ID"; "Smiles"; "Name"]
          [[Some "1"; Some "CCO"; Some "ethanol"]]) /\
  lower "Smiles" = "smiles".
Proof. split; reflexivity. Qed.

(** C2, amended. The table that [LoadDwar] returns has no column whose
    name ends with "Fp", whatever [exclude_structure_columns] is; and
    when [exclude_structure_columns] is true it has no column whose
    lower-cased name is "smiles". *)
Theorem load_drops_fingerprint_and_smiles
    (node : World -> list string -> run_outcome)
    (content : string) (flag : bool) (w w' : World) (df : DataFrame) :
  LoadDwar node content flag w = (Ok df, w') ->
  (forall c, In c (columns df) -> endswith "Fp" c = false) /\
  (flag = true ->
   forall c, In c (columns df) -> (lower c =? "smiles")%string = false).
Proof.
  intros Hload.
  destruct (LoadDwar_cases node content flag w)
    as [[_ H] | [[_ [_ H]] | [_ [_ H]]]]; rewrite H in Hload.
  - discriminate.
  - inversion Hload. split; [intros c [] | intros _ c []].
  - destruct (decode_columns node _ _ w) as [[df1|e] w1]; [|discriminate].
    inversion Hload; subst df w'. clear Hload H.
    rewrite remove_fingerprint_columns_columns. split.
    + intros c Hc. apply filter_In in Hc as [_ Hc].
      now apply negb_true_iff in Hc.
    + intros -> c Hc. apply filter_In in Hc as [Hc _].
      rewrite remove_structure_columns_columns in Hc.
      apply filter_In in Hc as [_ Hc]. unfold kept_structure in Hc.
      apply negb_true_iff, orb_false_iff in Hc as [_ Hc]. exact Hc.
Qed.

Lemma load_drops_fingerprint_and_smiles_witness :
  (forall c, In c ["ID"; "Name"; "Structure_SMILES"] ->
             endswith "Fp" c = false) /\
  (true = true ->
   forall c, In c ["ID"; "Name"; "Structure_SMILES"] ->
             (lower c =? "smiles")%string = false).
Proof.
  apply (load_drops_fingerprint_and_smiles (answer "0:C1=CC=CC=C1")
           sample_doc true [] [["ABC"; "ABC"]]
           (mk_frame ["ID"; "Name"; "Structure_SMILES"]
              [[Some "1"; Some "first"; Some "C1=CC=CC=C1"];
               [Some "2"; Some "second"; Some "C1=CC=CC=C1"]])).
  reflexivity.
Defined.

(** C8. The table that [LoadDwar] returns has one row per data line that
    is not empty in every position (and no data line is), and every row
    has one cell per column name. *)
Theorem load_table_shape
    (node : World -> list string -> run_outcome)
    (content : string) (flag : bool) (w w' : World) (df : DataFrame) :
  LoadDwar node content flag w = (Ok df, w') ->
  length (rows df)
  = length (filter
              (fun line =>
                 negb (all_na
                         (pad (width (snd (find_header_and_data_lines
                                             content))) line)))
              (snd (find_header_and_data_lines content))) /\
  length (rows df) = length (snd (find_header_and_data_lines content)) /\
  Forall (fun r => length r = length (columns df)) (rows df).
Proof.
  intros Hload.
  assert (Hall : filter
            (fun line =>
               negb (all_na
                       (pad (width (snd (find_header_and_data_lines
                                           content))) line)))
            (snd (find_header_and_data_lines content))
          = snd (find_header_and_data_lines content)).
  { apply filter_all. intros row Hrow. apply negb_true_iff, pad_not_all_na.
    pose proof (data_lines_nonempty content) as Hne.
    rewrite Forall_forall in Hne. now apply Hne. }
  rewrite Hall.
  destruct (LoadDwar_cases node content flag w)
    as [[_ H] | [[_ [Hd H]] | [_ [_ H]]]]; rewrite H in Hload.
  - discriminate.
  - inversion Hload. rewrite Hd. repeat split. constructor.
  - pose proof (decode_columns_spec node
      (idcode_items
         (assemble (fst (find_header_and_data_lines content))
                   (snd (find_header_and_data_lines content)))
         (extract_column_properties content))
      (assemble (fst (find_header_and_data_lines content))
                (snd (find_header_and_data_lines content))) w) as Hspec.
    destruct (decode_columns node _ _ w) as [[df1|e] w1]; [|discriminate].
    inversion Hload; subst df w'. clear Hload H.
    destruct Hspec as [Hrows [Hwf _]].
    specialize (Hwf (assemble_well_formed _ _)).
    rewrite assemble_rows, Hall in Hrows.
    destruct (remove_fingerprint_columns_shape
                (if flag
                 then remove_structure_columns df1
                        (extract_column_properties content)
                 else df1)) as [Hr2 Hw2].
    rewrite Hr2.
    destruct flag.
    + destruct (remove_structure_columns_shape df1
                  (extract_column_properties content)) as [Hr1 Hw1].
      rewrite Hr1. split; [exact Hrows|]. split; [exact Hrows|].
      apply Hw2, Hw1, Hwf.
    + split; [exact Hrows|]. split; [exact Hrows|]. apply Hw2, Hwf.
Qed.

Lemma load_table_shape_witness :
  length [[Some "1"; Some "first"; Some "C1=CC=CC=C1"];
          [Some "2"; Some "second"; Some "C1=CC=CC=C1"]]
  = length (snd (find_header_and_data_lines sample_doc)) /\
  Forall (fun r : list cell => length r = 3)
    [[Some "1"; Some "first"; Some "C1=CC=CC=C1"];
     [Some "2"; Some "second"; Some "C1=CC=CC=C1"]].
Proof.
  apply (load_table_shape (answer "0:C1=CC=CC=C1")
           sample_doc true [] [["ABC"; "ABC"]]
           (mk_frame ["ID"; "Name"; "Structure_SMILES"]
              [[Some "1"; Some "first"; Some "C1=CC=CC=C1"];
               [Some "2"; Some "second"; Some "C1=CC=CC=C1"]])).
  reflexivity.
Defined.

(** C3, as stated, fails: the decoded sibling of an identifier column
    whose name has "coord" in it is removed with the coordinate columns. *)
Lemma load_drops_decoded_coordinate_column :
  In "Coordination Core"
     (columns (assemble (fst (find_header_and_data_lines core_doc))
                        (snd (find_header_and_data_lines core_doc)))) /\
  declares_idcode (extract_column_properties core_doc) "Coordination Core"
  = true /\
  LoadDwar (answer "0:CCO") core_doc true []
  = (Ok (mk_frame ["ID"; "Name"] [[Some "1"; Some "first"]]), [["ABC"]]) /\
  ~ In "Coordination Core_SMILES" ["ID"; "Name"].
Proof.
  split; [right; left; reflexivity|]. split; [reflexivity|].
  split; [reflexivity|].
  intros [H|[H|[]]]; discriminate.
Qed.

(** C3, amended. When [LoadDwar] with [exclude_structure_columns] true
    returns a table, every column name of the assembled table that the
    metadata declares with the special type "idcode" (up to case) is
    absent from the returned table; and the column "<name>_SMILES" is in
    the returned table provided that the metadata does not declare
    "<name>_SMILES" itself as "idcode" and that its lower-cased name
    contains none of the coordinate patterns. *)
Theorem load_replaces_idcode_column
    (node : World -> list string -> run_outcome)
    (content : string) (w w' : World) (df : DataFrame) (name : string) :
  LoadDwar node content true w = (Ok df, w') ->
  In name (columns (assemble (fst (find_header_and_data_lines content))
                             (snd (find_header_and_data_lines content)))) ->
  declares_idcode (extract_column_properties content) name = true ->
  ~ In name (columns df) /\
  (declares_idcode (extract_column_properties content) (name ++ "_SMILES")
   = false ->
   is_coordinate (name ++ "_SMILES") = false ->
   In (name ++ "_SMILES")%string (columns df)).
Proof.
  intros Hload Hin Hdecl.
  destruct (LoadDwar_cases node content true w)
    as [[_ H] | [[_ [Hd H]] | [_ [_ H]]]]; rewrite H in Hload.
  - discriminate.
  - exfalso.
    pose proof (assemble_columns_length
                  (fst (find_header_and_data_lines content))
                  (snd (find_header_and_data_lines content))) as Hlen.
    rewrite Hd in Hlen at 2. change (width []) with 0 in Hlen.
    destruct (columns (assemble _ _)); [contradiction | discriminate Hlen].
  - pose proof (decode_columns_spec node
      (idcode_items
         (assemble (fst (find_header_and_data_lines content))
                   (snd (find_header_and_data_lines content)))
         (extract_column_properties content))
      (assemble (fst (find_header_and_data_lines content))
                (snd (find_header_and_data_lines content))) w) as Hspec.
    destruct (decode_columns node _ _ w) as [[df1|e] w1]; [|discriminate].
    inversion Hload; subst df w'. clear Hload H.
    destruct Hspec as [_ [_ [Hkeep Hnew]]].
    assert (Hplan : In name
              (idcode_items
                 (assemble (fst (find_header_and_data_lines content))
                           (snd (find_header_and_data_lines content)))
                 (extract_column_properties content))).
    { apply In_idcode_items. split; [now apply has_column_In | exact Hdecl]. }
    rewrite remove_fingerprint_columns_columns,
      remove_structure_columns_columns.
    split.
    + intros Hc. apply filter_In in Hc as [Hc _].
      apply filter_In in Hc as [Hc Hk]. unfold kept_structure in Hk.
      apply negb_true_iff, orb_false_iff in Hk as [Hk _].
      apply orb_false_iff in Hk as [Hk _]. apply mem_false in Hk.
      apply Hk, In_idcode_items. split; [now apply has_column_In|exact Hdecl].
    + intros Hsib Hcoord. apply filter_In. split.
      * apply filter_In. split; [now apply Hnew|].
        unfold kept_structure. rewrite Hcoord, smiles_column_not_smiles.
        rewrite !orb_false_r. apply negb_true_iff, mem_false.
        intros Hc. apply In_idcode_items in Hc as [_ Hc]. congruence.
      * now rewrite smiles_column_not_fingerprint.
Qed.

Lemma load_replaces_idcode_column_witness :
  ~ In "Structure" ["ID"; "Name"; "Structure_SMILES"] /\
  (declares_idcode (extract_column_properties sample_doc)
     ("Structure" ++ "_SMILES") = false ->
   is_coordinate ("Structure" ++ "_SMILES") = false ->
   In ("Structure" ++ "_SMILES")%string ["ID"; "Name"; "Structure_SMILES"]).
Proof.
  apply (load_replaces_idcode_column (answer "0:C1=CC=CC=C1")
           sample_doc [] [["ABC"; "ABC"]]
           (mk_frame ["ID"; "Name"; "Structure_SMILES"]
              [[Some "1"; Some "first"; Some "C1=CC=CC=C1"];
               [Some "2"; Some "second"; Some "C1=CC=CC=C1"]])
           "Structure").
  - reflexivity.
  - right. left. reflexivity.
  - reflexivity.
Defined.

(** C10, as stated, fails: a document with no closing tag and with
    neither marker makes [LoadDwar] raise; it returns no table. *)
Lemma load_without_marker_raises :
  Forall (fun line => contains CLOSE_TAG line = false) (split LF bare_doc) /\
  LoadDwar (answer "0:CCO") bare_doc true [] = (Raise ValueError, []).
Proof. split; [repeat constructor | reflexivity]. Qed.

(** C10, amended. When no line of the document holds the closing tag of
    the metadata block, the body locator returns no header and no data
    row; and when the document also holds the file-info marker or the
    opening tag, [LoadDwar] returns the empty table (no row, no column)
    and hands nothing to the decoder process. *)
Theorem load_without_closing_tag
    (node : World -> list string -> run_outcome)
    (content : string) (flag : bool) (w : World) :
  Forall (fun line => contains CLOSE_TAG line = false) (split LF content) ->
  find_header_and_data_lines content = (None, []) /\
  (is_dwar_file content = true ->
   LoadDwar node content flag w = (Ok (mk_frame [] []), w)).
Proof.
  intros Hno.
  assert (Hfind : find_header_and_data_lines content = (None, [])).
  { unfold find_header_and_data_lines. rewrite scan_stripped.
    rewrite scan_before_close; [reflexivity|].
    apply Forall_map. eapply Forall_impl; [|exact Hno].
    intros l Hl. unfold closes_block.
    destruct (contains CLOSE_TAG (strip l)) eqn:E; [|apply andb_false_r].
    apply contains_strip in E. congruence. }
  split; [exact Hfind|]. intros Hd.
  destruct (LoadDwar_cases node content flag w)
    as [[Hn _] | [[_ [_ H]] | [_ [Hne _]]]].
  - congruence.
  - exact H.
  - rewrite Hfind in Hne. now contradiction Hne.
Qed.

Lemma load_without_closing_tag_witness :
  find_header_and_data_lines
    (document ["<datawarrior-fileinfo>"; tsv ["a"; "b"; "c"]])
  = (None, []) /\
  (is_dwar_file (document ["<datawarrior-fileinfo>"; tsv ["a"; "b"; "c"]])
   = true ->
   LoadDwar (answer "0:CCO")
     (document ["<datawarrior-fileinfo>"; tsv ["a"; "b"; "c"]]) true [["X"]]
   = (Ok (mk_frame [] []), [["X"]])).
Proof.
  apply (load_without_closing_tag (answer "0:CCO")
           (document ["<datawarrior-fileinfo>"; tsv ["a"; "b"; "c"]])
           true [["X"]]).
  repeat constructor.
Defined.

(* ================================================================== *)
(** ** More facts about the string operations *)
(* ================================================================== *)

Lemma lstrip_head (s : string) c r :
  lstrip s = String c r -> isspace c = false.
Proof.
  induction s as [|x s IH]; simpl; [discriminate|].
  destruct (isspace x) eqn:E; [exact IH|].
  intros H. inversion H. now subst.
Qed.

Lemma rstrip_head c r :
  isspace c = false -> rstrip (String c r) = String c (rstrip r).
Proof. intros H. simpl. now rewrite H. Qed.

(** A stripped text does not start with white space. *)
Lemma strip_head (s : string) c r :
  strip s = String c r -> isspace c = false.
Proof.
  unfold strip. destruct (lstrip s) as [|x t] eqn:E; [discriminate|].
  pose proof (lstrip_head s x t E) as Hx. rewrite (rstrip_head x t Hx).
  intros H. inversion H. now subst.
Qed.

Lemma lstrip_fixed c r : isspace c = false -> lstrip (String c r) = String c r.
Proof. intros H. simpl. now rewrite H. Qed.

Lemma rstrip_idempotent (s : string) : rstrip (rstrip s) = rstrip s.
Proof.
  induction s as [|c s IH]; [reflexivity|].
  cbn [rstrip].
  destruct (isspace c && negb (nonempty (rstrip s))) eqn:E; [reflexivity|].
  cbn [rstrip]. now rewrite IH, E.
Qed.

(** Stripping twice is stripping once. *)
Lemma strip_idempotent (s : string) : strip (strip s) = strip s.
Proof.
  unfold strip. destruct (lstrip s) as [|x t] eqn:E; [reflexivity|].
  pose proof (lstrip_head s x t E) as Hx.
  rewrite (rstrip_head x t Hx), (lstrip_fixed x _ Hx).
  rewrite <- (rstrip_head x t Hx). apply rstrip_idempotent.
Qed.

(** Splitting and joining on the separator gives the text back. *)
Lemma join_split (sep : ascii) (s : string) :
  join (String sep "") (split sep s) = s.
Proof.
  induction s as [|c s IH]; [reflexivity|].
  cbn [split]. destruct (Ascii.eqb_spec c sep) as [->|Hne].
  - destruct (split sep s) as [|f fs] eqn:E;
      [now apply split_not_nil in E|].
    cbn [join]. cbn [join] in IH. now rewrite IH.
  - destruct (split sep s) as [|f fs] eqn:E;
      [now apply split_not_nil in E|].
    destruct fs as [|g gs]; cbn [join] in IH |- *.
    + now rewrite IH.
    + cbn [String.append]. f_equal. exact IH.
Qed.

Lemma split_head_nonempty (sep c : ascii) (r : string) :
  c <> sep ->
  exists f fs, split sep (String c r) = String c f :: fs.
Proof.
  intros Hne. cbn [split].
  destruct (Ascii.eqb_spec c sep) as [->|_]; [contradiction|].
  destruct (split sep r) as [|f fs]; eauto.
Qed.

Lemma split_two_fields (sep : ascii) (s : string) :
  contains (String sep "") s = true -> 2 <= length (split sep s).
Proof.
  induction s as [|c s IH]; cbn [contains split]; [discriminate|].
  intros H. destruct (Ascii.eqb_spec c sep) as [->|Hne].
  - simpl. pose proof (split_not_nil sep s).
    destruct (split sep s); [contradiction | simpl; lia].
  - apply orb_true_iff in H as [H|H].
    + simpl in H. destruct (ascii_dec sep c); [congruence | discriminate].
    + specialize (IH H). destruct (split sep s); simpl in *; lia.
Qed.

(** The lines of two texts joined by a line feed. *)
Lemma split_app_sep (sep : ascii) (a b : string) :
  split sep (a ++ String sep b) = split sep a ++ split sep b.
Proof.
  induction a as [|c a IH]; cbn [String.append split].
  - now rewrite Ascii.eqb_refl.
  - rewrite IH. destruct (c =? sep)%char; [reflexivity|].
    destruct (split sep a) as [|f fs] eqn:E;
      [now apply split_not_nil in E | reflexivity].
Qed.

Lemma fold_left_invariant {A B} (f : A -> B -> A) (P : A -> Prop)
    (l : list B) : forall a,
  P a -> (forall x b, In b l -> P x -> P (f x b)) -> P (fold_left f l a).
Proof.
  induction l as [|b l IH]; simpl; intros a Ha Hstep; [exact Ha|].
  apply IH.
  - apply Hstep; [now left | exact Ha].
  - intros x b' Hb. apply Hstep. now right.
Qed.

(* ================================================================== *)
(** ** More on the body locator *)
(* ================================================================== *)

(** What [scan_line] does, case by case. *)
Lemma scan_line_cases (st : scan_state) (line : string) :
  scan_line st line = st \/
  scan_line st line
  = mk_scan true (header_found st) (header_line st) (data_lines st) \/
  (header_found st = false /\ has_tag line = false /\
   header_shaped line = true /\
   scan_line st line
   = mk_scan (found_column_properties_end st) true
       (Some (split TAB line)) (data_lines st)) \/
  (header_found st = true /\ is_data_line line = true /\
   scan_line st line
   = mk_scan (found_column_properties_end st) (header_found st)
       (header_line st) (data_lines st ++ [split TAB line])).
Proof.
  unfold scan_line, is_data_line, has_tag.
  destruct (contains OPEN_TAG line) eqn:Ho; [now left|].
  destruct (contains CLOSE_TAG line) eqn:Hc; [right; now left|].
  cbn [orb negb andb].
  destruct (found_column_properties_end st && tabbed_text line
            && negb (header_found st)) eqn:Hcond.
  - apply andb_true_iff in Hcond as [Hcond Hf].
    apply andb_true_iff in Hcond as [_ Htab].
    apply negb_true_iff in Hf.
    destruct (3 <=? length (split TAB line))%nat eqn:Hlen.
    + right; right; left. repeat split; try assumption.
      now apply tabbed_header_shaped.
    + rewrite Hf. left.
      now destruct (tabbed_text line && negb (startswith "settings=" line)).
  - destruct (tabbed_text line && negb (startswith "settings=" line)) eqn:Hd;
      [|now left].
    destruct (header_found st) eqn:Hf; [|now left].
    right; right; right. repeat split.
Qed.

(** X1. Data rows are collected only under a header: when there is a
    data row there is a header; the header has three fields or more and
    every data row has two fields or more. *)
Theorem body_locator_shapes (content : string) :
  (snd (find_header_and_data_lines content) <> [] ->
   fst (find_header_and_data_lines content) <> None) /\
  (forall h, fst (find_header_and_data_lines content) = Some h ->
             3 <= length h) /\
  Forall (fun row => 2 <= length row)
    (snd (find_header_and_data_lines content)).
Proof.
  unfold find_header_and_data_lines. cbn [fst snd]. rewrite scan_stripped.
  set (P := fun st : scan_state =>
    (header_found st = false -> data_lines st = []) /\
    (header_found st = true -> header_line st <> None) /\
    (forall h, header_line st = Some h -> 3 <= length h) /\
    Forall (fun row : list string => 2 <= length row) (data_lines st)).
  assert (HP : P (fold_left scan_line (map strip (split LF content))
                    scan_init)).
  { apply fold_left_invariant.
    - unfold P. simpl. repeat split; try discriminate. constructor.
    - intros st line _ (H1 & H2 & H3 & H4).
      destruct (scan_line_cases st line)
        as [-> | [-> | [(Hf & _ & Hs & ->) | (Hf & Hd & ->)]]];
        unfold P; cbn [header_found header_line data_lines].
      + repeat split; assumption.
      + repeat split; assumption.
      + repeat split; try discriminate; auto.
        intros h Hh. inversion Hh; subst h.
        apply header_shaped_tabbed in Hs as [_ Hl]. now apply Nat.leb_le.
      + repeat split; auto; try congruence.
        apply Forall_app. split; [exact H4|]. constructor; [|constructor].
        apply split_two_fields. unfold is_data_line, tabbed_text in Hd.
        apply andb_true_iff in Hd as [Hd _].
        apply andb_true_iff in Hd as [_ Hd].
        apply andb_true_iff in Hd as [Hd _].
        apply andb_true_iff in Hd as [Hd _].
        now apply andb_true_iff in Hd as [_ Hd]. }
  destruct HP as (H1 & H2 & H3 & H4). repeat split; try assumption.
  intros Hd. destruct (header_found _) eqn:Hf; [now apply H2|].
  exfalso. apply Hd. now apply H1.
Qed.

Lemma body_locator_shapes_witness :
  fst (find_header_and_data_lines sample_doc) <> None /\
  3 <= length ["ID"; "Structure"; "Name"].
Proof.
  destruct (body_locator_shapes sample_doc) as (H1 & H2 & _).
  split.
  - apply H1. discriminate.
  - apply H2. reflexivity.
Defined.

(** Where the header and the data rows come from. *)
Lemma scan_provenance (content : string) :
  (forall h, fst (find_header_and_data_lines content) = Some h ->
     exists line,
       In line (map strip (split LF content)) /\
       has_tag line = false /\ header_shaped line = true /\
       h = split TAB line) /\
  Forall (fun row =>
            exists line,
              In line (map strip (split LF content)) /\
              is_data_line line = true /\
              row = split TAB line /\ join tab row = line)
    (snd (find_header_and_data_lines content)).
Proof.
  unfold find_header_and_data_lines. cbn [fst snd]. rewrite scan_stripped.
  set (lines := map strip (split LF content)).
  set (P := fun st : scan_state =>
    (forall h, header_line st = Some h ->
       exists line, In line lines /\ has_tag line = false /\
                    header_shaped line = true /\ h = split TAB line) /\
    Forall (fun row =>
              exists line, In line lines /\ is_data_line line = true /\
                           row = split TAB line /\ join tab row = line)
      (data_lines st)).
  apply (fold_left_invariant scan_line P lines scan_init).
  - split; [discriminate | constructor].
  - intros st line Hin (H1 & H2).
    destruct (scan_line_cases st line)
      as [-> | [-> | [(Hf & Ht & Hs & ->) | (Hf & Hd & ->)]]];
      unfold P; cbn [header_found header_line data_lines].
    + now split.
    + now split.
    + split; [|exact H2]. intros h Hh. inversion Hh; subst h.
      now exists line.
    + split; [exact H1|]. apply Forall_app. split; [exact H2|].
      constructor; [|constructor]. exists line.
      repeat split; try assumption. apply join_split.
Qed.

(** X2. The header and the data rows are lines of the document: the
    header is the tab-split of a stripped line that has the header shape
    and holds no tag; every data row is the tab-split of a stripped line
    that holds no tag, contains a tab and does not start with '<', '>' or
    "settings="; joined with tabs again, a row is that line. *)
Theorem body_locator_provenance (content : string) :
  (forall h, fst (find_header_and_data_lines content) = Some h ->
     exists line,
       In line (map strip (split LF content)) /\
       has_tag line = false /\ header_shaped line = true /\
       h = split TAB line) /\
  Forall (fun row =>
            exists line,
              In line (map strip (split LF content)) /\
              is_data_line line = true /\
              row = split TAB line /\ join tab row = line)
    (snd (find_header_and_data_lines content)).
Proof. exact (scan_provenance content). Qed.

Lemma body_locator_provenance_witness :
  exists line,
    In line (map strip (split LF sample_doc)) /\
    has_tag line = false /\ header_shaped line = true /\
    ["ID"; "Structure"; "Name"] = split TAB line.
Proof.
  apply (proj1 (body_locator_provenance sample_doc)). reflexivity.
Defined.

(** X3. The first field of every data row is not empty: a data line is
    stripped, and a tab is white space. *)
Theorem data_rows_first_field (content : string) :
  Forall (fun row => exists f fs, row = f :: fs /\ f <> "")
    (snd (find_header_and_data_lines content)).
Proof.
  eapply Forall_impl; [|apply (proj2 (scan_provenance content))].
  intros row (line & Hin & Hd & -> & _).
  apply in_map_iff in Hin as [raw [<- _]].
  unfold is_data_line, tabbed_text in Hd.
  destruct (strip raw) as [|c r] eqn:E.
  - rewrite !andb_false_r in Hd. discriminate.
  - pose proof (strip_head raw c r E) as Hc.
    destruct (split_head_nonempty TAB c r) as [f [fs Hsplit]].
    + intros ->. discriminate.
    + exists (String c f), fs. split; [exact Hsplit | discriminate].
Qed.

(* ================================================================== *)
(** ** The metadata extractor *)
(* ================================================================== *)

Lemma dict_get_set {V} (k : string) (v : V) (d : dict V) :
  dict_get k (dict_set k v d) = Some v.
Proof.
  induction d as [|[k' v'] d IH]; simpl.
  - now rewrite String.eqb_refl.
  - destruct (k' =? k)%string eqn:E; simpl.
    + now rewrite String.eqb_refl.
    + now rewrite E.
Qed.

Lemma dict_get_update {V} (k : string) (f : V -> V) (d : dict V) :
  dict_get k (dict_update k f d) = option_map f (dict_get k d).
Proof.
  induction d as [|[k' v'] d IH]; simpl; [reflexivity|].
  destruct (k' =? k)%string eqn:E; simpl; now rewrite E.
Qed.

Lemma dict_set_keys {V} (P : string * V -> Prop) (k : string) (v : V)
    (d : dict V) :
  P (k, v) -> Forall P d -> Forall P (dict_set k v d).
Proof.
  intros Hk. induction 1 as [|[k' v'] d Hx Hd IH]; simpl.
  - now repeat constructor.
  - destruct (k' =? k)%string; constructor; assumption.
Qed.

Lemma dict_update_keys {V} (P : string * V -> Prop) (k : string)
    (f : V -> V) (d : dict V) :
  (forall v, P (k, v) -> P (k, f v)) ->
  Forall P d -> Forall P (dict_update k f d).
Proof.
  intros Hf. induction 1 as [|[k' v'] d Hx Hd IH]; simpl; [constructor|].
  destruct (k' =? k)%string eqn:E; constructor; try assumption.
  apply String.eqb_eq in E. subst k'. now apply Hf.
Qed.

Lemma strip_prefix_app (p r : string) : strip_prefix p (p ++ r) = Some r.
Proof.
  induction p as [|a p IH]; simpl; [reflexivity|].
  now rewrite Ascii.eqb_refl.
Qed.

Lemma contains_dq_cons (c : ascii) (s : string) :
  contains dq (String c s) = (c =? DQUOTE)%char || contains dq s.
Proof.
  cbn [contains]. f_equal. apply eq_true_iff_eq.
  rewrite prefix_app, Ascii.eqb_eq. split.
  - intros [r Hr]. now inversion Hr.
  - intros ->. now exists s.
Qed.

Lemma span_nonquote_plain (g rest : string) :
  contains dq g = false ->
  span_nonquote (g ++ String DQUOTE rest) = (g, String DQUOTE rest).
Proof.
  induction g as [|c g IH]; intros H.
  - reflexivity.
  - rewrite contains_dq_cons in H. apply orb_false_iff in H as [Hc Hg].
    cbn [String.append span_nonquote]. now rewrite Hc, (IH Hg).
Qed.

Lemma span_nonquote_group (s : string) :
  contains dq (fst (span_nonquote s)) = false.
Proof.
  induction s as [|c s IH]; [reflexivity|].
  cbn [span_nonquote]. destruct (c =? DQUOTE)%char eqn:E; [reflexivity|].
  destruct (span_nonquote s) as [a b]. cbn [fst] in *.
  now rewrite contains_dq_cons, E, IH.
Qed.

Lemma re_match_at_group (pre s g : string) :
  re_match_at pre s = Some g -> g <> "" /\ contains dq g = false.
Proof.
  unfold re_match_at. destruct (strip_prefix pre s) as [r|]; [|discriminate].
  pose proof (span_nonquote_group r) as Hg.
  destruct (span_nonquote r) as [a b]. cbn [fst] in Hg.
  destruct (nonempty a && startswith (dq ++ ">") b) eqn:E; [|discriminate].
  intros H. inversion H. subst g. split; [|exact Hg].
  intros ->. discriminate.
Qed.

(** The group of a match is not empty and holds no double quote. *)
Lemma re_search_group (pre s g : string) :
  re_search pre s = Some g -> g <> "" /\ contains dq g = false.
Proof.
  induction s as [|c s IH]; cbn [re_search].
  - destruct (re_match_at pre "") as [g'|] eqn:E; [|discriminate].
    intros H. inversion H. subst g'. now apply re_match_at_group in E.
  - destruct (re_match_at pre (String c s)) as [g'|] eqn:E; [|exact IH].
    intros H. inversion H. subst g'. now apply re_match_at_group in E.
Qed.

(** A line made of [pre], a group, a double quote and [>] is matched
    with that group. *)
Lemma re_search_line (pre g : string) :
  g <> "" -> contains dq g = false ->
  re_search pre (pre ++ g ++ dq ++ ">") = Some g.
Proof.
  intros Hne Hg.
  assert (H : re_match_at pre (pre ++ g ++ dq ++ ">") = Some g).
  { unfold re_match_at. rewrite strip_prefix_app.
    change (g ++ dq ++ ">")%string with (g ++ String DQUOTE ">")%string.
    rewrite (span_nonquote_plain g ">" Hg).
    destruct g; [contradiction | reflexivity]. }
  destruct (pre ++ g ++ dq ++ ">")%string; cbn [re_search]; now rewrite H.
Qed.

Lemma ecp_step_outside (st : ecp_state) (raw : string) :
  in_column_properties st = false ->
  strip raw <> OPEN_TAG ->
  ecp_step st raw = st.
Proof.
  intros Hin Hraw. unfold ecp_step.
  destruct (String.eqb_spec (strip raw) OPEN_TAG) as [E|_]; [contradiction|].
  destruct st as [i c d]. simpl in Hin. subst i.
  now destruct (strip raw =? CLOSE_TAG)%string.
Qed.

Lemma ecp_outside (raws : list string) : forall st,
  in_column_properties st = false ->
  Forall (fun raw => strip raw <> OPEN_TAG) raws ->
  fold_left ecp_step raws st = st.
Proof.
  induction raws as [|raw raws IH]; simpl; intros st Hin Hall;
    [reflexivity|].
  inversion Hall as [|? ? Hraw Hrest]; subst.
  rewrite (ecp_step_outside st raw Hin Hraw). now apply IH.
Qed.

(** X4. Without a line that is the opening tag there is no metadata. *)
Theorem extract_without_block (content : string) :
  Forall (fun raw => strip raw <> OPEN_TAG) (split LF content) ->
  extract_column_properties content = [].
Proof.
  intros H. unfold extract_column_properties.
  now rewrite (ecp_outside _ (mk_ecp false None []) eq_refl H).
Qed.

Lemma extract_without_block_witness :
  extract_column_properties bare_doc = [].
Proof.
  apply (extract_without_block bare_doc).
  repeat (constructor; [discriminate|]). constructor.
Defined.

(** X5. The metadata does not depend on what follows the block: after
    a text that ends outside the block, further lines none of which is the
    opening tag leave the metadata as it is. *)
Theorem extract_ignores_body (head body : string) :
  inside_block head = false ->
  Forall (fun raw => strip raw <> OPEN_TAG) (split LF body) ->
  extract_column_properties (head ++ nl ++ body)
  = extract_column_properties head.
Proof.
  intros Hin Hbody. unfold extract_column_properties.
  change (head ++ nl ++ body)%string with (head ++ String LF body)%string.
  rewrite split_app_sep, fold_left_app.
  now rewrite (ecp_outside _ _ Hin Hbody).
Qed.

Lemma extract_ignores_body_witness :
  extract_column_properties
    (document ["<column properties>"; column_name_line "Structure";
               column_property_line "specialType" "idcode"; CLOSE_TAG]
     ++ nl ++ document [tsv ["ID"; "Structure"; "Name"];
                        tsv ["1"; "ABC"; "first"]])
  = extract_column_properties
      (document ["<column properties>"; column_name_line "Structure";
                 column_property_line "specialType" "idcode"; CLOSE_TAG]).
Proof.
  apply (extract_ignores_body
           (document ["<column properties>"; column_name_line "Structure";
                      column_property_line "specialType" "idcode";
                      CLOSE_TAG])
           (document [tsv ["ID"; "Structure"; "Name"];
                      tsv ["1"; "ABC"; "first"]])).
  - reflexivity.
  - repeat (constructor; [discriminate|]). constructor.
Defined.

(** X6. Every column name of the metadata is not empty and holds no
    double quote, and every column has the type "string". *)
Theorem extract_column_names (content : string) :
  Forall (fun kv => fst kv <> "" /\ contains dq (fst kv) = false /\
                    ctype (snd kv) = "string")
    (extract_column_properties content).
Proof.
  unfold extract_column_properties.
  set (good := fun kv : string * col_props =>
                 fst kv <> "" /\ contains dq (fst kv) = false /\
                 ctype (snd kv) = "string").
  apply (fold_left_invariant ecp_step
           (fun st => Forall good (column_info st))).
  - constructor.
  - intros st raw _ Hst. unfold ecp_step.
    destruct (strip raw =? OPEN_TAG)%string; [exact Hst|].
    destruct (strip raw =? CLOSE_TAG)%string; [exact Hst|].
    destruct (negb (in_column_properties st)); [exact Hst|].
    destruct (startswith "<columnName=" (strip raw)).
    + destruct (re_search _ (strip raw)) as [name|] eqn:E; [|exact Hst].
      cbn [column_info]. apply dict_set_keys; [|exact Hst].
      apply re_search_group in E as [Hne Hq]. now repeat split.
    + destruct (current_column st) as [cur|]; [|exact Hst].
      destruct (startswith "<columnProperty=" (strip raw) && nonempty cur);
        [|exact Hst].
      destruct (re_search _ (strip raw)) as [prop|]; [|exact Hst].
      destruct (contains "specialType" prop).
      * destruct (split_piece1 "specialType" prop); [|exact Hst].
        cbn [column_info]. apply dict_update_keys; [|exact Hst].
        now intros v (H1 & H2 & H3).
      * destruct (contains "parent" prop); [|exact Hst].
        destruct (split_piece1 "parent" prop); [|exact Hst].
        cbn [column_info]. apply dict_update_keys; [|exact Hst].
        now intros v (H1 & H2 & H3).
Qed.

Lemma contains_char_cons (c x : ascii) (s : string) :
  contains (String c "") (String x s)
  = (x =? c)%char || contains (String c "") s.
Proof.
  cbn [contains]. f_equal. apply eq_true_iff_eq.
  rewrite prefix_app, Ascii.eqb_eq. split.
  - intros [r Hr]. now inversion Hr.
  - intros ->. now exists s.
Qed.

Lemma contains_char_app (c : ascii) (a b : string) :
  contains (String c "") (a ++ b)
  = contains (String c "") a || contains (String c "") b.
Proof.
  induction a as [|x a IH].
  - now destruct b.
  - cbn [String.append]. rewrite !contains_char_cons, IH.
    now rewrite orb_assoc.
Qed.

Lemma split_no_sep (sep : ascii) (s : string) :
  contains (String sep "") s = false -> split sep s = [s].
Proof.
  induction s as [|x s IH]; [reflexivity|].
  rewrite contains_char_cons. intros H.
  apply orb_false_iff in H as [Hx Hs].
  cbn [split]. now rewrite Hx, (IH Hs).
Qed.

Lemma rstrip_app_nonspace (s : string) (c : ascii) :
  isspace c = false -> rstrip (s ++ String c "") = (s ++ String c "")%string.
Proof.
  intros Hc. induction s as [|x s IH]; simpl.
  - now rewrite Hc.
  - rewrite IH. destruct (s ++ String c "")%string eqn:E.
    + destruct s; discriminate.
    + simpl. now rewrite andb_false_r.
Qed.

(** A line between two characters that are not white space is its own
    stripped text. *)
Lemma strip_framed (a c : ascii) (s : string) :
  isspace a = false -> isspace c = false ->
  strip (String a (s ++ String c "")) = String a (s ++ String c "").
Proof.
  intros Ha Hc. unfold strip. rewrite (lstrip_fixed a _ Ha).
  change (String a (s ++ String c ""))
    with (String a s ++ String c "")%string.
  now apply rstrip_app_nonspace.
Qed.

Lemma startswith_app (p r : string) : startswith p (p ++ r) = true.
Proof. apply prefix_app. now exists r. Qed.

Lemma str_after_app (sep r : string) : str_after sep (sep ++ r) = Some r.
Proof.
  pose proof (strip_prefix_app sep r) as H.
  destruct (sep ++ r)%string; cbn [str_after]; now rewrite H.
Qed.

Lemma str_before_absent (sep s : string) :
  contains sep s = false -> str_before sep s = s.
Proof.
  induction s as [|c s IH]; cbn [contains str_before]; intros H;
    apply orb_false_iff in H as [Hp Hs]; rewrite Hp; [reflexivity|].
  now rewrite (IH Hs).
Qed.

(** The two kinds of lines of the metadata block, as the scan reads
    them. *)
Lemma column_name_line_framed (name : string) :
  column_name_line name
  = String "<" (("columnName=" ++ dq ++ name ++ dq) ++ ">").
Proof.
  unfold column_name_line.
  change ("<columnName=" ++ dq ++ name ++ dq ++ ">")%string
    with (String "<" ("columnName=" ++ dq ++ name ++ dq ++ ">")).
  f_equal. now rewrite !string_app_assoc.
Qed.

Lemma column_property_line_framed (key value : string) :
  column_property_line key value
  = String "<" (("columnProperty=" ++ dq ++ key ++ tab ++ value ++ dq)
                ++ ">").
Proof.
  unfold column_property_line.
  change ("<columnProperty=" ++ dq ++ key ++ tab ++ value ++ dq ++ ">")%string
    with (String "<" ("columnProperty=" ++ dq ++ key ++ tab ++ value
                      ++ dq ++ ">")).
  f_equal. now rewrite !string_app_assoc.
Qed.

Lemma ecp_step_name_line (st : ecp_state) (name : string) :
  in_column_properties st = true ->
  name <> "" -> contains dq name = false ->
  ecp_step st (column_name_line name)
  = mk_ecp true (Some name) (dict_set name default_props (column_info st)).
Proof.
  intros Hin Hne Hq. unfold ecp_step.
  rewrite column_name_line_framed, strip_framed by reflexivity.
  rewrite <- column_name_line_framed.
  assert (E1 : (column_name_line name =? OPEN_TAG)%string = false)
    by reflexivity.
  assert (E2 : (column_name_line name =? CLOSE_TAG)%string = false)
    by reflexivity.
  rewrite E1, E2, Hin. cbn [negb].
  assert (E3 : startswith "<columnName=" (column_name_line name) = true)
    by apply startswith_app.
  rewrite E3.
  assert (E4 : re_search ("<columnName=" ++ dq) (column_name_line name)
               = Some name).
  { unfold column_name_line. rewrite <- string_app_assoc.
    now apply re_search_line. }
  now rewrite E4.
Qed.

Lemma ecp_step_special_type_line (info : dict col_props)
    (name v : string) :
  name <> "" -> contains dq v = false ->
  contains "specialType" v = false ->
  ecp_step (mk_ecp true (Some name) info)
    (column_property_line "specialType" v)
  = mk_ecp true (Some name)
      (dict_update name (set_specialType (strip v)) info).
Proof.
  intros Hne Hq Hv. unfold ecp_step.
  rewrite column_property_line_framed, strip_framed by reflexivity.
  rewrite <- column_property_line_framed.
  set (line := column_property_line "specialType" v).
  assert (E1 : (line =? OPEN_TAG)%string = false) by reflexivity.
  assert (E2 : (line =? CLOSE_TAG)%string = false) by reflexivity.
  rewrite E1, E2. cbn [in_column_properties current_column column_info negb].
  assert (E3 : startswith "<columnName=" line = false).
  { destruct (startswith "<columnName=" line) eqn:E; [|reflexivity].
    apply prefix_app in E as [r Hr]. discriminate Hr. }
  assert (E4 : startswith "<columnProperty=" line = true)
    by apply startswith_app.
  rewrite E3, E4.
  assert (E5 : nonempty name = true) by now destruct name.
  rewrite E5. cbn [andb].
  assert (E6 : re_search ("<columnProperty=" ++ dq) line
               = Some ("specialType" ++ tab ++ v)%string).
  { unfold line, column_property_line.
    replace ("<columnProperty=" ++ dq ++ "specialType" ++ tab ++ v
             ++ dq ++ ">")%string
      with (("<columnProperty=" ++ dq) ++ ("specialType" ++ tab ++ v)
            ++ dq ++ ">")%string
      by now rewrite !string_app_assoc.
    apply re_search_line; [discriminate|].
    change ("specialType" ++ tab ++ v)%string
      with (("specialType" ++ tab) ++ v)%string.
    unfold dq. rewrite contains_char_app. fold dq. now rewrite Hq. }
  rewrite E6.
  assert (E7 : contains "specialType" ("specialType" ++ tab ++ v) = true).
  { apply contains_app. now exists "", (tab ++ v)%string. }
  rewrite E7.
  assert (E8 : contains "specialType" (tab ++ v) = false).
  { change (tab ++ v)%string with (String TAB v). cbn [contains].
    rewrite Hv, orb_false_r.
    destruct (String.prefix "specialType" (String TAB v)) eqn:E;
      [|reflexivity].
    apply prefix_app in E as [r Hr]. discriminate Hr. }
  unfold split_piece1. rewrite str_after_app, (str_before_absent _ _ E8).
  reflexivity.
Qed.

Lemma column_name_line_one_line (name : string) :
  contains nl name = false ->
  split LF (column_name_line name) = [column_name_line name].
Proof.
  intros H. apply split_no_sep. unfold column_name_line.
  fold nl. unfold nl in *. rewrite !contains_char_app, H. reflexivity.
Qed.

Lemma column_property_line_one_line (key value : string) :
  contains nl key = false -> contains nl value = false ->
  split LF (column_property_line key value)
  = [column_property_line key value].
Proof.
  intros Hk Hv. apply split_no_sep. unfold column_property_line.
  fold nl. unfold nl in *. rewrite !contains_char_app, Hk, Hv. reflexivity.
Qed.

(** X7. Declaring a column starts it afresh: after a text that ends
    inside the metadata block, a [<columnName=...>] line gives the column
    the default attributes, whatever was recorded for that name before. *)
Theorem extract_redeclared_column (head name : string) :
  inside_block head = true ->
  name <> "" -> contains dq name = false -> contains nl name = false ->
  dict_get name
    (extract_column_properties (head ++ nl ++ column_name_line name))
  = Some default_props.
Proof.
  intros Hin Hne Hq Hl. unfold extract_column_properties.
  change (head ++ nl ++ column_name_line name)%string
    with (head ++ String LF (column_name_line name))%string.
  rewrite split_app_sep, (column_name_line_one_line name Hl), fold_left_app.
  cbn [fold_left].
  rewrite (ecp_step_name_line _ name Hin Hne Hq). cbn [column_info].
  apply dict_get_set.
Qed.

Lemma extract_redeclared_column_witness :
  dict_get "Structure"
    (extract_column_properties
       (document ["<column properties>"; column_name_line "Structure";
                  column_property_line "specialType" "idcode"]
        ++ nl ++ column_name_line "Structure"))
  = Some default_props.
Proof.
  apply (extract_redeclared_column
           (document ["<column properties>"; column_name_line "Structure";
                      column_property_line "specialType" "idcode"])
           "Structure"); try reflexivity.
  discriminate.
Defined.

(** X8. What is written is read back: inside the metadata block, a
    [<columnName=...>] line followed by a [<columnProperty=...>] line of
    the key specialType gives the column that special type, stripped of
    surrounding white space, and no parent. *)
Theorem extract_reads_special_type (head name v : string) :
  inside_block head = true ->
  name <> "" -> contains dq name = false -> contains nl name = false ->
  contains dq v = false -> contains nl v = false ->
  contains "specialType" v = false ->
  dict_get name
    (extract_column_properties
       (head ++ nl ++ column_name_line name ++ nl
        ++ column_property_line "specialType" v))
  = Some (mk_props "string" (Some (strip v)) None).
Proof.
  intros Hin Hne Hq Hl Hvq Hvl Hvs. unfold extract_column_properties.
  change (head ++ nl ++ column_name_line name ++ nl
          ++ column_property_line "specialType" v)%string
    with (head ++ String LF (column_name_line name
            ++ String LF (column_property_line "specialType" v)))%string.
  rewrite !split_app_sep, (column_name_line_one_line name Hl),
    (column_property_line_one_line "specialType" v eq_refl Hvl).
  rewrite !fold_left_app. cbn [fold_left].
  rewrite (ecp_step_name_line _ name Hin Hne Hq).
  rewrite (ecp_step_special_type_line _ name v Hne Hvq Hvs).
  cbn [column_info]. now rewrite dict_get_update, dict_get_set.
Qed.

Lemma extract_reads_special_type_witness :
  dict_get "Structure"
    (extract_column_properties
       ("<column properties>" ++ nl ++ column_name_line "Structure" ++ nl
        ++ column_property_line "specialType" " idcode "))
  = Some (mk_props "string" (Some (strip " idcode ")) None).
Proof.
  apply (extract_reads_special_type "<column properties>" "Structure"
           " idcode "); try reflexivity.
  discriminate.
Defined.

(* ================================================================== *)
(** ** More on the batch decoder *)
(* ================================================================== *)

Lemma valid_idcodes_In (idcodes : list cell) (d : string) :
  In d (valid_idcodes idcodes) -> is_valid (Some d) = true.
Proof.
  induction idcodes as [|[s|] l IH]; simpl; try assumption; [contradiction|].
  destruct (nonempty s && nonempty (strip s)) eqn:E; [|exact IH].
  intros [<-|H]; [exact E | now apply IH].
Qed.

Lemma parse_lines_raises idcodes valid lines line e : forall results,
  In line lines ->
  read_line valid line = Raise e ->
  exists e', parse_lines idcodes valid results lines = Raise e'.
Proof.
  induction lines as [|l rest IH]; simpl; intros results Hin Hread;
    [contradiction|].
  unfold parse_line.
  destruct Hin as [->|Hin]; [rewrite Hread; eauto|].
  destruct (read_line valid l) as [[[d x]|]|e0]; eauto.
Qed.

(** Every result is a function of the cell, and a decoded value is the
    value of a line of the answer that resolves to the identifier. *)
Lemma decode_idcodes_shape
    (node : World -> list string -> run_outcome)
    (idcodes : list cell) (w w' : World) (out : list cell) :
  decode_idcodes node idcodes w = (Ok out, w') ->
  exists F : cell -> cell,
    out = map F idcodes /\
    F None = None /\
    forall s v, F (Some s) = Some v ->
      exists stdout line,
        node w (valid_idcodes idcodes) = Completed stdout /\
        In line (splitlines stdout) /\
        read_line (valid_idcodes idcodes) line = Ok (Some (s, v)).
Proof.
  intros Hdec.
  assert (Habsent : exists F : cell -> cell,
            all_absent idcodes = map F idcodes /\ F None = None /\
            forall s v, F (Some s) = Some v ->
              exists stdout line,
                node w (valid_idcodes idcodes) = Completed stdout /\
                In line (splitlines stdout) /\
                read_line (valid_idcodes idcodes) line = Ok (Some (s, v))).
  { exists (fun _ => None). split; [apply all_absent_map|].
    split; [reflexivity | discriminate]. }
  destruct (decode_idcodes_cases node idcodes w)
    as [[_ Heq] | [_ [out' [Heq Hout]]]];
    rewrite Heq in Hdec; inversion Hdec; subst; [exact Habsent|].
  destruct (node w (valid_idcodes idcodes)) as [stdout| | |];
    try (subst out; exact Habsent).
  destruct (parse_lines _ _ _ _) as [r|e] eqn:Hp; subst out;
    [|exact Habsent].
  rewrite all_absent_map in Hp. apply parse_lines_map in Hp.
  exists (remap (valid_idcodes idcodes) (splitlines stdout)).
  split; [exact Hp|]. split; [reflexivity|].
  intros s v Hv. simpl in Hv.
  apply last_value_origin in Hv as [Hv | [line [Hin Hread]]];
    [discriminate|].
  now exists stdout, line.
Qed.

(** X9. A decoded value is never made up: a result that is present at
    a row is the value of a line of the answer that is not an error line
    and resolves to the identifier of that row, which is not blank. *)
Theorem decode_values_from_answer
    (node : World -> list string -> run_outcome)
    (idcodes : list cell) (w w' : World) (out : list cell)
    (i : nat) (v : string) :
  decode_idcodes node idcodes w = (Ok out, w') ->
  nth_error out i = Some (Some v) ->
  exists s stdout line,
    nth_error idcodes i = Some (Some s) /\
    is_valid (Some s) = true /\
    node w (valid_idcodes idcodes) = Completed stdout /\
    In line (splitlines stdout) /\
    read_line (valid_idcodes idcodes) line = Ok (Some (s, v)).
Proof.
  intros Hdec Hi.
  destruct (decode_idcodes_shape node idcodes w w' out Hdec)
    as (F & -> & HN & HS).
  unfold cell in *. rewrite nth_error_map in Hi.
  destruct (nth_error idcodes i) as [[s|]|] eqn:E; simpl in Hi;
    try discriminate.
  - inversion Hi as [Hv]. destruct (HS s v Hv) as (stdout & line & H1 & H2 & H3).
    exists s, stdout, line. repeat split; try assumption.
    apply (valid_idcodes_In idcodes), (read_line_decoded _ _ _ _ H3).
  - rewrite HN in Hi. discriminate.
Qed.

Lemma decode_values_from_answer_witness :
  exists s stdout line,
    nth_error [Some "ABC"; Some ""] 0 = Some (Some s) /\
    is_valid (Some s) = true /\
    answer "0:CCO" [] (valid_idcodes [Some "ABC"; Some ""])
    = Completed stdout /\
    In line (splitlines stdout) /\
    read_line (valid_idcodes [Some "ABC"; Some ""]) line
    = Ok (Some (s, "CCO")).
Proof.
  apply (decode_values_from_answer (answer "0:CCO") [Some "ABC"; Some ""]
           [] [["ABC"]] [Some "CCO"; None] 0 "CCO"); reflexivity.
Defined.

(** X10. A row whose cell is missing, empty or blank never gets a
    value, whatever the decoder answers. *)
Theorem decode_blank_rows_absent
    (node : World -> list string -> run_outcome)
    (idcodes : list cell) (w w' : World) (out : list cell)
    (i : nat) (c : cell) :
  decode_idcodes node idcodes w = (Ok out, w') ->
  nth_error idcodes i = Some c ->
  is_valid c = false ->
  nth_error out i = Some None.
Proof.
  intros Hdec Hi Hc.
  destruct (decode_idcodes_shape node idcodes w w' out Hdec)
    as (F & -> & HN & HS).
  unfold cell in *. rewrite nth_error_map, Hi. simpl. f_equal.
  destruct c as [s|]; [|exact HN].
  destruct (F (Some s)) as [v|] eqn:E; [|reflexivity].
  destruct (HS s v E) as (stdout & line & _ & _ & H3).
  apply read_line_decoded, valid_idcodes_In in H3. congruence.
Qed.

Lemma decode_blank_rows_absent_witness :
  nth_error [Some "CCO"; None] 1 = Some None.
Proof.
  apply (decode_blank_rows_absent (answer "0:CCO")
           [Some "ABC"; Some " "] [] [["ABC"]] [Some "CCO"; None] 1
           (Some " ")); reflexivity.
Defined.

(** X11. One unreadable line voids the column: when a line of the
    answer has a colon, a value that does not start with "ERROR:" and a
    position that is not an integer or not a position of the batch, every
    result of the column is absent, those of the lines before it too. *)
Theorem decode_bad_line_voids
    (node : World -> list string -> run_outcome)
    (idcodes : list cell) (w : World)
    (stdout line index_str smiles : string) :
  node w (valid_idcodes idcodes) = Completed stdout ->
  In line (splitlines stdout) ->
  contains ":" line = true ->
  split_once ":" line = (index_str, Some smiles) ->
  startswith "ERROR:" smiles = false ->
  (py_int index_str = None \/
   exists k, py_int index_str = Some k /\
             py_index (valid_idcodes idcodes) k = None) ->
  fst (decode_idcodes node idcodes w) = Ok (all_absent idcodes).
Proof.
  intros Hnode Hin Hcolon Hsplit Herr Hbad.
  assert (Hread : exists e, read_line (valid_idcodes idcodes) line = Raise e).
  { unfold read_line. rewrite Hcolon, Hsplit, Herr. cbn [negb].
    destruct Hbad as [-> | [k [-> ->]]]; eauto. }
  destruct Hread as [e Hread].
  destruct (decode_idcodes_cases node idcodes w)
    as [[_ Heq] | [_ [out [Heq Hout]]]]; rewrite Heq; [reflexivity|].
  rewrite Hnode in Hout.
  destruct (parse_lines_raises idcodes (valid_idcodes idcodes)
              (splitlines stdout) line e (all_absent idcodes) Hin Hread)
    as [e' He'].
  rewrite He' in Hout. now subst out.
Qed.

Lemma decode_bad_line_voids_witness :
  fst (decode_idcodes (answer ("0:CCO" ++ nl ++ "7:CCC"))
         [Some "ABC"; Some "XYZ"] [])
  = Ok (all_absent [Some "ABC"; Some "XYZ"]).
Proof.
  apply (decode_bad_line_voids (answer ("0:CCO" ++ nl ++ "7:CCC"))
           [Some "ABC"; Some "XYZ"] [] ("0:CCO" ++ nl ++ "7:CCC")
           "7:CCC" "7" "CCC"); try reflexivity.
  - right. left. reflexivity.
  - right. exists 7%Z. split; reflexivity.
Defined.

(* ================================================================== *)
(** ** More on decoding and loading the table *)
(* ================================================================== *)

Lemma filter_eqb_In (x : string) (l : list string) :
  In x l -> filter (String.eqb x) l <> [].
Proof.
  intros H Hnil.
  assert (Hin : In x (filter (String.eqb x) l)).
  { apply filter_In. split; [exact H | apply String.eqb_refl]. }
  rewrite Hnil in Hin. contradiction.
Qed.

Lemma filter_eqb_snoc (x label : string) (l : list string) :
  In x l -> ~ In label l ->
  filter (String.eqb x) (l ++ [label]) = filter (String.eqb x) l.
Proof.
  intros Hx Hl. rewrite filter_app. simpl.
  destruct (String.eqb_spec x label) as [->|_]; [contradiction|].
  apply app_nil_r.
Qed.

Section MoreLoadFacts.

Variable node : World -> list string -> run_outcome.

(** The log of a run of [decode_idcodes]: nothing, or one batch that is
    not empty. *)
Lemma decode_idcodes_log (idcodes : list cell) (w : World) :
  exists calls,
    snd (decode_idcodes node idcodes w) = w ++ calls /\
    length calls <= 1 /\ Forall (fun batch => batch <> []) calls.
Proof.
  destruct (decode_idcodes_cases node idcodes w)
    as [[_ Heq] | [Hv [out [Heq _]]]]; rewrite Heq; cbn [snd].
  - exists []. rewrite app_nil_r. repeat split; [simpl; lia | constructor].
  - exists [valid_idcodes idcodes].
    repeat split; [simpl; lia | now repeat constructor].
Qed.

(** One turn of the loop over the columns to decode. *)
Lemma decode_columns_cons (col : string) (rest : list string)
    (df : DataFrame) (w : World) :
  decode_columns node (col :: rest) df w
  = match column_tolist df col with
    | Raise e => (Raise e, w)
    | Ok idcodes =>
        match decode_idcodes node idcodes w with
        | (Raise e, w1) => (Raise e, w1)
        | (Ok out, w1) =>
            match set_column df (col ++ "_SMILES") out with
            | Raise e => (Raise e, w1)
            | Ok df1 => decode_columns node rest df1 w1
            end
        end
    end.
Proof.
  cbn [decode_columns]. unfold bind at 1. unfold lift at 1.
  destruct (column_tolist df col) as [idcodes|e]; [|reflexivity].
  unfold bind at 1.
  destruct (decode_idcodes node idcodes w) as [[out|e] w1]; [|reflexivity].
  unfold bind at 1. unfold lift at 1.
  now destruct (set_column df (col ++ "_SMILES") out).
Qed.

(** The loop over the columns to decode, in full: how it ends, what it
    does to the column names, and what it hands to the decoder. *)
Lemma decode_columns_full (cols : list string) : forall df w,
  (forall c, In c cols -> In c (columns df)) ->
  (exists calls,
     snd (decode_columns node cols df w) = w ++ calls /\
     length calls <= length cols /\
     Forall (fun batch => batch <> []) calls) /\
  match fst (decode_columns node cols df w) with
  | Ok df' =>
      (forall c, In c cols ->
                 length (filter (String.eqb c) (columns df)) = 1) /\
      (forall c, In c (columns df') ->
                 In c (columns df) \/
                 exists col, In col cols /\ c = (col ++ "_SMILES")%string)
  | Raise e =>
      e = AttributeError /\
      exists col, In col cols /\
                  2 <= length (filter (String.eqb col) (columns df))
  end.
Proof.
  induction cols as [|col rest IH]; intros df w Hsub.
  - simpl. split.
    + exists []. rewrite app_nil_r.
      repeat split; [simpl; lia | constructor].
    + split; [intros c [] | now left].
  - rewrite decode_columns_cons.
    assert (Hcol : In col (columns df)) by (apply Hsub; now left).
    pose proof (filter_eqb_In col (columns df) Hcol) as Hne.
    unfold column_tolist.
    destruct (filter (String.eqb col) (columns df)) as [|x [|y l]] eqn:Ef;
      [contradiction | |].
    + destruct (index_of_In col (columns df) Hcol) as [i Hi]. rewrite Hi.
      destruct (decode_idcodes_returns node
                  (map (fun r => nth i r None) (rows df)) w)
        as [out [w1 [Hdec Hlen]]].
      destruct (decode_idcodes_log
                  (map (fun r => nth i r None) (rows df)) w)
        as [calls1 [Hlog1 [Hn1 Hb1]]].
      rewrite Hdec in Hlog1 |- *. cbn [snd] in Hlog1. subst w1.
      destruct (set_column_ok df (col ++ "_SMILES") out)
        as [df1 [Hset [_ [_ Hcols]]]].
      { now rewrite Hlen, length_map. }
      rewrite Hset.
      assert (Hsub1 : forall c, In c rest -> In c (columns df1)).
      { intros c Hc. rewrite Hcols.
        destruct (has_column _ df);
          [|apply in_or_app; left]; apply Hsub; now right. }
      assert (Hcount : forall c, In c (columns df) ->
                filter (String.eqb c) (columns df1)
                = filter (String.eqb c) (columns df)).
      { intros c Hc. rewrite Hcols.
        destruct (has_column _ df) eqn:Hh; [reflexivity|].
        apply filter_eqb_snoc; [exact Hc|].
        intros Hin. apply has_column_In in Hin. congruence. }
      destruct (IH df1 (w ++ calls1) Hsub1)
        as [[calls2 [Hlog2 [Hn2 Hb2]]] Hres].
      split.
      * exists (calls1 ++ calls2). rewrite Hlog2, app_assoc.
        repeat split; [rewrite length_app; simpl; lia|].
        apply Forall_app. now split.
      * destruct (fst (decode_columns node rest df1 (w ++ calls1)))
          as [df'|e].
        -- destruct Hres as [Hone Hprov]. split.
           ++ intros c [<-|Hc]; [now rewrite Ef|].
              rewrite <- (Hcount c) by (apply Hsub; now right).
              now apply Hone.
           ++ intros c Hc. apply Hprov in Hc as [Hc | [c0 [Hc0 ->]]].
              ** rewrite Hcols in Hc. destruct (has_column _ df);
                   [now left|].
                 apply in_app_or in Hc as [Hc | [<- | []]]; [now left|].
                 right. exists col. split; [now left | reflexivity].
              ** right. exists c0. split; [now right | reflexivity].
        -- destruct Hres as [-> [c0 [Hc0 Htwo]]]. split; [reflexivity|].
           exists c0. split; [now right|].
           now rewrite <- (Hcount c0) by (apply Hsub; now right).
    + cbn [fst snd]. split.
      * exists []. rewrite app_nil_r.
        repeat split; [simpl; lia | constructor].
      * split; [reflexivity|]. exists col. split; [now left|].
        rewrite Ef. simpl. lia.
Qed.

End MoreLoadFacts.

Section LoadExtras.

Variable node : World -> list string -> run_outcome.

Lemma planned_in_table (content : string) (c : string) :
  In c (planned content) -> In c (columns (assembled content)).
Proof.
  intros H. apply In_idcode_items in H as [H _]. now apply has_column_In.
Qed.

Lemma planned_no_data (content : string) :
  snd (find_header_and_data_lines content) = [] -> planned content = [].
Proof.
  intros Hd. destruct (planned content) as [|c l] eqn:E; [reflexivity|].
  assert (Hc : In c (columns (assembled content))).
  { apply planned_in_table. rewrite E. now left. }
  pose proof (assemble_columns_length
                (fst (find_header_and_data_lines content))
                (snd (find_header_and_data_lines content))) as Hlen.
  rewrite Hd in Hlen at 2. change (width []) with 0 in Hlen.
  unfold assembled in Hc.
  destruct (columns (assemble _ _)); [contradiction | discriminate Hlen].
Qed.

(** The shapes of a run of [LoadDwar], with the loop unfolded. *)
Lemma LoadDwar_run (content : string) (flag : bool) (w : World) :
  (is_dwar_file content = false /\
   LoadDwar node content flag w = (Raise ValueError, w)) \/
  (is_dwar_file content = true /\
   snd (find_header_and_data_lines content) = [] /\
   LoadDwar node content flag w = (Ok empty_frame, w)) \/
  (is_dwar_file content = true /\
   snd (find_header_and_data_lines content) <> [] /\
   LoadDwar node content flag w
   = match decode_columns node (planned content) (assembled content) w with
     | (Ok df1, w') =>
         (Ok (remove_fingerprint_columns
                (if flag
                 then remove_structure_columns df1
                        (extract_column_properties content)
                 else df1)), w')
     | (Raise e, w') => (Raise e, w')
     end).
Proof. exact (LoadDwar_cases node content flag w). Qed.

(** X12. How [LoadDwar] ends. It raises ValueError exactly on a
    document without marker, and every other failure is an
    AttributeError. An identifier column under a label that occurs twice
    or more always makes it fail with AttributeError. When it returns a
    table, the document has a marker and every identifier column has a
    label that occurs once. *)
Theorem load_failures (content : string) (flag : bool) (w : World) :
  match fst (LoadDwar node content flag w) with
  | Raise e =>
      (e = ValueError /\ is_dwar_file content = false) \/
      (e = AttributeError /\ is_dwar_file content = true)
  | Ok _ =>
      is_dwar_file content = true /\
      forall col, In col (planned content) ->
                  occurrences col (assembled content) = 1
  end /\
  (is_dwar_file content = true ->
   (exists col, In col (planned content) /\
                2 <= occurrences col (assembled content)) ->
   fst (LoadDwar node content flag w) = Raise AttributeError).
Proof.
  assert (Hmain :
    match fst (LoadDwar node content flag w) with
    | Raise e =>
        (e = ValueError /\ is_dwar_file content = false) \/
        (e = AttributeError /\ is_dwar_file content = true)
    | Ok _ =>
        is_dwar_file content = true /\
        forall col, In col (planned content) ->
                    occurrences col (assembled content) = 1
    end).
  { destruct (LoadDwar_run content flag w)
      as [[Hn H] | [[Hd [Hdata H]] | [Hd [_ H]]]]; rewrite H; cbn [fst].
    - left. now split.
    - split; [exact Hd|]. rewrite (planned_no_data content Hdata).
      intros col [].
    - pose proof (decode_columns_full node (planned content)
                    (assembled content) w (planned_in_table content))
        as [_ Hres].
      destruct (decode_columns node (planned content) (assembled content) w)
        as [[df1|e] w1]; cbn [fst] in *.
      + split; [exact Hd | apply Hres].
      + right. destruct Hres as [-> _]. now split. }
  split; [exact Hmain|].
  intros Hd [col [Hcol Htwo]].
  destruct (fst (LoadDwar node content flag w)) as [df|e].
  - destruct Hmain as [_ Hone]. apply Hone in Hcol. lia.
  - destruct Hmain as [[_ Hn] | [-> _]]; [congruence | reflexivity].
Qed.

(** X13. With [exclude_structure_columns] true the returned table has
    no column whose lower-cased name contains "coordinate", "coord",
    "atomcoord" or "scaffoldatom". *)
Theorem load_drops_coordinate_columns
    (content : string) (w w' : World) (df : DataFrame) :
  LoadDwar node content true w = (Ok df, w') ->
  forall c, In c (columns df) -> is_coordinate c = false.
Proof.
  intros Hload c Hc.
  destruct (LoadDwar_run content true w)
    as [[_ H] | [[_ [_ H]] | [_ [_ H]]]]; rewrite H in Hload.
  - discriminate.
  - inversion Hload. subst df. contradiction.
  - destruct (decode_columns node _ _ w) as [[df1|e] w1]; [|discriminate].
    inversion Hload; subst df w'.
    rewrite remove_fingerprint_columns_columns in Hc.
    apply filter_In in Hc as [Hc _].
    rewrite remove_structure_columns_columns in Hc.
    apply filter_In in Hc as [_ Hc]. unfold kept_structure in Hc.
    apply negb_true_iff, orb_false_iff in Hc as [Hc _].
    now apply orb_false_iff in Hc as [_ Hc].
Qed.

(** X14. Every column of the returned table is a column of the
    assembled table or the decoded column "<name>_SMILES" of an
    identifier column; nothing else is added. *)
Theorem load_column_provenance
    (content : string) (flag : bool) (w w' : World) (df : DataFrame) :
  LoadDwar node content flag w = (Ok df, w') ->
  forall c, In c (columns df) ->
    In c (columns (assembled content)) \/
    exists col, In col (planned content) /\ c = (col ++ "_SMILES")%string.
Proof.
  intros Hload c Hc.
  destruct (LoadDwar_run content flag w)
    as [[_ H] | [[_ [_ H]] | [_ [_ H]]]]; rewrite H in Hload.
  - discriminate.
  - inversion Hload. subst df. contradiction.
  - pose proof (decode_columns_full node (planned content)
                  (assembled content) w (planned_in_table content))
      as [_ Hres].
    destruct (decode_columns node _ _ w) as [[df1|e] w1]; [|discriminate].
    inversion Hload; subst df w'. cbn [fst] in Hres.
    destruct Hres as [_ Hprov]. apply Hprov.
    rewrite remove_fingerprint_columns_columns in Hc.
    apply filter_In in Hc as [Hc _].
    destruct flag; [|exact Hc].
    rewrite remove_structure_columns_columns in Hc.
    now apply filter_In in Hc as [Hc _].
Qed.

(** X15. With [exclude_structure_columns] false nothing but the
    fingerprint columns is removed: every column of the assembled table
    that does not end with "Fp" is in the returned table, and so is the
    decoded column of every identifier column. *)
Theorem load_keeps_columns
    (content : string) (w w' : World) (df : DataFrame) :
  LoadDwar node content false w = (Ok df, w') ->
  (forall c, In c (columns (assembled content)) ->
             endswith "Fp" c = false -> In c (columns df)) /\
  (forall col, In col (planned content) ->
               In (col ++ "_SMILES")%string (columns df)).
Proof.
  intros Hload.
  destruct (LoadDwar_run content false w)
    as [[_ H] | [[_ [Hdata H]] | [_ [_ H]]]]; rewrite H in Hload.
  - discriminate.
  - rewrite (planned_no_data content Hdata). split; [|intros col []].
    intros c Hc. exfalso.
    pose proof (assemble_columns_length
                  (fst (find_header_and_data_lines content))
                  (snd (find_header_and_data_lines content))) as Hlen.
    rewrite Hdata in Hlen at 2. change (width []) with 0 in Hlen.
    unfold assembled in Hc.
    destruct (columns (assemble _ _)); [contradiction | discriminate Hlen].
  - pose proof (decode_columns_spec node (planned content)
                  (assembled content) w) as Hspec.
    destruct (decode_columns node _ _ w) as [[df1|e] w1]; [|discriminate].
    inversion Hload; subst df w'.
    destruct Hspec as [_ [_ [Hkeep Hnew]]].
    rewrite remove_fingerprint_columns_columns. split.
    + intros c Hc Hfp. apply filter_In. split; [now apply Hkeep|].
      unfold is_fingerprint. now rewrite Hfp.
    + intros col Hcol. apply filter_In. split; [now apply Hnew|].
      now rewrite smiles_column_not_fingerprint.
Qed.

(** X16. [LoadDwar] hands the decoder at most one batch for each
    identifier column, never an empty batch, and none at all when the
    table has no identifier column. *)
Theorem load_decoder_calls (content : string) (flag : bool) (w : World) :
  exists calls,
    snd (LoadDwar node content flag w) = w ++ calls /\
    length calls <= length (planned content) /\
    Forall (fun batch => batch <> []) calls.
Proof.
  destruct (LoadDwar_run content flag w)
    as [[_ H] | [[_ [_ H]] | [_ [_ H]]]]; rewrite H; cbn [snd].
  - exists []. rewrite app_nil_r.
    repeat split; [simpl; lia | constructor].
  - exists []. rewrite app_nil_r.
    repeat split; [simpl; lia | constructor].
  - pose proof (decode_columns_full node (planned content)
                  (assembled content) w (planned_in_table content))
      as [Hlog _].
    now destruct (decode_columns node _ _ w) as [[df1|e] w1].
Qed.

(** The number of rows of the returned table. *)
Lemma LoadDwar_rows (content : string) (flag : bool) (w w' : World)
    (df : DataFrame) :
  LoadDwar node content flag w = (Ok df, w') ->
  length (rows df) = length (snd (find_header_and_data_lines content)).
Proof.
  intros Hload.
  destruct (LoadDwar_run content flag w)
    as [[_ H] | [[_ [Hd H]] | [_ [_ H]]]]; rewrite H in Hload.
  - discriminate.
  - inversion Hload. now rewrite Hd.
  - pose proof (decode_columns_spec node (planned content)
                  (assembled content) w) as Hspec.
    destruct (decode_columns node _ _ w) as [[df1|e] w1]; [|discriminate].
    inversion Hload; subst df w'. destruct Hspec as [Hrows _].
    rewrite (proj1 (remove_fingerprint_columns_shape _)).
    assert (Hr : length (rows (if flag
                               then remove_structure_columns df1
                                      (extract_column_properties content)
                               else df1)) = length (rows df1)).
    { destruct flag; [apply remove_structure_columns_shape | reflexivity]. }
    rewrite Hr, Hrows. unfold assembled. rewrite assemble_rows.
    f_equal. apply filter_all. intros row Hrow.
    apply negb_true_iff, pad_not_all_na.
    pose proof (data_lines_nonempty content) as Hne.
    rewrite Forall_forall in Hne. now apply Hne.
Qed.

End LoadExtras.

Lemma load_failures_witness :
  fst (LoadDwar (answer "0:CCO") repeated_label_doc true [])
  = Raise AttributeError.
Proof.
  apply (proj2 (load_failures (answer "0:CCO") repeated_label_doc true [])).
  - reflexivity.
  - exists "Structure". split; [left; reflexivity|].
    unfold occurrences. simpl. lia.
Defined.

Lemma load_drops_coordinate_columns_witness :
  is_coordinate "Name" = false.
Proof.
  apply (load_drops_coordinate_columns (answer "0:CCO") core_doc
           [] [["ABC"]] (mk_frame ["ID"; "Name"] [[Some "1"; Some "first"]])
           eq_refl "Name").
  right. left. reflexivity.
Defined.

Lemma load_column_provenance_witness :
  In "Structure_SMILES" (columns (assembled sample_doc)) \/
  exists col, In col (planned sample_doc) /\
              "Structure_SMILES" = (col ++ "_SMILES")%string.
Proof.
  apply (load_column_provenance (answer "0:C1=CC=CC=C1") sample_doc true
           [] [["ABC"; "ABC"]]
           (mk_frame ["ID"; "Name"; "Structure_SMILES"]
              [[Some "1"; Some "first"; Some "C1=CC=CC=C1"];
               [Some "2"; Some "second"; Some "C1=CC=CC=C1"]])
           eq_refl "Structure_SMILES").
  right. right. left. reflexivity.
Defined.

Lemma load_keeps_columns_witness :
  In "Name" ["ID"; "Structure"; "Name"; "Structure_SMILES"] /\
  In ("Structure" ++ "_SMILES")%string
     ["ID"; "Structure"; "Name"; "Structure_SMILES"].
Proof.
  destruct (load_keeps_columns (answer "0:C1=CC=CC=C1") sample_doc
              [] [["ABC"; "ABC"]]
              (mk_frame ["ID"; "Structure"; "Name"; "Structure_SMILES"]
                 [[Some "1"; Some "ABC"; Some "first"; Some "C1=CC=CC=C1"];
                  [Some "2"; Some "ABC"; Some "second";
                   Some "C1=CC=CC=C1"]])
              eq_refl) as [Hkeep Hnew].
  split.
  - apply Hkeep; [right; right; left; reflexivity | reflexivity].
  - apply Hnew. left. reflexivity.
Defined.

(* ================================================================== *)
(** ** The decode plan *)
(* ================================================================== *)

Lemma dict_update_key_list {V} (k : string) (f : V -> V) (d : dict V) :
  map fst (dict_update k f d) = map fst d.
Proof.
  induction d as [|[k' v'] d IH]; simpl; [reflexivity|].
  destruct (k' =? k)%string; simpl; now rewrite ?IH.
Qed.

Lemma dict_set_key_in {V} (k k0 : string) (v : V) (d : dict V) :
  In k0 (map fst (dict_set k v d)) -> k0 = k \/ In k0 (map fst d).
Proof.
  induction d as [|[k' v'] d IH]; simpl.
  - intros [<-|[]]. now left.
  - destruct (String.eqb_spec k' k) as [->|Hne]; simpl.
    + intros [<-|H]; [now left | right; now right].
    + intros [<-|H]; [right; now left|].
      apply IH in H as [->|H]; [now left | right; now right].
Qed.

Lemma dict_set_key_nodup {V} (k : string) (v : V) (d : dict V) :
  NoDup (map fst d) -> NoDup (map fst (dict_set k v d)).
Proof.
  induction d as [|[k' v'] d IH]; simpl; intros H.
  - repeat constructor. intros [].
  - inversion H as [|? ? Hnot Hd]; subst.
    destruct (String.eqb_spec k' k) as [->|Hne]; simpl.
    + now constructor.
    + constructor; [|now apply IH].
      intros Hin. apply dict_set_key_in in Hin as [->|Hin]; contradiction.
Qed.

(** The names of the metadata are distinct. *)
Lemma extract_keys_nodup (content : string) :
  NoDup (map fst (extract_column_properties content)).
Proof.
  unfold extract_column_properties.
  apply (fold_left_invariant ecp_step
           (fun st => NoDup (map fst (column_info st)))).
  - constructor.
  - intros st raw _ Hst. unfold ecp_step.
    destruct (strip raw =? OPEN_TAG)%string; [exact Hst|].
    destruct (strip raw =? CLOSE_TAG)%string; [exact Hst|].
    destruct (negb (in_column_properties st)); [exact Hst|].
    destruct (startswith "<columnName=" (strip raw)).
    + destruct (re_search _ (strip raw)) as [name|]; [|exact Hst].
      cbn [column_info]. now apply dict_set_key_nodup.
    + destruct (current_column st) as [cur|]; [|exact Hst].
      destruct (startswith "<columnProperty=" (strip raw) && nonempty cur);
        [|exact Hst].
      destruct (re_search _ (strip raw)) as [prop|]; [|exact Hst].
      destruct (contains "specialType" prop).
      * destruct (split_piece1 "specialType" prop); [|exact Hst].
        cbn [column_info]. now rewrite dict_update_key_list.
      * destruct (contains "parent" prop); [|exact Hst].
        destruct (split_piece1 "parent" prop); [|exact Hst].
        cbn [column_info]. now rewrite dict_update_key_list.
Qed.

Lemma dict_get_In {V} (k : string) (v : V) (d : dict V) :
  NoDup (map fst d) -> (In (k, v) d <-> dict_get k d = Some v).
Proof.
  induction d as [|[k' v'] d IH]; simpl; intros H.
  - split; [contradiction | discriminate].
  - inversion H as [|? ? Hnot Hd]; subst.
    destruct (String.eqb_spec k' k) as [->|Hne].
    + split.
      * intros [E|Hin]; [now inversion E|].
        exfalso. apply Hnot. now apply (in_map fst) in Hin.
      * intros E. inversion E. now left.
    + rewrite <- (IH Hd). split.
      * intros [E|Hin]; [inversion E; contradiction | exact Hin].
      * intros Hin. now right.
Qed.

Lemma declares_idcode_get (info : dict col_props) (c : string) :
  NoDup (map fst info) ->
  (declares_idcode info c = true <->
   exists props, dict_get c info = Some props /\ is_idcode props = true).
Proof.
  intros Hnd. unfold declares_idcode. rewrite existsb_exists. split.
  - intros [[k p] [Hin Hkp]]. simpl in Hkp.
    apply andb_true_iff in Hkp as [Hk Hp]. apply String.eqb_eq in Hk.
    subst k. exists p. split; [now apply dict_get_In | exact Hp].
  - intros [p [Hget Hp]]. exists (c, p). split; [now apply dict_get_In|].
    simpl. now rewrite String.eqb_refl, Hp.
Qed.

(** X17. The decode plan is driven by the metadata only: the columns
    to decode and the columns to remove are the same list, and a name is
    in it exactly when it is a column label of the table and the metadata
    of the document records, for that name, a special type that is
    "idcode" up to case. *)
Theorem decode_plan_characterised (content : string) (df : DataFrame)
    (c : string) :
  fst (find_idcode_columns_for_decoding df
         (extract_column_properties content))
  = snd (find_idcode_columns_for_decoding df
           (extract_column_properties content)) /\
  (In c (fst (find_idcode_columns_for_decoding df
                (extract_column_properties content))) <->
   In c (columns df) /\
   exists props,
     dict_get c (extract_column_properties content) = Some props /\
     exists special,
       specialType props = Some special /\ lower special = "idcode").
Proof.
  rewrite find_idcode_columns_items. cbn [fst snd].
  split; [reflexivity|].
  rewrite In_idcode_items, has_column_In,
    (declares_idcode_get _ c (extract_keys_nodup content)).
  split; intros [Hc [props [Hget Hid]]]; (split; [exact Hc|]);
    exists props; (split; [exact Hget|]).
  - unfold is_idcode in Hid. destruct (specialType props) as [sp|].
    + exists sp. split; [reflexivity | now apply String.eqb_eq].
    + discriminate.
  - destruct Hid as [sp [Hsp Hlow]]. unfold is_idcode.
    rewrite Hsp. now apply String.eqb_eq.
Qed.

Lemma decode_plan_characterised_witness :
  In "Structure"
     (fst (find_idcode_columns_for_decoding (assembled sample_doc)
             (extract_column_properties sample_doc))).
Proof.
  apply (proj2 (decode_plan_characterised sample_doc
                  (assembled sample_doc) "Structure")).
  split; [right; left; reflexivity|].
  exists (mk_props "string" (Some "idcode") None).
  split; [reflexivity|]. exists "idcode". split; reflexivity.
Defined.

(* ================================================================== *)
(** ** The file information and the command line *)
(* ================================================================== *)

Lemma re_search_by_match (match_at : string -> option string)
    (s g : string) :
  re_search_by match_at s = Some g -> exists t, match_at t = Some g.
Proof.
  induction s as [|c s IH]; cbn [re_search_by].
  - destruct (match_at "") eqn:E; [|discriminate].
    intros H. inversion H. subst. eauto.
  - destruct (match_at (String c s)) eqn:E; [|exact IH].
    intros H. inversion H. subst. eauto.
Qed.

Lemma span_fst_forall (p : ascii -> bool) (s : string) :
  string_forall p (fst (span p s)) = true.
Proof.
  induction s as [|c s IH]; [reflexivity|].
  cbn [span]. destruct (p c) eqn:E; [|reflexivity].
  destruct (span p s) as [a b]. cbn [fst string_forall] in *.
  now rewrite E, IH.
Qed.

Lemma version_at_token (t g : string) :
  version_at t = Some g ->
  g <> "" /\ string_forall (fun c => negb (isspace c)) g = true.
Proof.
  unfold version_at. destruct (strip_prefix "version" t) as [r|];
    [|discriminate].
  destruct (span isspace r) as [ws r1].
  pose proof (span_fst_forall (fun c => negb (isspace c)) r1) as Hg.
  destruct (span (fun c => negb (isspace c)) r1) as [g' rest].
  cbn [fst] in Hg.
  destruct (nonempty ws && nonempty g') eqn:E; [|discriminate].
  intros H. inversion H. subst g'. split; [|exact Hg].
  intros ->. now rewrite andb_false_r in E.
Qed.

(** The dict of [get_dwar_info], entry by entry. *)
Lemma get_dwar_info_entries (content : string) :
  dict_get "rowcount" (get_dwar_info content)
  = Some (IInt (length (snd (find_header_and_data_lines content)))) /\
  dict_get "columns" (get_dwar_info content)
  = Some (IColumns (extract_column_properties content)) /\
  dict_get "version" (get_dwar_info content)
  = option_map IStr (re_search_by version_at content) /\
  dict_get "created" (get_dwar_info content)
  = option_map (fun g => IStr (strip g)) (re_search_by created_at content) /\
  dict_get "rows" (get_dwar_info content) = None /\
  dict_get "structure_columns" (get_dwar_info content) = None.
Proof.
  unfold get_dwar_info.
  destruct (find_header_and_data_lines content) as [h d]. cbn [snd].
  destruct (re_search_by version_at content),
    (re_search_by created_at content); repeat split.
Qed.

(** X18. The row count of the file information is the number of rows
    of the table that [LoadDwar] returns for the same text, and its
    columns entry is the metadata that [LoadDwar] uses. *)
Theorem info_rowcount_is_table_rows
    (node : World -> list string -> run_outcome)
    (content : string) (flag : bool) (w w' : World) (df : DataFrame) :
  LoadDwar node content flag w = (Ok df, w') ->
  dict_get "rowcount" (get_dwar_info content)
  = Some (IInt (length (rows df))) /\
  dict_get "columns" (get_dwar_info content)
  = Some (IColumns (extract_column_properties content)).
Proof.
  intros Hload.
  destruct (get_dwar_info_entries content) as (H1 & H2 & _).
  split; [|exact H2].
  now rewrite H1, (LoadDwar_rows node content flag w w' df Hload).
Qed.

Lemma info_rowcount_is_table_rows_witness :
  dict_get "rowcount" (get_dwar_info sample_doc) = Some (IInt 2) /\
  dict_get "columns" (get_dwar_info sample_doc)
  = Some (IColumns (extract_column_properties sample_doc)).
Proof.
  apply (info_rowcount_is_table_rows (answer "0:C1=CC=CC=C1") sample_doc
           true [] [["ABC"; "ABC"]]
           (mk_frame ["ID"; "Name"; "Structure_SMILES"]
              [[Some "1"; Some "first"; Some "C1=CC=CC=C1"];
               [Some "2"; Some "second"; Some "C1=CC=CC=C1"]])).
  reflexivity.
Defined.

(** X19. When the file information has a version, it is one token:
    not empty and without white space; when it has a creation date, the
    date has no white space around it. *)
Theorem info_version_and_created (content : string) :
  (forall v, dict_get "version" (get_dwar_info content) = Some (IStr v) ->
     v <> "" /\ string_forall (fun c => negb (isspace c)) v = true) /\
  (forall d, dict_get "created" (get_dwar_info content) = Some (IStr d) ->
     strip d = d).
Proof.
  destruct (get_dwar_info_entries content) as (_ & _ & Hv & Hc & _).
  rewrite Hv, Hc. split.
  - intros v H. destruct (re_search_by version_at content) as [g|] eqn:E;
      [|discriminate].
    inversion H. subst g. apply re_search_by_match in E as [t Ht].
    now apply version_at_token in Ht.
  - intros d H. destruct (re_search_by created_at content) as [g|];
      [|discriminate].
    inversion H. apply strip_idempotent.
Qed.

Lemma info_version_and_created_witness :
  ("5.1" <> "" /\
   string_forall (fun c => negb (isspace c)) "5.1" = true) /\
  strip "2023-01-01" = "2023-01-01".
Proof.
  destruct (info_version_and_created
              ("version 5.1" ++ nl ++ "created 2023-01-01  " ++ nl
               ++ sample_doc)) as [Hv Hc].
  split; [apply Hv | apply Hc]; reflexivity.
Defined.

Section CliFacts.

Variable node : World -> list string -> run_outcome.
Variable path_exists : string -> bool.
Variable read_text : string -> result string.
Variable splitext_root : string -> string.
Variable to_csv : string -> DataFrame -> result unit.

(** The branch of [--info] never gets past the rows. *)
Lemma show_info_raises (args : Args) :
  exists evs e,
    show_info read_text args = (evs, Some e) /\
    Forall (fun ev => exists m, ev = Printed m) evs.
Proof.
  unfold show_info, get_dwar_info_path.
  destruct (read_text (input_file args)) as [content|e].
  - destruct (get_dwar_info_entries content) as (_ & _ & _ & _ & Hrows & _).
    unfold dict_item. rewrite Hrows.
    eexists _, _. split; [reflexivity|]. repeat constructor. eauto.
  - exists [], e. split; [reflexivity | constructor].
Qed.

(** X20. With [--info], [main] always ends with the exit status 1:
    the file information has no entry "rows" to print. It writes no file
    and does not call the decoder. *)
Theorem main_info_exits (args : Args) (w : World) :
  info args = true ->
  exists evs,
    main node path_exists read_text splitext_root to_csv args w
    = (evs, Exited 1, w) /\
    Forall (fun ev => exists m, ev = Printed m) evs.
Proof.
  intros Hinfo. unfold main.
  destruct (path_exists (input_file args)); cbn [negb].
  - rewrite Hinfo. destruct (show_info_raises args) as (evs & e & -> & Hev).
    eexists. split; [reflexivity|]. apply Forall_app. split; [exact Hev|].
    repeat constructor. eauto.
  - eexists. split; [reflexivity|]. repeat constructor. eauto.
Qed.

(** X21. [main] returns (exit status 0) exactly when it has written
    the table; the table it writes comes from [LoadDwar] on the text of
    the input file, with the structure columns excluded unless
    [--keep-structures] is given, and it has at least one row and one
    column. In every other case it exits with the status 1 and writes
    nothing. *)
Theorem main_writes_or_fails (args : Args) (w : World) :
  match main node path_exists read_text splitext_root to_csv args w with
  | (evs, Returned, w') =>
      exists path df content,
        In (Wrote path df) evs /\
        path_exists (input_file args) = true /\
        info args = false /\
        read_text (input_file args) = Ok content /\
        LoadDwar node content (negb (keep_structures args)) w = (Ok df, w') /\
        rows df <> [] /\ columns df <> [] /\
        to_csv path df = Ok tt
  | (evs, Exited code, _) =>
      code = 1 /\ Forall (fun ev => exists m, ev = Printed m) evs
  end.
Proof.
  unfold main.
  destruct (path_exists (input_file args)); cbn [negb];
    [|split; [reflexivity | repeat constructor; eauto]].
  destruct (info args) eqn:Hinfo.
  - destruct (show_info_raises args) as (evs & e & -> & Hev).
    split; [reflexivity|]. apply Forall_app. split; [exact Hev|].
    repeat constructor. eauto.
  - unfold LoadDwar_path, bind, lift.
    destruct (read_text (input_file args)) as [content|e];
      [|split; [reflexivity | repeat constructor; eauto]].
    destruct (LoadDwar node content (negb (keep_structures args)) w)
      as [[df|e] w'] eqn:Hload;
      [|split; [reflexivity | repeat constructor; eauto]].
    destruct (frame_empty df) eqn:Hempty;
      [split; [reflexivity | repeat constructor; eauto]|].
    destruct (to_csv _ df) as [[]|e] eqn:Hcsv;
      [|split; [reflexivity | repeat constructor; eauto]].
    eexists _, df, content. split; [now left|].
    repeat split; try assumption; try reflexivity;
      unfold frame_empty in Hempty; intros E; rewrite E in Hempty;
      try discriminate; now destruct (rows df).
Qed.

End CliFacts.

(* ================================================================== *)
(** ** Writing and reading a column *)
(* ================================================================== *)

Lemma index_of_spec (c : string) (cols : list string) (i : nat) :
  index_of c cols = Some i -> nth_error cols i = Some c.
Proof.
  revert i. induction cols as [|x cols IH]; simpl; intros i; [discriminate|].
  destruct (String.eqb_spec x c) as [->|Hne].
  - intros H. now inversion H.
  - destruct (index_of c cols) as [j|]; [|discriminate].
    intros H. inversion H. simpl. now apply IH.
Qed.

Lemma index_of_app_other (c label : string) (cols : list string) :
  c <> label -> index_of c (cols ++ [label]) = index_of c cols.
Proof.
  intros Hne. induction cols as [|x cols IH]; simpl.
  - destruct (String.eqb_spec label c) as [E|_]; [congruence | reflexivity].
  - now rewrite IH.
Qed.

Lemma index_of_snoc_new (label : string) (cols : list string) :
  ~ In label cols -> index_of label (cols ++ [label]) = Some (length cols).
Proof.
  induction cols as [|x cols IH]; simpl; intros H.
  - now rewrite String.eqb_refl.
  - destruct (String.eqb_spec x label) as [->|_].
    + exfalso. apply H. now left.
    + rewrite IH; [reflexivity|]. intros Hin. apply H. now right.
Qed.

Lemma filter_eqb_app_other (c label : string) (cols : list string) :
  c <> label ->
  filter (String.eqb c) (cols ++ [label]) = filter (String.eqb c) cols.
Proof.
  intros Hne. rewrite filter_app. simpl.
  destruct (String.eqb_spec c label) as [E|_]; [congruence|].
  apply app_nil_r.
Qed.

Lemma nth_overwrite (label : string) (v : cell) (cols : list string) :
  forall (row : list cell) (i : nat) (c : string),
  length row = length cols ->
  nth_error cols i = Some c ->
  nth i (overwrite cols label v row) None
  = if (c =? label)%string then v else nth i row None.
Proof.
  induction cols as [|x cols IH]; intros [|y row] i c Hlen Hi;
    try discriminate; destruct i as [|i]; simpl in *; try discriminate.
  - now inversion Hi.
  - apply IH; [lia | exact Hi].
Qed.

Lemma map_combine_fst {A B C} (f : A -> C) (l : list A) (l' : list B) :
  length l' = length l ->
  map (fun p => f (fst p)) (combine l l') = map f l.
Proof.
  revert l'. induction l as [|x l IH]; intros [|y l'] H; simpl in *;
    try discriminate; [reflexivity|].
  f_equal. apply IH. lia.
Qed.

Lemma map_combine_snd {A B} (l : list A) (l' : list B) :
  length l' = length l -> map snd (combine l l') = l'.
Proof.
  revert l'. induction l as [|x l IH]; intros [|y l'] H; simpl in *;
    try discriminate; [reflexivity|].
  f_equal. apply IH. lia.
Qed.

(** Writing a column and reading the table back: the column holds the
    values, every other column holds what it held. *)
Lemma set_column_lookup (df df' : DataFrame) (label : string)
    (values : list cell) :
  well_formed df ->
  occurrences label df <= 1 ->
  set_column df label values = Ok df' ->
  column_tolist df' label = Ok values /\
  forall c, c <> label -> column_tolist df' c = column_tolist df c.
Proof.
  intros Hwf Hocc. unfold set_column.
  destruct (length values =? length (rows df))%nat eqn:Hlen;
    [|discriminate].
  apply Nat.eqb_eq in Hlen. cbn [negb].
  unfold well_formed in Hwf. rewrite Forall_forall in Hwf.
  destruct (has_column label df) eqn:Hh; intros H; inversion H; subst df';
    clear H; unfold column_tolist; cbn [columns rows]; unfold cell in *.
  - apply has_column_In in Hh. unfold occurrences in Hocc.
    pose proof (filter_eqb_In label (columns df) Hh) as Hne.
    destruct (filter (String.eqb label) (columns df)) as [|x [|y l]] eqn:Ef;
      [contradiction | | simpl in Hocc; lia].
    split.
    + destruct (index_of_In label (columns df) Hh) as [i Hi]. rewrite Hi.
      rewrite map_map. apply f_equal.
      transitivity (map snd (combine (rows df) values));
        [|now apply map_combine_snd].
      apply map_ext_in. intros [r v] Hin. cbn [fst snd].
      etransitivity;
        [apply (nth_overwrite label v (columns df) r i label)|].
      * apply Hwf. now apply in_combine_l in Hin.
      * now apply index_of_spec.
      * now rewrite String.eqb_refl.
    + intros c Hc.
      destruct (filter (String.eqb c) (columns df)) as [|x' [|y' l']];
        try reflexivity.
      destruct (index_of c (columns df)) as [i|] eqn:Hi; [|reflexivity].
      rewrite map_map.
      rewrite <- (map_combine_fst (fun r => nth i r None) (rows df) values
                    Hlen).
      apply f_equal, map_ext_in. intros [r v] Hin. cbn [fst snd].
      etransitivity;
        [apply (nth_overwrite label v (columns df) r i c)|].
      * apply Hwf. now apply in_combine_l in Hin.
      * now apply index_of_spec.
      * destruct (String.eqb_spec c label); [contradiction | reflexivity].
  - assert (Hnot : ~ In label (columns df)).
    { intros Hin. apply has_column_In in Hin. congruence. }
    split.
    + rewrite filter_app. cbn [filter]. rewrite String.eqb_refl.
      rewrite (filter_none (String.eqb label) (columns df)).
      * cbn [app]. rewrite (index_of_snoc_new label (columns df) Hnot).
        rewrite map_map. apply f_equal.
        transitivity (map snd (combine (rows df) values));
          [|now apply map_combine_snd].
        apply map_ext_in. intros [r v] Hin. cbn [fst snd].
        rewrite <- (Hwf r) by now apply in_combine_l in Hin.
        now rewrite nth_middle.
      * intros x Hx. apply String.eqb_neq. intros ->. contradiction.
    + intros c Hc.
      rewrite (filter_eqb_app_other c label (columns df) Hc),
        (index_of_app_other c label (columns df) Hc).
      destruct (filter (String.eqb c) (columns df)) as [|x' [|y' l']];
        try reflexivity.
      destruct (index_of c (columns df)) as [i|] eqn:Hi; [|reflexivity].
      rewrite map_map.
      rewrite <- (map_combine_fst (fun r => nth i r None) (rows df) values
                    Hlen).
      apply f_equal, map_ext_in. intros [r v] Hin. cbn [fst snd].
      apply app_nth1.
      assert (Hr : length r = length (columns df))
        by (apply Hwf; now apply in_combine_l in Hin).
      rewrite Hr. apply index_of_spec in Hi. apply nth_error_Some. congruence.
Qed.

(** X22. With one identifier column, [decode_structures_in_dataframe]
    hands the cells of that column to [decode_idcodes] and stores the
    results, row by row, in the column "<name>_SMILES"; every other
    column reads as before. *)
Theorem decode_structures_stores_results
    (node : World -> list string -> run_outcome)
    (df df' : DataFrame) (info : dict col_props) (col : string)
    (w w' : World) :
  well_formed df ->
  fst (find_idcode_columns_for_decoding df info) = [col] ->
  occurrences (col ++ "_SMILES") df <= 1 ->
  decode_structures_in_dataframe node df info w = (Ok df', w') ->
  exists idcodes out,
    column_tolist df col = Ok idcodes /\
    decode_idcodes node idcodes w = (Ok out, w') /\
    column_tolist df' (col ++ "_SMILES") = Ok out /\
    forall c, c <> (col ++ "_SMILES")%string ->
              column_tolist df' c = column_tolist df c.
Proof.
  intros Hwf Hplan Hocc. rewrite decode_structures_columns.
  rewrite find_idcode_columns_items in Hplan. cbn [fst] in Hplan.
  rewrite Hplan. cbn [decode_columns]. unfold bind at 1. unfold lift at 1.
  destruct (column_tolist df col) as [idcodes|e] eqn:Hcol; [|discriminate].
  unfold bind at 1.
  destruct (decode_idcodes node idcodes w) as [[out|e] w1] eqn:Hdec;
    [|discriminate].
  unfold bind at 1. unfold lift at 1.
  destruct (set_column df (col ++ "_SMILES") out) as [df1|e] eqn:Hset;
    [|discriminate].
  intros H. inversion H. subst df1 w1.
  destruct (set_column_lookup df df' (col ++ "_SMILES") out Hwf Hocc Hset)
    as [Hread Hother].
  now exists idcodes, out.
Qed.

Lemma decode_structures_stores_results_witness :
  exists idcodes out,
    column_tolist (assembled sample_doc) "Structure" = Ok idcodes /\
    decode_idcodes (answer "0:C1=CC=CC=C1") idcodes []
    = (Ok out, [["ABC"; "ABC"]]) /\
    column_tolist
      (mk_frame ["ID"; "Structure"; "Name"; "Structure_SMILES"]
         [[Some "1"; Some "ABC"; Some "first"; Some "C1=CC=CC=C1"];
          [Some "2"; Some "ABC"; Some "second"; Some "C1=CC=CC=C1"]])
      ("Structure" ++ "_SMILES") = Ok out /\
    forall c, c <> ("Structure" ++ "_SMILES")%string ->
      column_tolist
        (mk_frame ["ID"; "Structure"; "Name"; "Structure_SMILES"]
           [[Some "1"; Some "ABC"; Some "first"; Some "C1=CC=CC=C1"];
            [Some "2"; Some "ABC"; Some "second"; Some "C1=CC=CC=C1"]]) c
      = column_tolist (assembled sample_doc) c.
Proof.
  apply (decode_structures_stores_results (answer "0:C1=CC=CC=C1")
           (assembled sample_doc)
           (mk_frame ["ID"; "Structure"; "Name"; "Structure_SMILES"]
              [[Some "1"; Some "ABC"; Some "first"; Some "C1=CC=CC=C1"];
               [Some "2"; Some "ABC"; Some "second"; Some "C1=CC=CC=C1"]])
           (extract_column_properties sample_doc) "Structure"
           [] [["ABC"; "ABC"]]).
  - apply assemble_well_formed.
  - reflexivity.
  - vm_compute. lia.
  - reflexivity.
Defined.

Lemma main_info_exits_witness :
  exists evs,
    main (answer "0:CCO") (fun _ => true) (fun _ => Ok sample_doc)
      (fun _ => "sample") (fun _ _ => Ok tt)
      (mk_args "sample.dwar" None false true) []
    = (evs, Exited 1, []) /\
    Forall (fun ev => exists m, ev = Printed m) evs.
Proof.
  apply (main_info_exits (answer "0:CCO") (fun _ => true)
           (fun _ => Ok sample_doc) (fun _ => "sample") (fun _ _ => Ok tt)
           (mk_args "sample.dwar" None false true) []).
  reflexivity.
Defined.

Example main_example :
  main (answer "0:C1=CC=CC=C1") (fun _ => true) (fun _ => Ok sample_doc)
    (fun _ => "sample") (fun _ _ => Ok tt)
    (mk_args "sample.dwar" None false false) []
  = ([Wrote "sample.csv"
        (mk_frame ["ID"; "Name"; "Structure_SMILES"]
           [[Some "1"; Some "first"; Some "C1=CC=CC=C1"];
            [Some "2"; Some "second"; Some "C1=CC=CC=C1"]]);
      Printed (Text "Successfully converted 2 rows to sample.csv")],
     Returned, [["ABC"; "ABC"]]).
Proof. reflexivity. Qed.

Example main_info_example :
  main (answer "0:C1=CC=CC=C1") (fun _ => true) (fun _ => Ok sample_doc)
    (fun _ => "sample") (fun _ _ => Ok tt)
    (mk_args "sample.dwar" None false true) []
  = ([Printed (Text "File: sample.dwar"); Printed (ErrorOf KeyError)],
     Exited 1, []).
Proof. reflexivity. Qed.

Example get_dwar_info_example :
  get_dwar_info ("version 5.1" ++ nl ++ "created 2023-01-01 " ++ nl
                 ++ sample_doc)
  = [("version", IStr "5.1"); ("created", IStr "2023-01-01");
     ("rowcount", IInt 2);
     ("columns",
      IColumns [("Structure", mk_props "string" (Some "idcode") None)])].
Proof. reflexivity. Qed.

Example created_at_example :
  map (re_search_by created_at)
    ["created 2023"; ("created " ++ tab)%string; ("created " ++ nl)%string;
     "created"; ("created" ++ nl ++ nl ++ "x y" ++ nl ++ "z")%string]
  = [Some "2023"; Some tab; None; None; Some "x y"].
Proof. reflexivity. Qed.

Example version_at_example :
  map (re_search_by version_at)
    ["version 5.1 beta"; "version"; "version "; "<version=3>";
     ("conversion" ++ tab ++ nl ++ "x")%string]
  = [Some "5.1"; None; None; None; Some "x"].
Proof. reflexivity. Qed.
